(** * ndsbr_py: the telemetry enrichment pipeline

    A shallow embedding of [src/ndsbr.py], [src/utils.py] and [main.py].
    The program is a straight-line batch job over pandas / geopandas tables:
    a table is modelled column-major, as pandas stores it, and every
    operation that can raise returns in an error monad.  The spatial
    primitives of the geometry engine (containment, distance, change of
    reference system) are taken through an interface, [GeoBackend]. *)

From Stdlib Require Import String Ascii List ZArith QArith Qreduction Bool Lia.
Import ListNotations.
Local Open Scope string_scope.
Local Open Scope Z_scope.
Local Open Scope list_scope.

(** ** Exceptions and the error monad *)

Inductive exn : Type :=
| KeyError (label : string)
| ValueError (msg : string)
| AttributeError (msg : string)
| TypeError (msg : string)
| OutOfBoundsDatetime.

Inductive result (A : Type) : Type :=
| Ok (a : A)
| Raise (e : exn).
Arguments Ok {A} a.
Arguments Raise {A} e.

Definition bind {A B : Type} (m : result A) (k : A -> result B) : result B :=
  match m with
  | Ok a => k a
  | Raise e => Raise e
  end.

Declare Scope result_scope.
Delimit Scope result_scope with result.
Notation "x <- m ;; k" := (bind m (fun x => k))
  (at level 61, m at next level, right associativity) : result_scope.
Local Open Scope result_scope.

Fixpoint mapM {A B : Type} (f : A -> result B) (l : list A) : result (list B) :=
  match l with
  | [] => Ok []
  | a :: l' => b <- f a ;; bs <- mapM f l' ;; Ok (b :: bs)
  end.

(** ** Cell values *)

(** A binary64 as Python's [float] produces it from text.  A finite value is
    carried as the exact rational its literal denotes (kept reduced); the
    rounding to 53 bits is not modelled. *)
Inductive pyfloat : Type :=
| FNaN
| FInf (neg : bool)
| FNum (q : Q).

Definition is_finite (f : pyfloat) : bool :=
  match f with FNum _ => true | _ => false end.

(** Geometries are coordinate data; what the engine computes on them is in
    [GeoBackend]. *)
Inductive geom : Type :=
| Point (x y : pyfloat)
| LineString (vertices : list (Q * Q))
| Polygon (ring : list (Q * Q)).

(** One cell of a table.  [VNull] stands for NaN, None and NaT alike: pandas
    treats the three as missing.  [VTime] is a [datetime64[ns]]: nanoseconds
    since 1970-01-01T00:00:00. *)
Inductive value : Type :=
| VNull
| VStr (s : string)
| VInt (z : Z)
| VFloat (f : pyfloat)
| VTime (ns : Z)
| VGeom (g : geom).

Definition isna (v : value) : bool :=
  match v with
  | VNull => true
  | VFloat FNaN => true
  | _ => false
  end.

(** ** Tables *)

Definition Series := list value.

(** [index] holds the row labels (so [len(df)] is its length), [columns] the
    labelled columns in order, [crs] the EPSG code of a GeoDataFrame's
    reference system ([None] on a plain DataFrame or naive geometries).
    Labels are taken to be distinct, as [read_csv] and the suffixes of the
    joins make them: a label is looked up at its first column. *)
Record DataFrame : Type := mkDF {
  index : list Z;
  columns : list (string * Series);
  crs : option Z
}.

Definition names (df : DataFrame) : list string := map fst (columns df).
Definition nrows (df : DataFrame) : nat := length (index df).

(** Every column has one cell per row. *)
Definition aligned (df : DataFrame) : Prop :=
  Forall (fun c => length (snd c) = nrows df) (columns df).

Fixpoint lookup {A : Type} (c : string) (l : list (string * A)) : option A :=
  match l with
  | [] => None
  | (k, v) :: l' => if String.eqb c k then Some v else lookup c l'
  end.

Definition has_column (c : string) (df : DataFrame) : bool :=
  existsb (String.eqb c) (names df).

(** [df[c]] *)
Definition getitem (c : string) (df : DataFrame) : result Series :=
  match lookup c (columns df) with
  | Some s => Ok s
  | None => Raise (KeyError c)
  end.

(** [df[cols]]: the listed columns in the listed order; a label that is not a
    column raises [KeyError] (reported here for the first missing label). *)
Definition getitem_list (cols : list string) (df : DataFrame) : result DataFrame :=
  cs <- mapM (fun c => s <- getitem c df ;; Ok (c, s)) cols ;;
  Ok (mkDF (index df) cs (crs df)).

Definition rename_label (m : list (string * string)) (c : string) : string :=
  match lookup c m with
  | Some c' => c'
  | None => c
  end.

(** [df.rename(columns=m)] *)
Definition rename (m : list (string * string)) (df : DataFrame) : DataFrame :=
  mkDF (index df)
       (map (fun c => (rename_label m (fst c), snd c)) (columns df))
       (crs df).

Fixpoint set_column (c : string) (s : Series) (l : list (string * Series))
  : list (string * Series) :=
  match l with
  | [] => [(c, s)]
  | (k, v) :: l' =>
      if String.eqb c k then (k, s) :: l' else (k, v) :: set_column c s l'
  end.

(** [df[c] = s]: replaces the column in place, or appends it as last column. *)
Definition setitem (c : string) (s : Series) (df : DataFrame) : DataFrame :=
  mkDF (index df) (set_column c s (columns df)) (crs df).

(** [df.drop(columns=[c])] *)
Definition drop (c : string) (df : DataFrame) : result DataFrame :=
  if has_column c df
  then Ok (mkDF (index df)
                (filter (fun kv => negb (String.eqb c (fst kv))) (columns df))
                (crs df))
  else Raise (KeyError c).

(** ** Text to float *)

Definition is_digit (a : ascii) : bool :=
  let n := nat_of_ascii a in (48 <=? n)%nat && (n <=? 57)%nat.

Definition digit_val (a : ascii) : Z := Z.of_nat (nat_of_ascii a) - 48.

(** The characters [str.strip] and [\s] take for white space (ASCII). *)
Definition is_space (a : ascii) : bool :=
  let n := nat_of_ascii a in
  (n =? 32)%nat || ((9 <=? n)%nat && (n <=? 13)%nat).

Definition to_lower (a : ascii) : ascii :=
  let n := nat_of_ascii a in
  if (65 <=? n)%nat && (n <=? 90)%nat then ascii_of_nat (n + 32) else a.

Fixpoint lstrip (l : list ascii) : list ascii :=
  match l with
  | a :: l' => if is_space a then lstrip l' else l
  | [] => []
  end.

Definition strip (l : list ascii) : list ascii :=
  rev (lstrip (rev (lstrip l))).

Fixpoint span (p : ascii -> bool) (l : list ascii) : list ascii * list ascii :=
  match l with
  | a :: l' =>
      if p a then let (u, v) := span p l' in (a :: u, v) else ([], l)
  | [] => ([], [])
  end.

Definition ascii_eqb (a b : ascii) : bool := Ascii.eqb a b.

(** [digitpart ::= digit (["_"] digit)*]: on the longest run of digits and
    underscores, every underscore must stand between two digits. *)
Fixpoint digitpart_ok (prev_digit : bool) (l : list ascii) : bool :=
  match l with
  | [] => prev_digit
  | a :: l' =>
      if is_digit a then digitpart_ok true l'
      else prev_digit && digitpart_ok false l'
  end.

Definition digits_of (l : list ascii) : list ascii := filter is_digit l.

Definition nat_of_digits (l : list ascii) : Z :=
  fold_left (fun acc a => 10 * acc + digit_val a) l 0.

Definition is_digit_or_us (a : ascii) : bool :=
  is_digit a || ascii_eqb a "_"%char.

Definition pow10 (e : Z) : Q :=
  if 0 <=? e then inject_Z (10 ^ e) else / inject_Z (10 ^ (- e)).

(** Literals at or above [2^1024 - 2^970] round to infinity. *)
Definition overflow_threshold : Q := inject_Z (2 ^ 1024 - 2 ^ 970).

Definition round_literal (neg : bool) (q : Q) : pyfloat :=
  if Qle_bool overflow_threshold q then FInf neg
  else FNum (Qred (if neg then - q else q)).

Definition parse_sign (l : list ascii) : bool * list ascii :=
  match l with
  | a :: l' =>
      if ascii_eqb a "-"%char then (true, l')
      else if ascii_eqb a "+"%char then (false, l')
      else (false, l)
  | [] => (false, [])
  end.

(** [exponent ::= ("e" | "E") [sign] digitpart], or nothing. *)
Definition parse_exponent (l : list ascii) : option Z :=
  match l with
  | [] => Some 0
  | a :: l' =>
      if ascii_eqb (to_lower a) "e"%char then
        let (neg, l'') := parse_sign l' in
        let (ds, rest) := span is_digit_or_us l'' in
        match rest with
        | [] =>
            if digitpart_ok false ds
            then Some (let n := nat_of_digits (digits_of ds) in
                       if neg then - n else n)
            else None
        | _ => None
        end
      else None
  end.

(** [floatnumber ::= ([digitpart] "." digitpart | digitpart ["."]) [exponent]] *)
Definition parse_floatnumber (l : list ascii) : option Q :=
  let (ip, r1) := span is_digit_or_us l in
  let '(fp, r2) :=
    match r1 with
    | a :: r1' =>
        if ascii_eqb a "."%char then span is_digit_or_us r1' else ([], r1)
    | [] => ([], [])
    end in
  let ip_ok := match ip with [] => true | _ => digitpart_ok false ip end in
  let fp_ok := match fp with [] => true | _ => digitpart_ok false fp end in
  let some_digit := match ip, fp with [], [] => false | _, _ => true end in
  if ip_ok && fp_ok && some_digit then
    match parse_exponent r2 with
    | Some e =>
        let fd := digits_of fp in
        let m := nat_of_digits (digits_of ip ++ fd) in
        Some (inject_Z m * pow10 (e - Z.of_nat (length fd)))%Q
    | None => None
    end
  else None.

(** Python's [float(s)]: white space stripped, an optional sign, then
    [inf], [infinity] or [nan] in any letter case, or a decimal number. *)
Definition float_of_string (s : string) : option pyfloat :=
  let (neg, body) := parse_sign (strip (list_ascii_of_string s)) in
  let low := string_of_list_ascii (map to_lower body) in
  if String.eqb low "nan" then Some FNaN
  else if String.eqb low "inf" || String.eqb low "infinity" then Some (FInf neg)
  else match parse_floatnumber body with
       | Some q => Some (round_literal neg q)
       | None => None
       end.

(** [Series.str]: on a text column (strings and missing values) only. *)
Definition str_accessor (s : Series) : result (list (option string)) :=
  mapM (fun v => match v with
                 | VStr t => Ok (Some t)
                 | VNull => Ok None
                 | _ => Raise (AttributeError
                                 "Can only use .str accessor with string values")
                 end) s.

Definition replace_char (a b : ascii) (s : string) : string :=
  string_of_list_ascii
    (map (fun c => if ascii_eqb c a then b else c) (list_ascii_of_string s)).

(** [.str.replace(",", ".")]: every comma becomes a point; missing stays
    missing. *)
Definition str_replace_comma (l : list (option string)) : list (option string) :=
  map (option_map (replace_char ","%char "."%char)) l.

(** [.astype(float)] on a text column: each string through [float], a
    missing value becomes NaN, an unparsable string raises. *)
Definition astype_float (l : list (option string)) : result Series :=
  mapM (fun o => match o with
                 | None => Ok (VFloat FNaN)
                 | Some t =>
                     match float_of_string t with
                     | Some f => Ok (VFloat f)
                     | None => Raise (ValueError "could not convert string to float")
                     end
                 end) l.

(** ** [clean_cols] *)

Definition COLS : list string :=
  [ "DRIVER"; "LONG"; "LAT"; "DAY"; "TRIP"; "ID"; "PR"; "TIME_ACUM";
    "SPD_KMH"; "VALID_TIME"; "TIMESTAMP"; "ACEL_MS2" ].

Definition RENAME : list (string * string) :=
  [ ("DRIVER", "driver"); ("LONG", "long"); ("LAT", "lat"); ("DAY", "date");
    ("TRIP", "trip"); ("ID", "id"); ("PR", "time");
    ("TIME_ACUM", "time_acum"); ("SPD_KMH", "spd_kmh");
    ("VALID_TIME", "valid_time"); ("ACEL_MS2", "acel_ms2") ].

Definition to_float (df : DataFrame) (col : string) : result Series :=
  s <- getitem col df ;;
  t <- str_accessor s ;;
  astype_float (str_replace_comma t).

Definition FLOAT_COLS : list string := [ "long"; "lat"; "spd_kmh"; "acel_ms2" ].

Fixpoint to_float_loop (cols : list string) (df : DataFrame) : result DataFrame :=
  match cols with
  | [] => Ok df
  | col :: cols' =>
      s <- to_float df col ;;
      to_float_loop cols' (setitem col s df)
  end.

Definition clean_cols (df : DataFrame) : result DataFrame :=
  df <- getitem_list COLS df ;;
  let df := rename RENAME df in
  to_float_loop FLOAT_COLS df.

(** ** Text to timestamp *)

(** The directives the program's format strings use. *)
Inductive directive : Type := Dd | Dm | DY | DH | DM | DS.

Inductive fmt_item : Type :=
| Field (d : directive)
| Lit (a : ascii)
| Spaces.

(** A format string as the parser reads it: [%x] is a directive, white space
    stands for one or more white-space characters, anything else for
    itself.  [None] on a directive outside the six above. *)
Fixpoint compile_format (l : list ascii) : option (list fmt_item) :=
  match l with
  | [] => Some []
  | "%"%char :: c :: l' =>
      match
        (if ascii_eqb c "d" then Some Dd
         else if ascii_eqb c "m" then Some Dm
         else if ascii_eqb c "Y" then Some DY
         else if ascii_eqb c "H" then Some DH
         else if ascii_eqb c "M" then Some DM
         else if ascii_eqb c "S" then Some DS
         else None), compile_format l'
      with
      | Some d, Some items => Some (Field d :: items)
      | _, _ => None
      end
  | a :: l' =>
      match compile_format l' with
      | Some items =>
          if is_space a then
            match items with
            | Spaces :: _ => Some items
            | _ => Some (Spaces :: items)
            end
          else Some (Lit a :: items)
      | None => None
      end
  end.

Definition digit_in (lo hi : Z) (a : ascii) : bool :=
  is_digit a && (lo <=? digit_val a) && (digit_val a <=? hi).

Definition two_digits (p1 p2 : ascii -> bool) (l : list ascii)
  : list (Z * list ascii) :=
  match l with
  | a :: b :: r =>
      if p1 a && p2 b then [(10 * digit_val a + digit_val b, r)] else []
  | _ => []
  end.

Definition one_digit (p : ascii -> bool) (l : list ascii)
  : list (Z * list ascii) :=
  match l with
  | a :: r => if p a then [(digit_val a, r)] else []
  | [] => []
  end.

(** The ways a directive can match at the head of the text, in the order
    its regular expression tries them:
    [%d] is [3[0-1]|[1-2]\d|0[1-9]|[1-9]| [1-9]],
    [%m] is [1[0-2]|0[1-9]|[1-9]], [%Y] is [\d\d\d\d],
    [%H] is [2[0-3]|[0-1]\d|\d], [%M] is [[0-5]\d|\d],
    [%S] is [6[0-1]|[0-5]\d|\d]. *)
Definition alternatives (d : directive) (l : list ascii) : list (Z * list ascii) :=
  match d with
  | Dd =>
      two_digits (digit_in 3 3) (digit_in 0 1) l
      ++ two_digits (digit_in 1 2) is_digit l
      ++ two_digits (digit_in 0 0) (digit_in 1 9) l
      ++ one_digit (digit_in 1 9) l
      ++ match l with
         | a :: r => if ascii_eqb a " " then one_digit (digit_in 1 9) r else []
         | [] => []
         end
  | Dm =>
      two_digits (digit_in 1 1) (digit_in 0 2) l
      ++ two_digits (digit_in 0 0) (digit_in 1 9) l
      ++ one_digit (digit_in 1 9) l
  | DY =>
      match l with
      | a :: b :: c :: d :: r =>
          if is_digit a && is_digit b && is_digit c && is_digit d
          then [(nat_of_digits [a; b; c; d], r)] else []
      | _ => []
      end
  | DH =>
      two_digits (digit_in 2 2) (digit_in 0 3) l
      ++ two_digits (digit_in 0 1) is_digit l
      ++ one_digit is_digit l
  | DM =>
      two_digits (digit_in 0 5) is_digit l ++ one_digit is_digit l
  | DS =>
      two_digits (digit_in 6 6) (digit_in 0 1) l
      ++ two_digits (digit_in 0 5) is_digit l
      ++ one_digit is_digit l
  end.

(** What remains after [\s+], longest run first. *)
Fixpoint space_tails (l : list ascii) : list (list ascii) :=
  match l with
  | a :: r => if is_space a then space_tails r ++ [r] else []
  | [] => []
  end.

Record civil : Type := mkCivil {
  year : Z; month : Z; day : Z; hour : Z; minute : Z; second : Z
}.

(** Fields a format leaves out: 1900-01-01 00:00:00. *)
Definition civil_default : civil := mkCivil 1900 1 1 0 0 0.

Definition set_field (d : directive) (v : Z) (c : civil) : civil :=
  match d with
  | Dd => mkCivil (year c) (month c) v (hour c) (minute c) (second c)
  | Dm => mkCivil (year c) v (day c) (hour c) (minute c) (second c)
  | DY => mkCivil v (month c) (day c) (hour c) (minute c) (second c)
  | DH => mkCivil (year c) (month c) (day c) v (minute c) (second c)
  | DM => mkCivil (year c) (month c) (day c) (hour c) v (second c)
  | DS => mkCivil (year c) (month c) (day c) (hour c) (minute c) v
  end.

(** All matches of the format at the head of the text, in the order a
    backtracking matcher finds them. *)
Fixpoint regex_match (items : list fmt_item) (l : list ascii) (acc : civil)
  : list (civil * list ascii) :=
  match items with
  | [] => [(acc, l)]
  | Lit a :: items' =>
      match l with
      | b :: r => if ascii_eqb a b then regex_match items' r acc else []
      | [] => []
      end
  | Spaces :: items' =>
      flat_map (fun r => regex_match items' r acc) (space_tails l)
  | Field d :: items' =>
      flat_map (fun vr => regex_match items' (snd vr) (set_field d (fst vr) acc))
               (alternatives d l)
  end.

Definition is_leap (y : Z) : bool :=
  ((y mod 4 =? 0) && negb (y mod 100 =? 0)) || (y mod 400 =? 0).

Definition days_in_month (y m : Z) : Z :=
  if m =? 2 then (if is_leap y then 29 else 28)
  else if (m =? 4) || (m =? 6) || (m =? 9) || (m =? 11) then 30
  else 31.

(** [datetime.date(y, m, d)] accepts the triple. *)
Definition valid_date (c : civil) : bool :=
  (1 <=? year c) && (year c <=? 9999)
  && (1 <=? month c) && (month c <=? 12)
  && (1 <=? day c) && (day c <=? days_in_month (year c) (month c)).

(** Days from 1970-01-01 to the civil date (proleptic Gregorian). *)
Definition days_from_civil (y m d : Z) : Z :=
  let y' := if m <=? 2 then y - 1 else y in
  let era := y' / 400 in
  let yoe := y' - era * 400 in
  let mp := (m + 9) mod 12 in
  let doy := (153 * mp + 2) / 5 + d - 1 in
  let doe := yoe * 365 + yoe / 4 - yoe / 100 + doy in
  era * 146097 + doe - 719468.

Definition nanoseconds (c : civil) : Z :=
  (days_from_civil (year c) (month c) (day c) * 86400
   + hour c * 3600 + minute c * 60 + second c) * 1000000000.

(** A [datetime64[ns]] is a signed 64-bit count; the least one is NaT. *)
Definition in_bounds (ns : Z) : bool :=
  (- 2 ^ 63 <? ns) && (ns <? 2 ^ 63).

Definition nat_strings : list string :=
  [ "NaT"; "nat"; "NAT"; "nan"; "NaN"; "NAN" ].

(** One string through [strptime] with an exact match: the first match of
    the format must reach the end of the text. *)
Definition strptime (fmt : string) (s : string) : result Z :=
  match compile_format (list_ascii_of_string fmt) with
  | None => Raise (ValueError "bad directive in format")
  | Some items =>
      match regex_match items (list_ascii_of_string s) civil_default with
      | [] => Raise (ValueError "time data does not match format")
      | (c, rest) :: _ =>
          match rest with
          | _ :: _ => Raise (ValueError "unconverted data remains")
          | [] =>
              if valid_date c then
                let ns := nanoseconds c in
                if in_bounds ns then Ok ns else Raise OutOfBoundsDatetime
              else Raise (ValueError "day is out of range for month")
          end
      end
  end.

(** [pd.to_datetime(s, format=fmt)] with the default [errors="raise"]: a
    missing value, the empty string and the NaT spellings give NaT. *)
Definition to_datetime (fmt : string) (s : Series) : result Series :=
  mapM (fun v =>
          match v with
          | VStr t =>
              if String.eqb t "" || existsb (String.eqb t) nat_strings
              then Ok VNull
              else ns <- strptime fmt t ;; Ok (VTime ns)
          | VInt _ | VFloat (FNum _) | VFloat (FInf _) | VTime _ | VGeom _ =>
              Raise (ValueError "time data does not match format")
          | VNull | VFloat FNaN => Ok VNull
          end) s.

(** Element-wise [+] of text: a missing operand gives a missing result,
    two strings are concatenated, anything else is a type error. *)
Definition add_text (a b : value) : result value :=
  if isna a || isna b then Ok VNull
  else match a, b with
       | VStr x, VStr y => Ok (VStr (x ++ y))
       | _, _ => Raise (TypeError "unsupported operand type(s) for +")
       end.

Fixpoint add_series (x y : Series) : result Series :=
  match x, y with
  | a :: x', b :: y' => c <- add_text a b ;; r <- add_series x' y' ;; Ok (c :: r)
  | _, _ => Ok []
  end.

Definition add_scalar (x : Series) (s : string) : result Series :=
  mapM (fun a => add_text a (VStr s)) x.

(** ** [create_datetime] *)

Definition create_datetime (date_col time_col : string) (df : DataFrame)
  : result DataFrame :=
  d <- getitem date_col df ;;
  ds <- add_scalar d " " ;;
  t <- getitem time_col df ;;
  dt <- add_series ds t ;;
  let df := setitem "datetime" dt df in
  dt <- getitem "datetime" df ;;
  dt <- to_datetime "%d/%m/%Y %H:%M:%S" dt ;;
  let df := setitem "datetime" dt df in
  d <- getitem date_col df ;;
  d <- to_datetime "%d/%m/%Y" d ;;
  Ok (setitem date_col d df).

(** ** The geometry engine *)

(** What the program asks of the geometry engine: [contains a b] is the
    predicate of the containment join, [distance] the planar distance the
    nearest-neighbour search minimises ([None] on an empty geometry, which
    the search skips), [transform src dst] the change of coordinates between
    two reference systems named by their EPSG codes. *)
Class GeoBackend : Type := {
  contains : geom -> geom -> bool;
  distance : geom -> geom -> option Q;
  transform : Z -> Z -> geom -> geom
}.

Definition reserved (c : string) : bool :=
  String.eqb c "index_left" || String.eqb c "index_right".

Definition suffixed (suffix : string) (others : list string) (c : string) : string :=
  if existsb (String.eqb c) others then (c ++ "_" ++ suffix)%string else c.

Definition without_geometry (l : list (string * Series)) : list (string * Series) :=
  filter (fun kv => negb (String.eqb (fst kv) "geometry")) l.

(** Positional selection of rows, [NaN] where a join found no partner. *)
Definition take (idx : list nat) (s : Series) : Series :=
  map (fun i => nth i s VNull) idx.

Definition take_opt (idx : list (option nat)) (s : Series) : Series :=
  map (fun o => match o with Some i => nth i s VNull | None => VNull end) idx.

Definition take_labels (idx : list nat) (l : list Z) : list Z :=
  map (fun i => nth i l 0) idx.

Definition labels_opt (idx : list (option nat)) (l : list Z) : Series :=
  map (fun o => match o with Some i => VInt (nth i l 0) | None => VNull end) idx.

Fixpoint find_all {A : Type} (f : A -> bool) (l : list A) (i : nat) : list nat :=
  match l with
  | [] => []
  | a :: l' => (if f a then [i] else []) ++ find_all f l' (S i)
  end.

Fixpoint minimum (l : list Q) : option Q :=
  match l with
  | [] => None
  | d :: l' =>
      match minimum l' with
      | None => Some d
      | Some m => Some (if Qle_bool d m then d else m)
      end
  end.

Section Spatial.

Context `{GeoBackend}.

Definition transform_value (src dst : Z) (v : value) : value :=
  match v with
  | VGeom g => VGeom (transform src dst g)
  | _ => v
  end.

(** [gdf.to_crs(dst)] *)
Definition to_crs (dst : option Z) (df : DataFrame) : result DataFrame :=
  match dst with
  | None => Raise (ValueError "Must pass either crs or epsg")
  | Some d =>
      match crs df with
      | None => Raise (ValueError "Cannot transform naive geometries")
      | Some c =>
          g <- getitem "geometry" df ;;
          Ok (mkDF (index df)
                   (set_column "geometry" (map (transform_value c d) g) (columns df))
                   (Some d))
      end
  end.

(** The polygons of [polys] (by position) that contain the point cell. *)
Definition containing (polys : Series) (p : value) : list nat :=
  match p with
  | VGeom pt =>
      find_all (fun v => match v with
                         | VGeom poly => contains poly pt
                         | _ => false
                         end) polys 0%nat
  | _ => []
  end.

(** Row pairs of a [how="right"] join: every right row appears, once per
    matching left row, or once with no partner. *)
Fixpoint right_pairs (polys : Series) (pts : Series) (j : nat)
  : list (option nat * nat) :=
  match pts with
  | [] => []
  | p :: pts' =>
      match containing polys p with
      | [] => [(None, j)]
      | hits => map (fun i => (Some i, j)) hits
      end ++ right_pairs polys pts' (S j)
  end.

(** [gpd.sjoin(left, right, how="right", predicate="contains")] *)
Definition sjoin_right_contains (left right : DataFrame) : result DataFrame :=
  if existsb reserved (names left) || existsb reserved (names right) then
    Raise (ValueError "index_left and index_right cannot be names in the frames being joined")
  else
    lg <- getitem "geometry" left ;;
    rg <- getitem "geometry" right ;;
    let pairs := right_pairs lg rg 0%nat in
    let lcols := without_geometry (columns left) in
    let lnames := map fst lcols in
    let rnames := names right in
    Ok (mkDF (take_labels (map snd pairs) (index right))
             (("index_left", labels_opt (map fst pairs) (index left))
              :: map (fun c => (suffixed "left" rnames (fst c),
                                take_opt (map fst pairs) (snd c))) lcols
              ++ map (fun c => (suffixed "right" lnames (fst c),
                                take (map snd pairs) (snd c))) (columns right))
             (crs right)).

(** Distances from a point cell to every present geometry of [lines]. *)
Definition distance_to (g : geom) (v : value) : option Q :=
  match v with
  | VGeom s => distance g s
  | _ => None
  end.

Definition distances (g : geom) (lines : Series) : list Q :=
  flat_map (fun v => match distance_to g v with
                     | Some d => [d]
                     | None => []
                     end) lines.

(** The nearest geometries of [lines] (all of them on a tie), when the
    least distance does not exceed [max_distance]. *)
Definition nearest (max_distance : Q) (lines : Series) (p : value) : list nat :=
  match p with
  | VGeom g =>
      match minimum (distances g lines) with
      | Some m =>
          if Qle_bool m max_distance then
            find_all (fun v => match distance_to g v with
                               | Some d => Qeq_bool d m
                               | None => false
                               end) lines 0%nat
          else []
      | None => []
      end
  | _ => []
  end.

(** Row pairs of a [how="left"] join. *)
Fixpoint left_pairs (max_distance : Q) (pts lines : Series) (i : nat)
  : list (nat * option nat) :=
  match pts with
  | [] => []
  | p :: pts' =>
      match nearest max_distance lines p with
      | [] => [(i, None)]
      | js => map (fun j => (i, Some j)) js
      end ++ left_pairs max_distance pts' lines (S i)
  end.

(** [gpd.sjoin_nearest(left, right, how="left", max_distance=d)] *)
Definition sjoin_nearest_left (left right : DataFrame) (max_distance : Q)
  : result DataFrame :=
  if existsb reserved (names left) || existsb reserved (names right) then
    Raise (ValueError "index_left and index_right cannot be names in the frames being joined")
  else
    lg <- getitem "geometry" left ;;
    rg <- getitem "geometry" right ;;
    let pairs := left_pairs max_distance lg rg 0%nat in
    let rcols := without_geometry (columns right) in
    let lnames := names left in
    let rnames := map fst rcols in
    Ok (mkDF (take_labels (map fst pairs) (index left))
             (map (fun c => (suffixed "left" rnames (fst c),
                             take (map fst pairs) (snd c))) (columns left)
              ++ ("index_right", labels_opt (map snd pairs) (index right))
              :: map (fun c => (suffixed "right" lnames (fst c),
                                take_opt (map snd pairs) (snd c))) rcols)
             (crs left)).

(** ** [create_spatial_data] *)

Definition as_float (v : value) : result pyfloat :=
  match v with
  | VFloat f => Ok f
  | VInt z => Ok (FNum (inject_Z z))
  | VNull => Ok FNaN
  | _ => Raise (TypeError "float() argument must be a string or a real number")
  end.

Fixpoint points_from_xy (x y : Series) : result Series :=
  match x, y with
  | [], [] => Ok []
  | a :: x', b :: y' =>
      fx <- as_float a ;; fy <- as_float b ;;
      r <- points_from_xy x' y' ;;
      Ok (VGeom (Point fx fy) :: r)
  | _, _ => Raise (ValueError "x and y arrays must be equal length")
  end.

Definition create_spatial_data (df : DataFrame) : result DataFrame :=
  x <- getitem "long" df ;;
  y <- getitem "lat" df ;;
  nds_geom <- points_from_xy x y ;;
  Ok (mkDF (index df) (set_column "geometry" nds_geom (columns df)) (Some 4674)).

(** ** [join_bairros_data] *)

Definition crs_eqb (a b : option Z) : bool :=
  match a, b with
  | Some x, Some y => x =? y
  | None, None => true
  | _, _ => false
  end.

Definition join_bairros_data (ndsbr_data bairros_data : DataFrame)
  : result DataFrame :=
  bairros_data <-
    (if negb (crs_eqb (crs ndsbr_data) (crs bairros_data))
     then to_crs (crs ndsbr_data) bairros_data
     else Ok bairros_data) ;;
  gdf <- sjoin_right_contains bairros_data ndsbr_data ;;
  drop "index_left" gdf.

(** ** [join_vias_data] *)

Definition join_vias_data (ndsbr_data vias_data : DataFrame) : result DataFrame :=
  ndsbr_data <-
    (if negb (crs_eqb (crs ndsbr_data) (Some 31982))
     then to_crs (Some 31982) ndsbr_data
     else Ok ndsbr_data) ;;
  vias_data <-
    (if negb (crs_eqb (crs vias_data) (Some 31982))
     then to_crs (Some 31982) vias_data
     else Ok vias_data) ;;
  gdf <- sjoin_nearest_left ndsbr_data vias_data 20 ;;
  gdf <- to_crs (Some 4674) gdf ;;
  drop "index_right" gdf.

End Spatial.

(** ** [fill_missing_speed] *)

Definition SPEED_BY_ROAD_TYPE : list (string * string) :=
  [ ("1", "70"); ("2", "60"); ("3", "40"); ("4", "30") ].

(** [Series.replace(m)]: a cell equal to a key becomes the key's value, any
    other cell is kept. *)
Definition replace (m : list (string * string)) (s : Series) : Series :=
  map (fun v => match v with
                | VStr t => match lookup t m with
                            | Some t' => VStr t'
                            | None => v
                            end
                | _ => v
                end) s.

(** [s.fillna(other)] for two columns of one table: a missing cell takes
    the cell of [other] in the same row. *)
Fixpoint fillna (s other : Series) : Series :=
  match s, other with
  | a :: s', b :: other' => (if isna a then b else a) :: fillna s' other'
  | _, _ => s
  end.

Definition fill_missing_speed (ndsbr_data : DataFrame) : result DataFrame :=
  spd <- getitem "spd_limit" ndsbr_data ;;
  tipo <- getitem "tipo_via_ctb" ndsbr_data ;;
  Ok (setitem "spd_limit" (fillna spd (replace SPEED_BY_ROAD_TYPE tipo)) ndsbr_data).

(** ** [fix_col_order] *)

Definition FINAL_COLS : list string :=
  [ "id"; "driver"; "trip"; "long"; "lat"; "date"; "time";
    "time_acum"; "spd_kmh"; "acel_ms2"; "valid_time";
    "nome_bairro"; "nome_via"; "tipo_via_cwb"; "tipo_via_ctb"; "spd_limit";
    "geometry" ].

Definition fix_col_order (ndsbr_data : DataFrame) : result DataFrame :=
  getitem_list FINAL_COLS ndsbr_data.

(** ** The loaders of [utils.py]

    Each takes the table [gpd.read_file] returned. *)

Definition load_bairros (file : DataFrame) : result DataFrame :=
  bairros <- getitem_list [ "NOME"; "geometry" ] file ;;
  Ok (rename [ ("NOME", "bairro") ] bairros).

Definition load_vias_cwb (file : DataFrame) : result DataFrame :=
  vias <- getitem_list [ "NMVIA"; "SVIARIO"; "HIERARQUIA"; "geometry" ] file ;;
  Ok (rename [ ("NMVIA", "nome_via"); ("SVIARIO", "tipo_via_cwb");
               ("HIERARQUIA", "tipo_via_ctb") ] vias).

Definition import_osm (file : DataFrame) : result DataFrame :=
  axis <- getitem_list [ "maxspeed"; "geometry" ] file ;;
  Ok (rename [ ("maxspeed", "spd_limit") ] axis).

(** ** [main]

    From the four tables read from disk to the table handed to the writers. *)

Definition main `{GeoBackend}
  (bairros_file vias_file osm_file nds_data : DataFrame) : result DataFrame :=
  bairros <- load_bairros bairros_file ;;
  vias <- load_vias_cwb vias_file ;;
  osm_vias <- import_osm osm_file ;;
  nds_data_cleaned <- clean_cols nds_data ;;
  nds_data_cleaned <- create_datetime "date" "time" nds_data_cleaned ;;
  nds_spatial <- create_spatial_data nds_data_cleaned ;;
  nds_sample <- join_bairros_data nds_spatial bairros ;;
  nds_sample <- join_vias_data nds_sample vias ;;
  nds_sample <- join_vias_data nds_sample osm_vias ;;
  nds_sample <- fill_missing_speed nds_sample ;;
  fix_col_order nds_sample.

(** ** Reading a table by cell *)

Definition column (c : string) (df : DataFrame) : option Series :=
  lookup c (columns df).

(** The cell of column [c] in row [k] (by position). *)
Definition cell (df : DataFrame) (c : string) (k : nat) : option value :=
  match column c df with
  | Some s => nth_error s k
  | None => None
  end.

(** ** A planar geometry engine

    An instance of [GeoBackend] to run the pipeline on: exact rational
    arithmetic in the plane, even-odd containment with the boundary left
    out, Euclidean distance from a point to a polyline (the square root
    taken to nine decimals), and a plate carree of 100 km to the degree
    between the geographic system 4674 and the metric system 31982. *)
Module Planar.

Local Open Scope Q_scope.

Definition Qlt_bool (a b : Q) : bool := negb (Qle_bool b a).

Definition sq (q : Q) : Q := (q * q)%Q.

Definition xy (g : geom) : option (Q * Q) :=
  match g with
  | Point (FNum x) (FNum y) => Some (x, y)
  | _ => None
  end.

Fixpoint edges (l : list (Q * Q)) : list ((Q * Q) * (Q * Q)) :=
  match l with
  | a :: l' =>
      match l' with
      | b :: _ => (a, b) :: edges l'
      | [] => []
      end
  | [] => []
  end.

Definition between (a b v : Q) : bool :=
  (Qle_bool a v && Qle_bool v b) || (Qle_bool b v && Qle_bool v a).

Definition on_segment (p : Q * Q) (e : (Q * Q) * (Q * Q)) : bool :=
  let '(px, py) := p in
  let '((ax, ay), (bx, by_)) := e in
  Qeq_bool ((bx - ax) * (py - ay)) ((by_ - ay) * (px - ax))
  && between ax bx px && between ay by_ py.

(** The ray from [p] towards +x crosses the edge. *)
Definition crosses (p : Q * Q) (e : (Q * Q) * (Q * Q)) : bool :=
  let '(px, py) := p in
  let '((ax, ay), (bx, by_)) := e in
  negb (Bool.eqb (Qlt_bool py ay) (Qlt_bool py by_))
  && Qlt_bool px ((bx - ax) * (py - ay) / (by_ - ay) + ax).

Definition planar_contains (a b : geom) : bool :=
  match a, xy b with
  | Polygon ring, Some p =>
      negb (existsb (on_segment p) (edges ring))
      && Nat.odd (List.length (filter (crosses p) (edges ring)))
  | _, _ => false
  end.

Definition segment_distance2 (p : Q * Q) (e : (Q * Q) * (Q * Q)) : Q :=
  let '(px, py) := p in
  let '((ax, ay), (bx, by_)) := e in
  let dx := bx - ax in
  let dy := by_ - ay in
  let len2 := sq dx + sq dy in
  if Qeq_bool len2 0 then sq (px - ax) + sq (py - ay)
  else
    let t := ((px - ax) * dx + (py - ay) * dy) / len2 in
    let t := if Qle_bool t 0 then 0 else if Qle_bool 1 t then 1 else t in
    sq (px - (ax + t * dx)) + sq (py - (ay + t * dy)).

Definition Qsqrt (q : Q) : Q :=
  Qred (Z.sqrt (Qnum q * 10 ^ 18 / Zpos (Qden q))%Z # 10 ^ 9).

Definition planar_distance (a b : geom) : option Q :=
  match xy a, b with
  | Some p, LineString l =>
      option_map Qsqrt (minimum (map (segment_distance2 p) (edges l)))
  | _, _ => None
  end.

Definition scale (k : Q) (p : Q * Q) : Q * Q := (Qred (fst p * k), Qred (snd p * k)).

Definition scale_geom (k : Q) (g : geom) : geom :=
  match g with
  | Point (FNum x) (FNum y) => Point (FNum (Qred (x * k))) (FNum (Qred (y * k)))
  | Point x y => Point x y
  | LineString l => LineString (map (scale k) l)
  | Polygon l => Polygon (map (scale k) l)
  end.

Definition metric (epsg : Z) : bool := (epsg =? 31982)%Z.

Definition planar_transform (src dst : Z) (g : geom) : geom :=
  if Bool.eqb (metric src) (metric dst) then g
  else if metric dst then scale_geom 100000 g
  else scale_geom (1 # 100000) g.

#[export] Instance backend : GeoBackend := {
  contains := planar_contains;
  distance := planar_distance;
  transform := planar_transform
}.

End Planar.

(** ** Vocabulary of the statements *)

(** What [to_float] makes of one cell of a text column. *)
Definition float_of_cell (v v' : value) : Prop :=
  (v = VNull /\ v' = VFloat FNaN)
  \/ exists t f, v = VStr t
                 /\ float_of_string (replace_char ","%char "."%char t) = Some f
                 /\ v' = VFloat f.

Definition is_float (v : value) : bool :=
  match v with VFloat _ => true | _ => false end.

Definition is_finite_float (v : value) : bool :=
  match v with VFloat f => is_finite f | _ => false end.

Definition is_lower_name (s : string) : bool :=
  forallb (fun a => let n := nat_of_ascii a in
                    ((97 <=? n)%nat && (n <=? 122)%nat)
                    || is_digit a || ascii_eqb a "_"%char)
          (list_ascii_of_string s).

(** The labels [clean_cols] returns. *)
Definition CLEAN_COLS : list string :=
  [ "driver"; "long"; "lat"; "date"; "trip"; "id"; "time"; "time_acum";
    "spd_kmh"; "valid_time"; "TIMESTAMP"; "acel_ms2" ].

(** ** Sample tables *)

Module Sample.

(** Three fixes as [read_csv] hands them over: text where the file has
    decimal commas, dates or clock times, integers elsewhere, a missing
    latitude in the last row, and a column the program does not use. *)
Definition raw : DataFrame :=
  mkDF [0; 1; 2]
    [ ("DRIVER", [VStr "A"; VStr "A"; VStr "B"]);
      ("LONG", [VStr "0,00019"; VStr "0,00021"; VStr "0,01"]);
      ("LAT", [VStr "0,0"; VStr "0,0"; VNull]);
      ("DAY", [VStr "31/12/2020"; VStr "31/12/2020"; VStr "1/2/2020"]);
      ("TRIP", [VInt 1; VInt 1; VInt 2]);
      ("ID", [VInt 1; VInt 2; VInt 3]);
      ("PR", [VStr "23:59:59"; VStr "23:59:59"; VStr "3:4:5"]);
      ("TIME_ACUM", [VInt 0; VInt 1; VInt 0]);
      ("SPD_KMH", [VStr "10,5"; VStr "11"; VStr "0"]);
      ("VALID_TIME", [VStr "Y"; VStr "Y"; VStr "Y"]);
      ("TIMESTAMP", [VInt 5; VInt 6; VInt 7]);
      ("ACEL_MS2", [VStr "0,1"; VStr "-0,1"; VStr "0"]);
      ("EXTRA", [VInt 5; VInt 6; VInt 7]) ]
    None.

(** The same file without its [PR] column. *)
Definition raw_without_PR : DataFrame :=
  mkDF (index raw)
       (filter (fun kv => negb (String.eqb (fst kv) "PR")) (columns raw))
       None.

Definition or_else (m : result DataFrame) (d : DataFrame) : DataFrame :=
  match m with Ok df => df | Raise _ => d end.

Definition cleaned : DataFrame :=
  Eval vm_compute in or_else (clean_cols raw) raw.

(** A file whose coordinates have a gap and the text [inf]. *)
Definition raw_gaps : DataFrame :=
  mkDF [0; 1; 2]
       (map (fun c => (c, if String.eqb c "LAT"
                          then [VStr "-25,43"; VNull; VStr "inf"]
                          else [VStr "-49,27"; VStr "-49,28"; VStr "-49,29"]))
            COLS)
       None.

Definition cleaned_gaps : DataFrame :=
  Eval vm_compute in or_else (clean_cols raw_gaps) raw_gaps.

End Sample.

(** ** Sample tables for [fill_missing_speed] *)

Module SampleRoads.

(** Four joined rows: a street of type 3 without posted limit, a street of
    type 1 with a posted limit of 50, a street of type 9 without posted
    limit, and a fix with no street at all. *)
Definition joined : DataFrame :=
  mkDF [0; 1; 2; 3]
    [ ("nome_via", [VStr "RUA A"; VStr "RUA B"; VStr "RUA C"; VNull]);
      ("tipo_via_ctb", [VStr "3"; VStr "1"; VStr "9"; VNull]);
      ("spd_limit", [VNull; VStr "50"; VNull; VNull]) ]
    (Some 4674).

Definition filled : DataFrame :=
  Eval vm_compute in Sample.or_else (fill_missing_speed joined) joined.

End SampleRoads.

(** ** Vocabulary and sample tables for [create_datetime] *)

(** The shape the specification names [DD/MM/YYYY]: two digits, a slash,
    two digits, a slash, four digits. *)
Definition matches_DD_MM_YYYY (v : value) : bool :=
  match v with
  | VStr s =>
      match list_ascii_of_string s with
      | [d1; d2; s1; m1; m2; s2; y1; y2; y3; y4] =>
          forallb is_digit [d1; d2; m1; m2; y1; y2; y3; y4]
          && ascii_eqb s1 "/" && ascii_eqb s2 "/"
      | _ => false
      end
  | _ => false
  end.

(** The shape named [HH:MM:SS]. *)
Definition matches_HH_MM_SS (v : value) : bool :=
  match v with
  | VStr s =>
      match list_ascii_of_string s with
      | [h1; h2; s1; m1; m2; s2; c1; c2] =>
          forallb is_digit [h1; h2; m1; m2; c1; c2]
          && ascii_eqb s1 ":" && ascii_eqb s2 ":"
      | _ => false
      end
  | _ => false
  end.

(** The time stamp of a row, from its date cell and its time cell. *)
Inductive stamped : value -> value -> value -> Prop :=
| stamped_missing (d t : value) :
    isna d || isna t = true -> stamped d t VNull
| stamped_parsed (x y : string) (ns : Z) :
    strptime "%d/%m/%Y %H:%M:%S" ((x ++ " ") ++ y) = Ok ns ->
    stamped (VStr x) (VStr y) (VTime ns).

Definition has_char (a : ascii) (s : string) : bool :=
  existsb (ascii_eqb a) (list_ascii_of_string s).

Module SampleDates.

Definition table (rows : list (value * value)) : DataFrame :=
  mkDF (map Z.of_nat (seq 0 (length rows)))
       [ ("date", map fst rows); ("time", map snd rows) ]
       None.

Definition strict : DataFrame := table [ (VStr "31/12/2020", VStr "23:59:59") ].

Definition iso : DataFrame := table [ (VStr "2020-12-31", VStr "23:59:59") ].

(** Single digits, a doubled blank, and a row without date. *)
Definition loose : DataFrame :=
  table [ (VStr "1/2/2020", VStr "3:4:5");
          (VStr "31/12/2020", VStr " 23:59:59");
          (VNull, VStr "23:59:59") ].

Definition strict_out : DataFrame :=
  Eval vm_compute in Sample.or_else (create_datetime "date" "time" strict) strict.

Definition loose_out : DataFrame :=
  Eval vm_compute in Sample.or_else (create_datetime "date" "time" loose) loose.

End SampleDates.

(** ** Column labels of the joins *)

Definition not_geometry (c : string) : bool := negb (String.eqb c "geometry").

(** Labels of [sjoin(left, right, how="right")], from the labels of its
    arguments. *)
Definition sjoin_right_names (lnames rnames : list string) : list string :=
  "index_left"
  :: map (suffixed "left" rnames) (filter not_geometry lnames)
  ++ map (suffixed "right" (filter not_geometry lnames)) rnames.

(** Labels of [sjoin_nearest(left, right, how="left")]. *)
Definition sjoin_left_names (lnames rnames : list string) : list string :=
  map (suffixed "left" (filter not_geometry rnames)) lnames
  ++ "index_right"
  :: map (suffixed "right" lnames) (filter not_geometry rnames).

Definition dropped (c : string) (l : list string) : list string :=
  filter (fun k => negb (String.eqb c k)) l.

(** Labels of the table [main] hands to [fix_col_order]. *)
Definition JOINED_COLS : list string :=
  [ "bairro"; "driver"; "long"; "lat"; "date"; "trip"; "id"; "time";
    "time_acum"; "spd_kmh"; "valid_time"; "TIMESTAMP"; "acel_ms2";
    "datetime"; "geometry"; "nome_via"; "tipo_via_cwb"; "tipo_via_ctb";
    "spd_limit" ].

(** Two tables whose labels do not clash: no label of [l] other than
    [geometry] is a label of [r], so that a join adds no suffix. *)
Definition disjoint_labels (l r : list string) : Prop :=
  forall c, In c l -> c <> "geometry" -> ~ In c r.

(** The geometry columns the joins work on. *)
Section JoinGeometry.

Context `{GeoBackend}.

(** The geometry column of [df] as [df.to_crs(dst)] has it. *)
Definition reprojected (dst : Z) (df : DataFrame) : option Series :=
  match crs df, column "geometry" df with
  | Some c, Some g => Some (map (transform_value c dst) g)
  | _, _ => None
  end.

(** The polygons [join_bairros_data] tests the points against: those of
    [bairros_data], brought to the points' reference system when the two
    differ. *)
Definition bairros_geometry (ndsbr_data bairros_data : DataFrame) : option Series :=
  if crs_eqb (crs ndsbr_data) (crs bairros_data)
  then column "geometry" bairros_data
  else match crs ndsbr_data with
       | Some d => reprojected d bairros_data
       | None => None
       end.

(** The geometries [join_vias_data] measures distances between: those of
    its argument in EPSG 31982. *)
Definition metric_geometry (df : DataFrame) : option Series :=
  if crs_eqb (crs df) (Some 31982)
  then column "geometry" df
  else reprojected 31982 df.

End JoinGeometry.

(** ** Sample tables for the joins *)

Module SampleJoin.

Import Planar.
Local Open Scope Q_scope.

Definition square (x0 y0 x1 y1 : Q) : geom :=
  Polygon [ (x0, y0); (x1, y0); (x1, y1); (x0, y1); (x0, y0) ].

(** Two neighbourhoods side by side, in metres. *)
Definition bairros_file : DataFrame :=
  mkDF [0; 1]%Z
    [ ("CODIGO", [VInt 1%Z; VInt 2%Z]);
      ("NOME", [VStr "CENTRO"; VStr "BATEL"]);
      ("geometry", [VGeom (square (-50) (-50) 50 50);
                    VGeom (square 50 (-50) 150 50)]) ]
    (Some 31982%Z).

(** Two neighbourhoods that overlap between x = 0 and x = 50. *)
Definition bairros_overlap : DataFrame :=
  mkDF [0; 1]%Z
    [ ("bairro", [VStr "CENTRO"; VStr "BATEL"]);
      ("geometry", [VGeom (square (-50) (-50) 50 50);
                    VGeom (square 0 (-50) 150 50)]) ]
    (Some 31982%Z).

(** Municipal streets along x = 0 and x = 1000, in metres. *)
Definition vias_file : DataFrame :=
  mkDF [0; 1]%Z
    [ ("NMVIA", [VStr "RUA A"; VStr "RUA B"]);
      ("SVIARIO", [VStr "NORMAL"; VStr "OUTRAS"]);
      ("HIERARQUIA", [VStr "3"; VStr "9"]);
      ("geometry", [VGeom (LineString [(0, -100); (0, 100)]);
                    VGeom (LineString [(1000, -100); (1000, 100)])]) ]
    (Some 31982%Z).

(** One OSM street along x = 30 m, in degrees. *)
Definition osm_file : DataFrame :=
  mkDF [0]%Z
    [ ("maxspeed", [VStr "40"]);
      ("geometry", [VGeom (LineString [(3 # 10000, -1 # 1000);
                                       (3 # 10000, 1 # 1000)])]) ]
    (Some 4326%Z).

Definition run (m : result DataFrame) : DataFrame :=
  Sample.or_else m (mkDF [] [] None).

Definition bairros : DataFrame := Eval vm_compute in run (load_bairros bairros_file).
Definition vias : DataFrame := Eval vm_compute in run (load_vias_cwb vias_file).
Definition osm_vias : DataFrame := Eval vm_compute in run (import_osm osm_file).

(** The fixes of [Sample.raw] as points: 19 m and 21 m east of the street
    along x = 0, and one without latitude. *)
Definition spatial : DataFrame :=
  Eval vm_compute in
    run (c <- clean_cols Sample.raw ;;
         c <- create_datetime "date" "time" c ;;
         create_spatial_data c).

Definition with_bairros : DataFrame :=
  Eval vm_compute in run (join_bairros_data spatial bairros).

Definition with_overlap : DataFrame :=
  Eval vm_compute in run (join_bairros_data spatial bairros_overlap).

Definition with_vias : DataFrame :=
  Eval vm_compute in run (join_vias_data with_bairros vias).

Definition with_osm : DataFrame :=
  Eval vm_compute in run (join_vias_data with_vias osm_vias).

Definition filled : DataFrame :=
  Eval vm_compute in run (fill_missing_speed with_osm).

End SampleJoin.

(** ** Vocabulary of the further properties *)

(** A cell that [to_float] converts: missing, or text that [float] reads
    once its commas are points. *)
Definition float_text (v : value) : bool :=
  match v with
  | VNull => true
  | VStr t =>
      match float_of_string (replace_char ","%char "."%char t) with
      | Some _ => true
      | None => false
      end
  | _ => false
  end.

(** A cell of a text column. *)
Definition is_text (v : value) : bool :=
  match v with
  | VNull | VStr _ => true
  | _ => false
  end.

(** The raw columns [clean_cols] converts to floats. *)
Definition RAW_FLOAT_COLS : list string := [ "LONG"; "LAT"; "SPD_KMH"; "ACEL_MS2" ].

Definition is_str (v : value) : bool :=
  match v with VStr _ => true | _ => false end.

Definition is_number (v : value) : bool :=
  match v with VInt _ | VFloat _ => true | _ => false end.

(** A column as [read_csv] leaves text: strings and missing values, with at
    least one string unless the table has no row. *)
Definition text_column (s : Series) : bool :=
  match s with
  | [] => true
  | _ :: _ => forallb is_text s && existsb is_str s
  end.

(** A table [out] made of the rows of [inp]: on the columns [cols], every
    row of [out] is a row of [inp], and every row of [inp] is a row of
    [out]. *)
Definition rows_of (cols : list string) (out inp : DataFrame) : Prop :=
  (forall k, (k < nrows out)%nat ->
     exists i, (i < nrows inp)%nat
               /\ forall c, In c cols -> cell out c k = cell inp c i)
  /\ (forall i, (i < nrows inp)%nat ->
      exists k, (k < nrows out)%nat
                /\ forall c, In c cols -> cell out c k = cell inp c i).

(** The joined sample with the neighbourhood column under the label
    [fix_col_order] asks for, and that table in its final order. *)
Module SampleFinal.

Definition renamed : DataFrame :=
  Eval vm_compute in rename [ ("bairro", "nome_bairro") ] SampleJoin.filled.

Definition ordered : DataFrame :=
  Eval vm_compute in SampleJoin.run (fix_col_order renamed).

End SampleFinal.

(** Two streets at the same distance from the first fix of
    [SampleJoin.spatial]: along x = 0 and along x = 38, in metres. *)
Module SampleTie.

Local Open Scope Q_scope.

Definition vias_pair : DataFrame :=
  mkDF [0; 1]%Z
    [ ("nome_via", [VStr "RUA A"; VStr "RUA C"]);
      ("geometry", [VGeom (LineString [(0, -100); (0, 100)]);
                    VGeom (LineString [(38, -100); (38, 100)])]) ]
    (Some 31982%Z).

Definition with_pair : DataFrame :=
  Eval vm_compute in
    SampleJoin.run (@join_vias_data Planar.backend SampleJoin.with_bairros vias_pair).

End SampleTie.

(** ** Well-formed dates and times

    The text of a civil time in the shape the format strings of
    [create_datetime] describe, every field zero-padded. *)

Definition digit_char (n : Z) : ascii := ascii_of_nat (48 + Z.to_nat n).

Definition two_digit (n : Z) : list ascii :=
  [ digit_char (n / 10); digit_char (n mod 10) ].

Definition four_digit (n : Z) : list ascii :=
  [ digit_char (n / 1000); digit_char (n / 100 mod 10);
    digit_char (n / 10 mod 10); digit_char (n mod 10) ].

(** [DD/MM/YYYY] *)
Definition date_text (c : civil) : string :=
  string_of_list_ascii
    (two_digit (day c) ++ "/"%char :: two_digit (month c)
     ++ "/"%char :: four_digit (year c)).

(** [HH:MM:SS] *)
Definition time_text (c : civil) : string :=
  string_of_list_ascii
    (two_digit (hour c) ++ ":"%char :: two_digit (minute c)
     ++ ":"%char :: two_digit (second c)).

Definition midnight (c : civil) : civil :=
  mkCivil (year c) (month c) (day c) 0 0 0.

(** A time of day, and a date within the years a [datetime64[ns]] holds in
    full (it ranges from 1677-09-21 to 2262-04-11). *)
Definition valid_clock (c : civil) : bool :=
  (0 <=? hour c) && (hour c <=? 23)
  && (0 <=? minute c) && (minute c <=? 59)
  && (0 <=? second c) && (second c <=? 59).

Definition representable (c : civil) : bool :=
  valid_date c && valid_clock c && (1678 <=? year c) && (year c <=? 2261).

(** The values a directive is rendered for, and their text. *)
Definition field_range (d : directive) (n : Z) : Prop :=
  match d with
  | Dd => 1 <= n <= 31
  | Dm => 1 <= n <= 12
  | DY => 0 <= n <= 9999
  | DH => 0 <= n <= 23
  | DM | DS => 0 <= n <= 59
  end.

Definition field_text (d : directive) (n : Z) : list ascii :=
  match d with
  | DY => four_digit n
  | _ => two_digit n
  end.

(** The first match of a format is [x]. *)
Definition first_match (x : civil * list ascii) (l : list (civil * list ascii))
  : Prop :=
  exists more, l = x :: more.

(** ** Numerals with a decimal comma

    A numeral as the telemetry files write it: an optional minus sign, the
    digits of the integer part and, optionally, a comma followed by the
    digits of the fraction. *)





(** * Properties *)

(** ** The text readers on samples *)

Example float_of_string_samples :
  map float_of_string
      [ "-49.27"; " 1_0.5e2 "; "+1E-2"; "1."; ".5";
        "nan"; "-Inf"; "infinity"; "1e400";
        "1,5"; "."; "1__0"; "1e"; "0x10"; "" ]
  = [ Some (FNum (-4927 # 100)); Some (FNum 1050); Some (FNum (1 # 100));
      Some (FNum 1); Some (FNum (1 # 2));
      Some FNaN; Some (FInf true); Some (FInf false); Some (FInf false);
      None; None; None; None; None; None ].
Proof. vm_compute; reflexivity. Qed.

Example days_from_civil_samples :
  days_from_civil 1970 1 1 = 0 /\ days_from_civil 1969 12 31 = -1
  /\ days_from_civil 2000 3 1 = 11017 /\ days_from_civil 2024 2 29 = 19782.
Proof. repeat split; reflexivity. Qed.

Example strptime_samples :
  map (strptime "%d/%m/%Y")
      [ "31/12/2020"; "29/02/2021"; "31/12/20"; "01/13/2020"; "01/01/1600" ]
  = [ Ok (18627 * 86400 * 10 ^ 9);
      Raise (ValueError "day is out of range for month");
      Raise (ValueError "time data does not match format");
      Raise (ValueError "time data does not match format");
      Raise OutOfBoundsDatetime ].
Proof. vm_compute; reflexivity. Qed.

(** ** The error monad and association lists *)

Lemma bind_ok {A B : Type} (m : result A) (k : A -> result B) (b : B) :
  bind m k = Ok b -> exists a, m = Ok a /\ k a = Ok b.
Proof.
  destruct m as [a | e]; simpl; intros Hk; [eauto | discriminate].
Qed.

Lemma mapM_Forall2 {A B : Type} (f : A -> result B) (l : list A) (l' : list B) :
  mapM f l = Ok l' -> Forall2 (fun a b => f a = Ok b) l l'.
Proof.
  revert l'; induction l as [| a l IH]; simpl; intros l' Hm.
  - inversion Hm; constructor.
  - apply bind_ok in Hm as (b & Hb & Hm).
    apply bind_ok in Hm as (bs & Hbs & Hm).
    inversion Hm; subst; constructor; auto.
Qed.

Lemma lookup_None {A : Type} (c : string) (l : list (string * A)) :
  lookup c l = None <-> ~ In c (map fst l).
Proof.
  induction l as [| [k v] l IH]; simpl; [tauto |].
  destruct (String.eqb_spec c k) as [-> | Hne].
  - split; [discriminate | intros Hn; exfalso; apply Hn; now left].
  - rewrite IH; split; intros Hn; [intros [-> | Hin]; tauto | tauto].
Qed.

Lemma lookup_Some_In {A : Type} (c : string) (l : list (string * A)) (v : A) :
  lookup c l = Some v -> In (c, v) l.
Proof.
  induction l as [| [k w] l IH]; simpl; [discriminate |].
  destruct (String.eqb_spec c k) as [-> | Hne]; intros Hl.
  - inversion Hl; now left.
  - right; auto.
Qed.

Lemma lookup_set_column_ne (c c' : string) (s : Series) (l : list (string * Series)) :
  c <> c' -> lookup c (set_column c' s l) = lookup c l.
Proof.
  intros Hne; induction l as [| [k v] l IH]; simpl.
  - destruct (String.eqb_spec c c'); [contradiction | reflexivity].
  - destruct (String.eqb_spec c' k) as [-> | Hk]; simpl.
    + destruct (String.eqb_spec c k); [contradiction | reflexivity].
    + now rewrite IH.
Qed.

Lemma lookup_set_column_eq (c : string) (s : Series) (l : list (string * Series)) :
  lookup c (set_column c s l) = Some s.
Proof.
  induction l as [| [k v] l IH]; simpl.
  - now rewrite String.eqb_refl.
  - destruct (String.eqb_spec c k) as [-> | Hk]; simpl.
    + now rewrite String.eqb_refl.
    + destruct (String.eqb_spec c k); [contradiction | exact IH].
Qed.

Lemma set_column_twice (c : string) (s s' : Series) (l : list (string * Series)) :
  set_column c s' (set_column c s l) = set_column c s' l.
Proof.
  induction l as [| [k v] l IH]; cbn [set_column].
  - now rewrite String.eqb_refl.
  - destruct (String.eqb c k) eqn:He; cbn [set_column]; rewrite He;
      [reflexivity | now rewrite IH].
Qed.

Lemma names_set_column_In (c : string) (s : Series) (l : list (string * Series)) :
  In c (map fst l) -> map fst (set_column c s l) = map fst l.
Proof.
  induction l as [| [k v] l IH]; simpl; [tauto |].
  destruct (String.eqb_spec c k) as [-> | Hk]; simpl; [reflexivity |].
  intros [-> | Hin]; [contradiction | now rewrite IH].
Qed.

Lemma names_set_column_notIn (c : string) (s : Series) (l : list (string * Series)) :
  ~ In c (map fst l) -> map fst (set_column c s l) = map fst l ++ [c].
Proof.
  induction l as [| [k v] l IH]; simpl; [reflexivity |].
  destruct (String.eqb_spec c k) as [-> | Hk]; simpl; intros Hn.
  - exfalso; apply Hn; now left.
  - rewrite IH; [reflexivity | tauto].
Qed.

Lemma existsb_eqb_In (c : string) (l : list string) :
  existsb (String.eqb c) l = true <-> In c l.
Proof.
  rewrite existsb_exists; split.
  - intros (x & Hin & Heq); apply String.eqb_eq in Heq; now subst.
  - intros Hin; exists c; split; [assumption | apply String.eqb_refl].
Qed.

Lemma getitem_Ok (c : string) (df : DataFrame) (s : Series) :
  getitem c df = Ok s <-> column c df = Some s.
Proof.
  unfold getitem, column; destruct (lookup c (columns df)); split; intros Hg;
    inversion Hg; reflexivity.
Qed.

Lemma getitem_missing (c : string) (df : DataFrame) :
  ~ In c (names df) -> getitem c df = Raise (KeyError c).
Proof.
  intros Hn; unfold getitem.
  now rewrite (proj2 (lookup_None c (columns df)) Hn).
Qed.

Lemma getitem_list_names (cols : list string) (df df' : DataFrame) :
  getitem_list cols df = Ok df' -> names df' = cols.
Proof.
  unfold getitem_list; intros Hg.
  apply bind_ok in Hg as (cs & Hcs & Hg); inversion Hg; subst; clear Hg.
  unfold names; simpl.
  apply mapM_Forall2 in Hcs.
  induction Hcs as [| c kv l1 l2 Hc Hrest IH]; simpl; [reflexivity |].
  apply bind_ok in Hc as (s & _ & Hc); injection Hc as <-; simpl.
  now rewrite IH.
Qed.

Lemma getitem_list_column (cols : list string) (df df' : DataFrame) (c : string) :
  getitem_list cols df = Ok df' -> In c cols -> column c df' = column c df.
Proof.
  unfold getitem_list, column; intros Hg.
  apply bind_ok in Hg as (cs & Hcs & Hg); inversion Hg; subst; clear Hg; simpl.
  apply mapM_Forall2 in Hcs.
  induction Hcs as [| c0 kv l1 l2 Hc Hrest IH]; simpl; [tauto |].
  apply bind_ok in Hc as (s & Hs & Hc); injection Hc as <-; simpl.
  apply getitem_Ok in Hs; unfold column in Hs.
  destruct (String.eqb_spec c c0) as [-> | Hne]; [now rewrite Hs |].
  intros [-> | Hin]; [contradiction | auto].
Qed.

(** [df[cols]] raises exactly when a listed label is not a column. *)
Lemma getitem_list_missing (cols : list string) (df : DataFrame) :
  (exists c, In c cols /\ ~ In c (names df)) ->
  exists c, In c cols /\ ~ In c (names df) /\ getitem_list cols df = Raise (KeyError c).
Proof.
  unfold getitem_list.
  induction cols as [| c0 cols IH]; intros (c & Hin & Hn); [destruct Hin |].
  simpl.
  destruct (in_dec string_dec c0 (names df)) as [Hc0 | Hc0].
  - destruct (lookup c0 (columns df)) eqn:Hl;
      [| apply lookup_None in Hl; contradiction].
    unfold getitem at 1; rewrite Hl; simpl.
    destruct Hin as [-> | Hin]; [contradiction |].
    destruct IH as (c' & Hin' & Hn' & Hr); [eauto |].
    exists c'; repeat split; [now right | assumption |].
    destruct (mapM _ cols); simpl in *; [discriminate | assumption].
  - exists c0; repeat split; [now left | assumption |].
    now rewrite (getitem_missing _ _ Hc0).
Qed.

Lemma getitem_list_present (cols : list string) (df : DataFrame) :
  (forall c, In c cols -> In c (names df)) ->
  exists df', getitem_list cols df = Ok df'.
Proof.
  unfold getitem_list; induction cols as [| c0 cols IH]; intros Hall; simpl.
  - eauto.
  - destruct (lookup c0 (columns df)) eqn:Hl.
    + unfold getitem at 1; rewrite Hl; simpl.
      destruct IH as (df' & Hdf'); [intros; apply Hall; now right |].
      apply bind_ok in Hdf' as (cs & -> & _); simpl; eauto.
    + apply lookup_None in Hl; exfalso; apply Hl, Hall; now left.
Qed.

(** ** [clean_cols] *)

Lemma to_float_cells (df : DataFrame) (col : string) (out : Series) :
  to_float df col = Ok out ->
  exists raw, column col df = Some raw /\ Forall2 float_of_cell raw out.
Proof.
  unfold to_float; intros Ht.
  apply bind_ok in Ht as (raw & Hraw & Ht).
  apply bind_ok in Ht as (txt & Htxt & Ht).
  apply getitem_Ok in Hraw; exists raw; split; [assumption |].
  apply mapM_Forall2 in Htxt.
  unfold astype_float, str_replace_comma in Ht; apply mapM_Forall2 in Ht.
  clear Hraw; revert out Ht.
  induction Htxt as [| v o raw txt Hv Hrest IH]; intros out Ht; simpl in Ht;
    inversion Ht as [| o' v' txt' out' Ho Hout]; subst; constructor; auto.
  destruct v; try discriminate; injection Hv as <-; simpl in Ho.
  - left; split; [reflexivity | now injection Ho].
  - right; destruct (float_of_string _) as [f |] eqn:Hf; [| discriminate].
    exists s, f; repeat split; [assumption | now injection Ho].
Qed.

Ltac lookup_step H :=
  match type of H with
  | context [getitem ?c ?df] =>
      let l := fresh "raw" in
      let Hl := fresh "Hraw" in
      unfold getitem at 1 in H;
      destruct (lookup c (columns df)) as [l |] eqn:Hl;
      [simpl in H | discriminate H]
  end.

(** The table [clean_cols] returns, column by column. *)
Lemma clean_cols_inv (df df' : DataFrame) :
  clean_cols df = Ok df' ->
  exists driver long lat date trip id time time_acum spd_kmh valid_time
         timestamp acel_ms2 long' lat' spd_kmh' acel_ms2',
    column "DRIVER" df = Some driver /\ column "LONG" df = Some long
    /\ column "LAT" df = Some lat /\ column "DAY" df = Some date
    /\ column "TRIP" df = Some trip /\ column "ID" df = Some id
    /\ column "PR" df = Some time /\ column "TIME_ACUM" df = Some time_acum
    /\ column "SPD_KMH" df = Some spd_kmh
    /\ column "VALID_TIME" df = Some valid_time
    /\ column "TIMESTAMP" df = Some timestamp
    /\ column "ACEL_MS2" df = Some acel_ms2
    /\ Forall2 float_of_cell long long' /\ Forall2 float_of_cell lat lat'
    /\ Forall2 float_of_cell spd_kmh spd_kmh'
    /\ Forall2 float_of_cell acel_ms2 acel_ms2'
    /\ df' = mkDF (index df)
                  [ ("driver", driver); ("long", long'); ("lat", lat');
                    ("date", date); ("trip", trip); ("id", id); ("time", time);
                    ("time_acum", time_acum); ("spd_kmh", spd_kmh');
                    ("valid_time", valid_time); ("TIMESTAMP", timestamp);
                    ("acel_ms2", acel_ms2') ]
                  (crs df).
Proof.
  unfold clean_cols, getitem_list, COLS; intros Hc.
  apply bind_ok in Hc as (sel & Hsel & Hc).
  apply bind_ok in Hsel as (cs & Hcs & Hsel).
  injection Hsel as <-.
  simpl in Hcs.
  do 12 lookup_step Hcs.
  injection Hcs as <-.
  unfold FLOAT_COLS, rename in Hc; simpl in Hc.
  apply bind_ok in Hc as (long' & Hlong & Hc).
  apply bind_ok in Hc as (lat' & Hlat & Hc).
  apply bind_ok in Hc as (spd' & Hspd & Hc).
  apply bind_ok in Hc as (acel' & Hacel & Hc).
  apply to_float_cells in Hlong as (? & Hl1 & Hlong).
  apply to_float_cells in Hlat as (? & Hl2 & Hlat).
  apply to_float_cells in Hspd as (? & Hl3 & Hspd).
  apply to_float_cells in Hacel as (? & Hl4 & Hacel).
  unfold column in Hl1, Hl2, Hl3, Hl4; simpl in Hl1, Hl2, Hl3, Hl4.
  injection Hl1 as <-; injection Hl2 as <-; injection Hl3 as <-;
    injection Hl4 as <-.
  injection Hc as <-.
  unfold column.
  exists raw, raw0, raw1, raw2, raw3, raw4, raw5, raw6, raw7, raw8, raw9, raw10,
    long', lat', spd', acel'.
  repeat (split; [assumption |]).
  reflexivity.
Qed.

Lemma clean_cols_names (df df' : DataFrame) :
  clean_cols df = Ok df' -> names df' = CLEAN_COLS.
Proof.
  intros Hc.
  destruct (clean_cols_inv _ _ Hc)
    as (? & ? & ? & ? & ? & ? & ? & ? & ? & ? & ? & ? & ? & ? & ? & ? & _ & _
        & _ & _ & _ & _ & _ & _ & _ & _ & _ & _ & _ & _ & _ & _ & ->).
  reflexivity.
Qed.

(** C8: [clean_cols] raises a [KeyError] whenever one of the twelve
    allow-listed source columns is absent from the raw table; and whenever
    it returns, every allow-listed column was present and the result has
    exactly the twelve selected columns, each holding the data of an
    allow-listed source column (as it was, or converted to floats): no other
    column of the input survives. *)
Theorem clean_cols_allow_list (df : DataFrame) :
  ((exists c, In c COLS /\ ~ In c (names df)) ->
   exists c, In c COLS /\ ~ In c (names df) /\ clean_cols df = Raise (KeyError c))
  /\ (forall df', clean_cols df = Ok df' ->
      (forall c, In c COLS -> In c (names df))
      /\ names df' = CLEAN_COLS
      /\ forall c s', In (c, s') (columns df') ->
           exists c0 s0, In c0 COLS /\ c = rename_label RENAME c0
                         /\ column c0 df = Some s0
                         /\ (s' = s0 \/ Forall2 float_of_cell s0 s')).
Proof.
  split.
  - intros Hmiss.
    destruct (getitem_list_missing COLS df Hmiss) as (c & Hin & Hn & Hr).
    exists c; repeat split; try assumption.
    unfold clean_cols; now rewrite Hr.
  - intros df' Hc.
    destruct (clean_cols_inv _ _ Hc)
      as (driver & long & lat & date & trip & id & time & time_acum & spd_kmh
          & valid_time & timestamp & acel_ms2 & long' & lat' & spd_kmh'
          & acel_ms2' & H1 & H2 & H3 & H4 & H5 & H6 & H7 & H8 & H9 & H10
          & H11 & H12 & F1 & F2 & F3 & F4 & ->).
    split; [| split; [reflexivity |]].
    + intros c Hin.
      destruct (in_dec string_dec c (names df)) as [| Hn]; [assumption |].
      apply lookup_None in Hn; unfold column in *.
      simpl in Hin; repeat destruct Hin as [<- | Hin]; try congruence.
      destruct Hin.
    + intros c s' Hin; simpl in Hin.
      repeat destruct Hin as [Heq | Hin]; try (destruct Hin);
        injection Heq as <- <-;
        match goal with
        | Hcol : column ?c0 df = Some ?s0 |- _ =>
            exists c0, s0;
            split; [simpl; tauto |];
            split; [reflexivity |];
            split; [exact Hcol |];
            first [left; reflexivity | right; assumption]
        end.
Qed.

Lemma clean_cols_allow_list_witness :
  (exists c, In c COLS /\ clean_cols Sample.raw_without_PR = Raise (KeyError c))
  /\ names Sample.cleaned = CLEAN_COLS.
Proof.
  split.
  - destruct (proj1 (clean_cols_allow_list Sample.raw_without_PR))
      as (c & Hin & _ & Hr).
    + exists "PR"; split; [simpl; tauto |].
      simpl; intros Hin; repeat destruct Hin as [Heq | Hin]; try discriminate.
      exact Hin.
    + exists c; split; assumption.
  - apply (proj2 (clean_cols_allow_list Sample.raw) Sample.cleaned).
    vm_compute; reflexivity.
Defined.

(** C9: whenever [clean_cols] returns, its table still has a column
    labelled [TIMESTAMP], in upper case and with the raw column's cells:
    [TIMESTAMP] is selected but has no entry in the rename map, while each of
    the other eleven selected columns has one, to a lower-case label under
    which it is returned (its upper-case label is gone). *)
Theorem clean_cols_keeps_TIMESTAMP (df df' : DataFrame) :
  clean_cols df = Ok df' ->
  In "TIMESTAMP" COLS
  /\ lookup "TIMESTAMP" RENAME = None
  /\ In "TIMESTAMP" (names df')
  /\ column "TIMESTAMP" df' = column "TIMESTAMP" df
  /\ forall c, In c COLS -> c <> "TIMESTAMP" ->
       exists c', lookup c RENAME = Some c' /\ is_lower_name c' = true
                  /\ In c' (names df') /\ ~ In c (names df').
Proof.
  intros Hc.
  destruct (clean_cols_inv _ _ Hc)
    as (driver & long & lat & date & trip & id & time & time_acum & spd_kmh
        & valid_time & timestamp & acel_ms2 & long' & lat' & spd_kmh'
        & acel_ms2' & H1 & H2 & H3 & H4 & H5 & H6 & H7 & H8 & H9 & H10
        & H11 & H12 & F1 & F2 & F3 & F4 & ->).
  split; [simpl; tauto |].
  split; [reflexivity |].
  split; [simpl; tauto |].
  split; [now rewrite H11 |].
  intros c Hin Hne; simpl in Hin.
  repeat destruct Hin as [<- | Hin]; try contradiction;
    (eexists; split; [reflexivity |]; split; [reflexivity |];
     split; [simpl; tauto |];
     simpl; intros Hx; repeat destruct Hx as [Hx | Hx]; try discriminate;
     exact Hx).
Qed.

Lemma clean_cols_keeps_TIMESTAMP_witness :
  In "TIMESTAMP" (names Sample.cleaned)
  /\ column "TIMESTAMP" Sample.cleaned = Some [VInt 5; VInt 6; VInt 7].
Proof.
  destruct (clean_cols_keeps_TIMESTAMP Sample.raw Sample.cleaned)
    as (_ & _ & Hin & Hcol & _).
  - vm_compute; reflexivity.
  - split; [exact Hin | rewrite Hcol; reflexivity].
Defined.

(** C7, as the code has it: whenever [clean_cols] returns, each cell of
    [long] and [lat] is a float and none is text any more; a text cell was
    read by [float] after its commas became points, and a missing cell
    became NaN.  Finite it need not be. *)
Theorem clean_cols_coordinates_are_floats (df df' : DataFrame) :
  clean_cols df = Ok df' ->
  forall src dst, In (src, dst) [ ("LONG", "long"); ("LAT", "lat") ] ->
    exists raw out,
      column src df = Some raw /\ column dst df' = Some out
      /\ Forall2 float_of_cell raw out
      /\ forallb is_float out = true.
Proof.
  intros Hc src dst Hin.
  destruct (clean_cols_inv _ _ Hc)
    as (driver & long & lat & date & trip & id & time & time_acum & spd_kmh
        & valid_time & timestamp & acel_ms2 & long' & lat' & spd_kmh'
        & acel_ms2' & H1 & H2 & H3 & H4 & H5 & H6 & H7 & H8 & H9 & H10
        & H11 & H12 & F1 & F2 & F3 & F4 & ->).
  assert (Hfl : forall raw out, Forall2 float_of_cell raw out ->
                                forallb is_float out = true).
  { intros raw out HF; induction HF as [| v v' raw out Hv _ IH]; simpl;
      [reflexivity |].
    rewrite IH, andb_true_r.
    destruct Hv as [[_ ->] | (t & f & _ & _ & ->)]; reflexivity. }
  simpl in Hin; destruct Hin as [Heq | [Heq | []]]; injection Heq as <- <-.
  - exists long, long'; repeat split; eauto.
  - exists lat, lat'; repeat split; eauto.
Qed.

Lemma clean_cols_coordinates_are_floats_witness :
  exists raw out,
    column "LAT" Sample.raw_gaps = Some raw
    /\ column "lat" Sample.cleaned_gaps = Some out
    /\ Forall2 float_of_cell raw out /\ forallb is_float out = true.
Proof.
  apply (clean_cols_coordinates_are_floats Sample.raw_gaps Sample.cleaned_gaps).
  - vm_compute; reflexivity.
  - simpl; tauto.
Defined.

(** C7 fails as stated: on a file with a missing latitude and a latitude
    spelled [inf], [clean_cols] returns, and those two cells of [lat] are
    NaN and infinity, not finite numbers. *)
Lemma clean_cols_not_always_finite :
  clean_cols Sample.raw_gaps = Ok Sample.cleaned_gaps
  /\ cell Sample.raw_gaps "LAT" 1 = Some VNull
  /\ cell Sample.cleaned_gaps "lat" 1 = Some (VFloat FNaN)
  /\ is_finite_float (VFloat FNaN) = false
  /\ cell Sample.raw_gaps "LAT" 2 = Some (VStr "inf")
  /\ cell Sample.cleaned_gaps "lat" 2 = Some (VFloat (FInf false))
  /\ is_finite_float (VFloat (FInf false)) = false.
Proof.
  repeat split; vm_compute; reflexivity.
Qed.

(** ** [fill_missing_speed] *)

Lemma fillna_length (s other : Series) : length (fillna s other) = length s.
Proof.
  revert other; induction s as [| a s IH]; intros [| b other]; simpl; auto.
Qed.

Lemma fillna_keeps (s other : Series) (k : nat) (v : value) :
  nth_error s k = Some v -> isna v = false ->
  nth_error (fillna s other) k = Some v.
Proof.
  revert other k; induction s as [| a s IH]; intros other k;
    [destruct k; discriminate |].
  destruct other as [| b other]; [auto |].
  destruct k as [| k]; simpl.
  - intros Hv Hna; injection Hv as ->; now rewrite Hna.
  - apply IH.
Qed.

Lemma fillna_fills (s other : Series) (k : nat) (v w : value) :
  nth_error s k = Some v -> nth_error other k = Some w -> isna v = true ->
  nth_error (fillna s other) k = Some w.
Proof.
  revert other k; induction s as [| a s IH]; intros other k;
    [destruct k; discriminate |].
  destruct other as [| b other]; [destruct k; discriminate |].
  destruct k as [| k]; simpl.
  - intros Hv Hw Hna; injection Hv as ->; injection Hw as ->; now rewrite Hna.
  - apply IH.
Qed.

Lemma replace_nth (m : list (string * string)) (s : Series) (k : nat) (v : value) :
  nth_error s k = Some v ->
  nth_error (replace m s) k
  = Some (match v with
          | VStr t => match lookup t m with Some t' => VStr t' | None => v end
          | _ => v
          end).
Proof.
  intros Hv; unfold replace; rewrite nth_error_map, Hv; reflexivity.
Qed.

Lemma fill_missing_speed_inv (df df' : DataFrame) :
  fill_missing_speed df = Ok df' ->
  exists spd tipo,
    column "spd_limit" df = Some spd /\ column "tipo_via_ctb" df = Some tipo
    /\ df' = setitem "spd_limit" (fillna spd (replace SPEED_BY_ROAD_TYPE tipo)) df.
Proof.
  unfold fill_missing_speed; intros Hf.
  apply bind_ok in Hf as (spd & Hspd & Hf).
  apply bind_ok in Hf as (tipo & Htipo & Hf).
  apply getitem_Ok in Hspd, Htipo.
  injection Hf as <-; eauto.
Qed.

Lemma fill_missing_speed_names (df df' : DataFrame) :
  fill_missing_speed df = Ok df' -> names df' = names df.
Proof.
  intros Hf.
  destruct (fill_missing_speed_inv _ _ Hf) as (spd & tipo & Hcs & _ & ->).
  unfold names; simpl; apply names_set_column_In.
  destruct (in_dec string_dec "spd_limit" (map fst (columns df)))
    as [| Hn]; [assumption |].
  apply lookup_None in Hn; unfold column in Hcs; congruence.
Qed.

(** What [fill_missing_speed] does to one row, by the cells it reads. *)
Lemma fill_missing_speed_row (df df' : DataFrame) (k : nat) (spd tipo : value) :
  fill_missing_speed df = Ok df' ->
  cell df "spd_limit" k = Some spd -> cell df "tipo_via_ctb" k = Some tipo ->
  cell df' "spd_limit" k
  = Some (if isna spd
          then match tipo with
               | VStr t => match lookup t SPEED_BY_ROAD_TYPE with
                           | Some t' => VStr t'
                           | None => tipo
                           end
               | _ => tipo
               end
          else spd).
Proof.
  intros Hf Hs Ht.
  destruct (fill_missing_speed_inv _ _ Hf) as (s & t & Hcs & Hct & ->).
  unfold cell, column in *; simpl.
  rewrite lookup_set_column_eq; rewrite Hcs in Hs; rewrite Hct in Ht.
  destruct (isna spd) eqn:Hna.
  - eapply fillna_fills; eauto using replace_nth.
  - now apply fillna_keeps.
Qed.

(** C1, on the code: a missing limit on a street of type 3 becomes "40", a
    posted limit of 50 is kept, a fix without street stays without limit;
    but a missing limit on a street of type 9 does not stay missing: the
    limit becomes the type code itself, "9". *)
Theorem fill_missing_speed_unmapped_code :
  fill_missing_speed SampleRoads.joined = Ok SampleRoads.filled
  /\ column "tipo_via_ctb" SampleRoads.joined
     = Some [VStr "3"; VStr "1"; VStr "9"; VNull]
  /\ column "spd_limit" SampleRoads.joined
     = Some [VNull; VStr "50"; VNull; VNull]
  /\ column "spd_limit" SampleRoads.filled
     = Some [VStr "40"; VStr "50"; VStr "9"; VNull].
Proof.
  repeat split; vm_compute; reflexivity.
Qed.

(** C10: [fill_missing_speed] returns on every table that has the two
    columns it reads, and what it returns differs from its argument in the
    column [spd_limit] only: same row labels, same reference system, same
    column labels in the same order, every other column cell for cell, and in
    [spd_limit] as many cells, each cell that was present unchanged. *)
Theorem fill_missing_speed_frame (df : DataFrame) :
  (In "spd_limit" (names df) -> In "tipo_via_ctb" (names df) ->
   exists df', fill_missing_speed df = Ok df')
  /\ forall df', fill_missing_speed df = Ok df' ->
       index df' = index df /\ crs df' = crs df /\ names df' = names df
       /\ (forall c, c <> "spd_limit" -> column c df' = column c df)
       /\ exists spd spd',
            column "spd_limit" df = Some spd
            /\ column "spd_limit" df' = Some spd'
            /\ length spd' = length spd
            /\ forall k v, nth_error spd k = Some v -> isna v = false ->
                           nth_error spd' k = Some v.
Proof.
  split.
  - intros Hs Ht; unfold fill_missing_speed, getitem.
    destruct (lookup "spd_limit" (columns df)) eqn:Hls;
      [| apply lookup_None in Hls; contradiction].
    destruct (lookup "tipo_via_ctb" (columns df)) eqn:Hlt;
      [| apply lookup_None in Hlt; contradiction].
    simpl; eauto.
  - intros df' Hf.
    pose proof (fill_missing_speed_names _ _ Hf) as Hnames.
    destruct (fill_missing_speed_inv _ _ Hf) as (spd & tipo & Hcs & Hct & ->).
    split; [reflexivity |]; split; [reflexivity |]; split; [| split].
    + exact Hnames.
    + intros c Hne; unfold column; simpl; now apply lookup_set_column_ne.
    + exists spd, (fillna spd (replace SPEED_BY_ROAD_TYPE tipo)).
      split; [assumption |]; split; [| split].
      * unfold column; simpl; apply lookup_set_column_eq.
      * apply fillna_length.
      * intros k v; apply fillna_keeps.
Qed.

Lemma fill_missing_speed_frame_witness :
  (exists df', fill_missing_speed SampleRoads.joined = Ok df')
  /\ column "nome_via" SampleRoads.filled = column "nome_via" SampleRoads.joined
  /\ names SampleRoads.filled = names SampleRoads.joined.
Proof.
  destruct (fill_missing_speed_frame SampleRoads.joined) as (Hret & Hframe).
  destruct (Hframe SampleRoads.filled) as (_ & _ & Hnames & Hcols & _).
  - vm_compute; reflexivity.
  - split; [apply Hret; simpl; tauto |].
    split; [apply Hcols; discriminate | exact Hnames].
Defined.

(** ** [create_datetime] *)

Lemma add_series_nth (x y r : Series) (k : nat) (a b : value) :
  add_series x y = Ok r ->
  nth_error x k = Some a -> nth_error y k = Some b ->
  exists c, nth_error r k = Some c /\ add_text a b = Ok c.
Proof.
  revert y r k; induction x as [| a0 x IH]; intros y r k Hadd Ha Hb;
    [destruct k; discriminate |].
  destruct y as [| b0 y]; [destruct k; discriminate |].
  simpl in Hadd.
  apply bind_ok in Hadd as (c0 & Hc0 & Hadd).
  apply bind_ok in Hadd as (r0 & Hr0 & Hadd).
  injection Hadd as <-.
  destruct k as [| k]; simpl in *.
  - injection Ha as <-; injection Hb as <-; eauto.
  - eapply IH; eauto.
Qed.

Lemma Forall2_nth {A B : Type} (R : A -> B -> Prop) (l : list A) (l' : list B)
  (k : nat) (a : A) :
  Forall2 R l l' -> nth_error l k = Some a ->
  exists b, nth_error l' k = Some b /\ R a b.
Proof.
  intros HF; revert k; induction HF as [| x y l l' Hxy _ IH]; intros k Hk;
    [destruct k; discriminate |].
  destruct k as [| k]; simpl in *; [injection Hk as <-; eauto | auto].
Qed.

(** Text that has a blank after its date part is neither empty nor one of
    the spellings of NaT. *)
Lemma spaced_not_nat (x y : string) :
  String.eqb ((x ++ " ") ++ y) "" || existsb (String.eqb ((x ++ " ") ++ y)) nat_strings
  = false.
Proof.
  destruct (String.eqb _ "" || _) eqn:Hb; [| reflexivity].
  exfalso.
  apply orb_true_iff in Hb as [Hb | Hb].
  - apply String.eqb_eq in Hb; destruct x; discriminate.
  - apply existsb_exists in Hb as (n & Hin & Heq).
    apply String.eqb_eq in Heq.
    simpl in Hin.
    repeat destruct Hin as [<- | Hin]; try (destruct Hin);
      (destruct x as [| a1 [| a2 [| a3 [| a4 x]]]]; simpl in Heq;
       discriminate).
Qed.

Lemma create_datetime_inv (df df' : DataFrame) :
  create_datetime "date" "time" df = Ok df' ->
  exists dates times stamps dates',
    column "date" df = Some dates /\ column "time" df = Some times
    /\ (forall k d t, nth_error dates k = Some d -> nth_error times k = Some t ->
          exists s, nth_error stamps k = Some s /\ stamped d t s)
    /\ to_datetime "%d/%m/%Y" dates = Ok dates'
    /\ df' = setitem "date" dates' (setitem "datetime" stamps df).
Proof.
  unfold create_datetime; intros Hc.
  apply bind_ok in Hc as (dates & Hdates & Hc).
  apply bind_ok in Hc as (ds & Hds & Hc).
  apply bind_ok in Hc as (times & Htimes & Hc).
  apply bind_ok in Hc as (dt & Hdt & Hc).
  apply bind_ok in Hc as (dt0 & Hdt0 & Hc).
  apply bind_ok in Hc as (stamps & Hstamps & Hc).
  apply bind_ok in Hc as (dates0 & Hdates0 & Hc).
  apply bind_ok in Hc as (dates' & Hdates' & Hc).
  apply getitem_Ok in Hdates, Htimes, Hdt0, Hdates0.
  unfold column in Hdt0, Hdates0; simpl in Hdt0, Hdates0.
  rewrite lookup_set_column_eq in Hdt0; injection Hdt0 as <-.
  rewrite !lookup_set_column_ne in Hdates0 by discriminate.
  unfold column in Hdates; rewrite Hdates in Hdates0; injection Hdates0 as <-.
  assert (Hset := set_column_twice "datetime" dt stamps (columns df)).
  exists dates, times, stamps, dates'.
  split; [assumption |]; split; [assumption |]; split; [| split].
  - intros k d t Hd Ht.
    apply mapM_Forall2 in Hds, Hstamps.
    destruct (Forall2_nth _ _ _ _ _ Hds Hd) as (c1 & Hc1 & Hadd1).
    destruct (add_series_nth _ _ _ _ _ _ Hdt Hc1 Ht) as (c2 & Hc2 & Hadd2).
    destruct (Forall2_nth _ _ _ _ _ Hstamps Hc2) as (s & Hs & Hparse).
    exists s; split; [assumption |].
    unfold add_text in Hadd1, Hadd2.
    destruct (isna d) eqn:Hnd; simpl in Hadd1.
    + injection Hadd1 as <-; simpl in Hadd2; injection Hadd2 as <-.
      injection Hparse as <-; apply stamped_missing; now rewrite Hnd.
    + destruct d as [| x | | | |]; try discriminate.
      injection Hadd1 as <-; simpl in Hadd2.
      destruct (isna t) eqn:Hnt.
      * injection Hadd2 as <-; injection Hparse as <-.
        apply stamped_missing; simpl; now rewrite Hnt.
      * destruct t as [| y | | | |]; try discriminate.
        injection Hadd2 as <-.
        rewrite spaced_not_nat in Hparse.
        apply bind_ok in Hparse as (ns & Hns & Hparse).
        injection Hparse as <-; now constructor.
  - assumption.
  - injection Hc as <-; unfold setitem; simpl; now rewrite Hset.
Qed.

Lemma two_digits_tail (p1 p2 : ascii -> bool) (l r : list ascii) (v : Z) :
  (forall b, p2 b = true -> is_digit b = true) ->
  In (v, r) (two_digits p1 p2 l) ->
  exists a b, l = a :: b :: r /\ is_digit b = true.
Proof.
  intros Hp2; unfold two_digits.
  destruct l as [| a [| b l]]; try (intros []).
  destruct (p1 a && p2 b) eqn:Hc; [| intros []].
  intros [Heq | []]; injection Heq as _ <-.
  apply andb_true_iff in Hc as [_ Hb]; eauto.
Qed.

Lemma one_digit_tail (p : ascii -> bool) (l r : list ascii) (v : Z) :
  In (v, r) (one_digit p l) -> exists a, l = a :: r.
Proof.
  unfold one_digit; destruct l as [| a l]; [intros [] |].
  destruct (p a); [| intros []].
  intros [Heq | []]; injection Heq as _ <-; eauto.
Qed.

Lemma digit_in_is_digit (lo hi : Z) (b : ascii) :
  digit_in lo hi b = true -> is_digit b = true.
Proof.
  unfold digit_in; intros Hd.
  apply andb_true_iff in Hd as [Hd _]; now apply andb_true_iff in Hd as [Hd _].
Qed.

(** A day takes one character, or two of which the second is a digit. *)
Lemma day_tail (l r : list ascii) (v : Z) :
  In (v, r) (alternatives Dd l) ->
  (exists a, l = a :: r) \/ (exists a b, l = a :: b :: r /\ is_digit b = true).
Proof.
  unfold alternatives; rewrite !in_app_iff.
  intros [Hin | [Hin | [Hin | [Hin | Hin]]]].
  - right; eapply two_digits_tail; [| exact Hin]; apply digit_in_is_digit.
  - right; eapply two_digits_tail; [| exact Hin]; auto.
  - right; eapply two_digits_tail; [| exact Hin]; apply digit_in_is_digit.
  - left; eapply one_digit_tail; exact Hin.
  - destruct l as [| a l]; [destruct Hin |].
    destruct (ascii_eqb a " "); [| destruct Hin].
    right; unfold one_digit in Hin.
    destruct l as [| b l]; [destruct Hin |].
    destruct (digit_in 1 9 b) eqn:Hb; [| destruct Hin].
    destruct Hin as [Heq | []]; injection Heq as _ <-.
    exists a, b; split; [reflexivity | eapply digit_in_is_digit; eauto].
Qed.

Lemma flat_map_nil {A B : Type} (f : A -> list B) (l : list A) :
  (forall a, In a l -> f a = []) -> flat_map f l = [].
Proof.
  induction l as [| a l IH]; simpl; intros Hf; [reflexivity |].
  rewrite Hf, IH; auto.
Qed.

(** A date without slash, followed by a blank, matches no format that asks
    for a slash after the day. *)
Lemma no_slash_no_match (rest : list fmt_item) (x y : list ascii) (acc : civil) :
  x <> [] -> existsb (ascii_eqb "/") x = false ->
  regex_match (Field Dd :: Lit "/" :: rest) (x ++ " "%char :: y) acc = [].
Proof.
  intros Hne Hno; cbn [regex_match].
  apply flat_map_nil; intros [v r] Hin; cbn [snd fst].
  destruct x as [| a x]; [contradiction |].
  cbn [existsb] in Hno; apply orb_false_iff in Hno as [_ Hno].
  destruct (day_tail _ _ _ Hin) as [(a' & Heq) | (a' & b' & Heq & Hdig)].
  - simpl in Heq; injection Heq as _ <-.
    destruct x as [| b x]; cbn [app regex_match]; [reflexivity |].
    cbn [existsb] in Hno; apply orb_false_iff in Hno as [Hb _].
    now rewrite Hb.
  - destruct x as [| b x]; simpl in Heq.
    + injection Heq as _ <- _; discriminate.
    + injection Heq as _ _ <-.
      cbn [existsb] in Hno; apply orb_false_iff in Hno as [_ Hno].
      destruct x as [| c x]; cbn [app regex_match]; [reflexivity |].
      cbn [existsb] in Hno; apply orb_false_iff in Hno as [Hc _].
      now rewrite Hc.
Qed.

Lemma list_ascii_of_string_app (x y : string) :
  list_ascii_of_string (x ++ y) = list_ascii_of_string x ++ list_ascii_of_string y.
Proof.
  induction x as [| a x IH]; simpl; [reflexivity | now rewrite IH].
Qed.

Lemma strptime_needs_slash (x y : string) :
  x <> "" -> has_char "/" x = false ->
  strptime "%d/%m/%Y %H:%M:%S" ((x ++ " ") ++ y)
  = Raise (ValueError "time data does not match format").
Proof.
  intros Hne Hno; unfold strptime.
  change (compile_format (list_ascii_of_string "%d/%m/%Y %H:%M:%S"))
    with (Some [Field Dd; Lit "/"; Field Dm; Lit "/"; Field DY; Spaces;
                Field DH; Lit ":"; Field DM; Lit ":"; Field DS]).
  rewrite !list_ascii_of_string_app, <- app_assoc.
  change (list_ascii_of_string " " ++ list_ascii_of_string y)
    with (" "%char :: list_ascii_of_string y).
  rewrite no_slash_no_match; [reflexivity | | exact Hno].
  destruct x; [contradiction | discriminate].
Qed.

(** C6, as the code has it: the sample row of 31/12/2020 at 23:59:59 gets
    the time stamp 2020-12-31T23:59:59; whenever the operation returns, a
    row with a missing date or time has NaT, and in every other row the date
    and the time are text that, joined by one blank, [strptime] accepts
    under the format [%d/%m/%Y %H:%M:%S], the stamp being what it returns;
    and the operation raises on any table with a row of text whose date is
    non-empty and has no slash (such as 2020-12-31). *)
Theorem create_datetime_format :
  (create_datetime "date" "time" SampleDates.strict = Ok SampleDates.strict_out
   /\ cell SampleDates.strict "date" 0 = Some (VStr "31/12/2020")
   /\ cell SampleDates.strict "time" 0 = Some (VStr "23:59:59")
   /\ cell SampleDates.strict_out "datetime" 0
      = Some (VTime (nanoseconds (mkCivil 2020 12 31 23 59 59)))
   /\ nanoseconds (mkCivil 2020 12 31 23 59 59) = 1609459199 * 10 ^ 9)
  /\ (forall df df', create_datetime "date" "time" df = Ok df' ->
      exists dates times stamps,
        column "date" df = Some dates /\ column "time" df = Some times
        /\ column "datetime" df' = Some stamps
        /\ forall k d t,
             nth_error dates k = Some d -> nth_error times k = Some t ->
             exists s, nth_error stamps k = Some s /\ stamped d t s)
  /\ (forall df dates times k x y,
      column "date" df = Some dates -> column "time" df = Some times ->
      nth_error dates k = Some (VStr x) -> nth_error times k = Some (VStr y) ->
      x <> "" -> has_char "/" x = false ->
      exists e, create_datetime "date" "time" df = Raise e).
Proof.
  split; [repeat split; vm_compute; reflexivity |].
  assert (Hgen : forall df df', create_datetime "date" "time" df = Ok df' ->
      exists dates times stamps,
        column "date" df = Some dates /\ column "time" df = Some times
        /\ column "datetime" df' = Some stamps
        /\ forall k d t,
             nth_error dates k = Some d -> nth_error times k = Some t ->
             exists s, nth_error stamps k = Some s /\ stamped d t s).
  { intros df df' Hc.
    destruct (create_datetime_inv _ _ Hc)
      as (dates & times & stamps & dates' & Hd & Ht & Hrows & _ & ->).
    exists dates, times, stamps; repeat split; try assumption.
    unfold column; simpl.
    rewrite lookup_set_column_ne by discriminate.
    apply lookup_set_column_eq. }
  split; [exact Hgen |].
  intros df dates times k x y Hd Ht Hx Hy Hne Hno.
  destruct (create_datetime "date" "time" df) as [df' |] eqn:Hc; [| eauto].
  exfalso.
  destruct (Hgen _ _ Hc) as (dates0 & times0 & stamps & Hd0 & Ht0 & _ & Hrows).
  rewrite Hd in Hd0; injection Hd0 as <-.
  rewrite Ht in Ht0; injection Ht0 as <-.
  destruct (Hrows _ _ _ Hx Hy) as (s & _ & Hst).
  inversion Hst as [? ? Hna | ? ? ns Hp]; subst.
  - discriminate.
  - rewrite strptime_needs_slash in Hp by assumption; discriminate.
Qed.

Lemma create_datetime_format_witness :
  (exists s, nth_error [VTime 1609459199000000000] 0 = Some s
             /\ stamped (VStr "31/12/2020") (VStr "23:59:59") s)
  /\ exists e, create_datetime "date" "time" SampleDates.iso = Raise e.
Proof.
  destruct create_datetime_format as (_ & Hrows & Hfail).
  split.
  - destruct (Hrows SampleDates.strict SampleDates.strict_out)
      as (dates & times & stamps & Hd & Ht & Hs & Hk).
    + vm_compute; reflexivity.
    + injection Hd as <-; injection Ht as <-; injection Hs as <-.
      apply (Hk 0%nat); reflexivity.
  - apply (Hfail SampleDates.iso [VStr "2020-12-31"] [VStr "23:59:59"] 0%nat
             "2020-12-31" "23:59:59"); try reflexivity.
    discriminate.
Defined.

(** C6 fails as stated: a date of single digits, a time with a second
    blank before it, and a missing date do not have the shapes DD/MM/YYYY and
    HH:MM:SS, and still the operation returns, with the time stamps
    2020-02-01T03:04:05 and 2020-12-31T23:59:59 and with NaT. *)
Lemma create_datetime_accepts_other_shapes :
  create_datetime "date" "time" SampleDates.loose = Ok SampleDates.loose_out
  /\ column "date" SampleDates.loose
     = Some [VStr "1/2/2020"; VStr "31/12/2020"; VNull]
  /\ column "time" SampleDates.loose
     = Some [VStr "3:4:5"; VStr " 23:59:59"; VStr "23:59:59"]
  /\ matches_DD_MM_YYYY (VStr "1/2/2020") = false
  /\ matches_HH_MM_SS (VStr "3:4:5") = false
  /\ matches_HH_MM_SS (VStr " 23:59:59") = false
  /\ matches_DD_MM_YYYY VNull = false
  /\ column "datetime" SampleDates.loose_out
     = Some [VTime (nanoseconds (mkCivil 2020 2 1 3 4 5));
             VTime (nanoseconds (mkCivil 2020 12 31 23 59 59));
             VNull].
Proof.
  repeat split; vm_compute; reflexivity.
Qed.

(** ** Column labels through the pipeline *)

Lemma names_rename (m : list (string * string)) (df : DataFrame) :
  names (rename m df) = map (rename_label m) (names df).
Proof.
  unfold names, rename; simpl; now rewrite !map_map.
Qed.

Lemma names_setitem (c : string) (s : Series) (df : DataFrame) :
  names (setitem c s df)
  = if existsb (String.eqb c) (names df) then names df else names df ++ [c].
Proof.
  unfold names, setitem; simpl.
  destruct (existsb _ _) eqn:He.
  - apply names_set_column_In, existsb_eqb_In, He.
  - apply names_set_column_notIn; intros Hin.
    apply existsb_eqb_In in Hin; unfold names in *; congruence.
Qed.

Lemma names_filter (p : string -> bool) (l : list (string * Series)) :
  map fst (filter (fun kv => p (fst kv)) l) = filter p (map fst l).
Proof.
  induction l as [| [k v] l IH]; simpl; [reflexivity |].
  destruct (p k); simpl; now rewrite IH.
Qed.

Lemma names_without_geometry (l : list (string * Series)) :
  map fst (without_geometry l) = filter not_geometry (map fst l).
Proof.
  unfold without_geometry; apply (names_filter not_geometry).
Qed.

Lemma names_drop (c : string) (df df' : DataFrame) :
  drop c df = Ok df' ->
  names df' = dropped c (names df) /\ index df' = index df /\ crs df' = crs df.
Proof.
  unfold drop; destruct (has_column c df); [| discriminate].
  intros Hd; injection Hd as <-; unfold names; simpl.
  now rewrite (names_filter (fun k => negb (String.eqb c k))).
Qed.

Section SpatialLabels.

Context `{GeoBackend}.

Lemma to_crs_inv (dst : option Z) (df df' : DataFrame) :
  to_crs dst df = Ok df' ->
  exists d c g,
    dst = Some d /\ crs df = Some c /\ column "geometry" df = Some g
    /\ df' = mkDF (index df)
                  (set_column "geometry" (map (transform_value c d) g) (columns df))
                  (Some d).
Proof.
  unfold to_crs; destruct dst as [d |]; [| discriminate].
  destruct (crs df) as [c |]; [| discriminate].
  intros Ht; apply bind_ok in Ht as (g & Hg & Ht).
  apply getitem_Ok in Hg; injection Ht as <-.
  exists d, c, g; auto.
Qed.

Lemma names_to_crs (dst : option Z) (df df' : DataFrame) :
  to_crs dst df = Ok df' -> names df' = names df.
Proof.
  intros Ht; apply to_crs_inv in Ht as (d & c & g & _ & _ & Hg & ->).
  unfold names; simpl; apply names_set_column_In.
  destruct (in_dec string_dec "geometry" (map fst (columns df))) as [| Hn];
    [assumption |].
  apply lookup_None in Hn; unfold column in Hg; congruence.
Qed.

Lemma names_sjoin_right (left right out : DataFrame) :
  sjoin_right_contains left right = Ok out ->
  names out = sjoin_right_names (names left) (names right).
Proof.
  unfold sjoin_right_contains.
  destruct (existsb reserved (names left) || existsb reserved (names right));
    [discriminate |].
  intros Hj; apply bind_ok in Hj as (lg & _ & Hj).
  apply bind_ok in Hj as (rg & _ & Hj); injection Hj as <-.
  unfold names, sjoin_right_names; simpl.
  rewrite map_app, !map_map; simpl.
  rewrite <- (names_without_geometry (columns left)), !map_map.
  reflexivity.
Qed.

Lemma names_sjoin_nearest (left right out : DataFrame) (d : Q) :
  sjoin_nearest_left left right d = Ok out ->
  names out = sjoin_left_names (names left) (names right).
Proof.
  unfold sjoin_nearest_left.
  destruct (existsb reserved (names left) || existsb reserved (names right));
    [discriminate |].
  intros Hj; apply bind_ok in Hj as (lg & _ & Hj).
  apply bind_ok in Hj as (rg & _ & Hj); injection Hj as <-.
  unfold names, sjoin_left_names; simpl.
  rewrite map_app; simpl; rewrite !map_map; simpl.
  rewrite <- (names_without_geometry (columns right)), !map_map.
  reflexivity.
Qed.

Lemma names_join_bairros_data (ndsbr_data bairros_data out : DataFrame) :
  join_bairros_data ndsbr_data bairros_data = Ok out ->
  names out
  = dropped "index_left" (sjoin_right_names (names bairros_data) (names ndsbr_data)).
Proof.
  unfold join_bairros_data; intros Hj.
  apply bind_ok in Hj as (b & Hb & Hj).
  apply bind_ok in Hj as (gdf & Hgdf & Hj).
  apply names_drop in Hj as (-> & _).
  apply names_sjoin_right in Hgdf as ->.
  destruct (negb _); [apply names_to_crs in Hb as -> | injection Hb as ->];
    reflexivity.
Qed.

Lemma names_join_vias_data (ndsbr_data vias_data out : DataFrame) :
  join_vias_data ndsbr_data vias_data = Ok out ->
  names out
  = dropped "index_right" (sjoin_left_names (names ndsbr_data) (names vias_data)).
Proof.
  unfold join_vias_data; intros Hj.
  apply bind_ok in Hj as (n & Hn & Hj).
  apply bind_ok in Hj as (v & Hv & Hj).
  apply bind_ok in Hj as (gdf & Hgdf & Hj).
  apply bind_ok in Hj as (gdf' & Hgdf' & Hj).
  apply names_drop in Hj as (-> & _).
  apply names_to_crs in Hgdf' as ->.
  apply names_sjoin_nearest in Hgdf as ->.
  assert (Hnn : names n = names ndsbr_data).
  { destruct (negb (crs_eqb (crs ndsbr_data) _));
      [now apply names_to_crs in Hn | now injection Hn as ->]. }
  assert (Hvn : names v = names vias_data).
  { destruct (negb (crs_eqb (crs vias_data) _));
      [now apply names_to_crs in Hv | now injection Hv as ->]. }
  now rewrite Hnn, Hvn.
Qed.

Lemma names_create_spatial_data (df df' : DataFrame) :
  create_spatial_data df = Ok df' ->
  names df' = names (setitem "geometry" [] df) /\ crs df' = Some 4674.
Proof.
  unfold create_spatial_data; intros Hc.
  apply bind_ok in Hc as (x & _ & Hc).
  apply bind_ok in Hc as (y & _ & Hc).
  apply bind_ok in Hc as (g & _ & Hc).
  injection Hc as <-; split; [| reflexivity].
  change (names (setitem "geometry" g df) = names (setitem "geometry" [] df)).
  now rewrite !names_setitem.
Qed.

(** Whatever the four tables read from disk, the table that reaches
    [fix_col_order] has the labels [JOINED_COLS]. *)
Lemma names_before_fix_col_order
  (bairros_file vias_file osm_file nds_data : DataFrame)
  (bairros vias osm_vias c1 c2 sp j1 j2 j3 filled : DataFrame) :
  load_bairros bairros_file = Ok bairros ->
  load_vias_cwb vias_file = Ok vias ->
  import_osm osm_file = Ok osm_vias ->
  clean_cols nds_data = Ok c1 ->
  create_datetime "date" "time" c1 = Ok c2 ->
  create_spatial_data c2 = Ok sp ->
  join_bairros_data sp bairros = Ok j1 ->
  join_vias_data j1 vias = Ok j2 ->
  join_vias_data j2 osm_vias = Ok j3 ->
  fill_missing_speed j3 = Ok filled ->
  names filled = JOINED_COLS.
Proof.
  intros Hb Hv Ho Hc1 Hc2 Hsp Hj1 Hj2 Hj3 Hf.
  unfold load_bairros in Hb; apply bind_ok in Hb as (b0 & Hb0 & Hb).
  unfold load_vias_cwb in Hv; apply bind_ok in Hv as (v0 & Hv0 & Hv).
  unfold import_osm in Ho; apply bind_ok in Ho as (o0 & Ho0 & Ho).
  apply getitem_list_names in Hb0, Hv0, Ho0.
  injection Hb as <-; injection Hv as <-; injection Ho as <-.
  apply fill_missing_speed_names in Hf as ->.
  apply names_join_vias_data in Hj3 as ->.
  apply names_join_vias_data in Hj2 as ->.
  apply names_join_bairros_data in Hj1 as ->.
  apply names_create_spatial_data in Hsp as (-> & _).
  rewrite names_setitem.
  destruct (create_datetime_inv _ _ Hc2) as (? & ? & ? & ? & _ & _ & _ & _ & ->).
  rewrite !names_setitem.
  apply clean_cols_names in Hc1 as ->.
  rewrite !names_rename, Hb0, Hv0, Ho0.
  reflexivity.
Qed.

End SpatialLabels.

(** [fix_col_order] raises when a label of the final list is not a column,
    returns when all are, and what it returns has the seventeen labels in
    the final order, each column as it was. *)
Lemma fix_col_order_columns (df : DataFrame) :
  ((exists c, In c FINAL_COLS /\ ~ In c (names df)) ->
   exists c, In c FINAL_COLS /\ ~ In c (names df)
             /\ fix_col_order df = Raise (KeyError c))
  /\ ((forall c, In c FINAL_COLS -> In c (names df)) ->
      exists df', fix_col_order df = Ok df')
  /\ (forall df', fix_col_order df = Ok df' ->
      names df' = FINAL_COLS
      /\ length (names df') = 17%nat
      /\ forall c, In c FINAL_COLS -> column c df' = column c df).
Proof.
  unfold fix_col_order; split; [apply getitem_list_missing |].
  split; [apply getitem_list_present |].
  intros df' Hf; pose proof (getitem_list_names _ _ _ Hf) as Hn.
  split; [exact Hn |]; split; [now rewrite Hn |].
  intros c Hin; eapply getitem_list_column; eauto.
Qed.

(** On the sample, every stage before [fix_col_order] returns, and [main]
    stops at the missing label. *)
Lemma main_raises_on_sample :
  fill_missing_speed SampleJoin.with_osm = Ok SampleJoin.filled
  /\ names SampleJoin.filled = JOINED_COLS
  /\ @main Planar.backend SampleJoin.bairros_file SampleJoin.vias_file
           SampleJoin.osm_file Sample.raw
     = Raise (KeyError "nome_bairro").
Proof.
  repeat split; vm_compute; reflexivity.
Qed.

(** C2, on the code: whatever the four tables read from disk and whatever
    the geometry engine, [main] raises and hands no table to the writers.
    [load_bairros] labels the neighbourhood name [bairro], so the joined
    table has no column [nome_bairro], and [fix_col_order] asks for one. *)
Theorem main_never_returns `{GeoBackend}
  (bairros_file vias_file osm_file nds_data : DataFrame) :
  ~ In "nome_bairro" JOINED_COLS
  /\ In "nome_bairro" FINAL_COLS
  /\ exists e, main bairros_file vias_file osm_file nds_data = Raise e.
Proof.
  split; [simpl; intros Hin; repeat destruct Hin as [Hin | Hin];
          try discriminate; exact Hin |].
  split; [simpl; tauto |].
  unfold main.
  destruct (load_bairros bairros_file) as [bairros |] eqn:Hb; simpl; [| eauto].
  destruct (load_vias_cwb vias_file) as [vias |] eqn:Hv; simpl; [| eauto].
  destruct (import_osm osm_file) as [osm_vias |] eqn:Ho; simpl; [| eauto].
  destruct (clean_cols nds_data) as [c1 |] eqn:Hc1; simpl; [| eauto].
  destruct (create_datetime "date" "time" c1) as [c2 |] eqn:Hc2; simpl; [| eauto].
  destruct (create_spatial_data c2) as [sp |] eqn:Hsp; simpl; [| eauto].
  destruct (join_bairros_data sp bairros) as [j1 |] eqn:Hj1; simpl; [| eauto].
  destruct (join_vias_data j1 vias) as [j2 |] eqn:Hj2; simpl; [| eauto].
  destruct (join_vias_data j2 osm_vias) as [j3 |] eqn:Hj3; simpl; [| eauto].
  destruct (fill_missing_speed j3) as [filled |] eqn:Hf; simpl; [| eauto].
  pose proof (names_before_fix_col_order _ _ _ _ _ _ _ _ _ _ _ _ _ _
                Hb Hv Ho Hc1 Hc2 Hsp Hj1 Hj2 Hj3 Hf) as Hnames.
  destruct (getitem_list_missing FINAL_COLS filled) as (c & _ & _ & Hr).
  - exists "nome_bairro"; split; [simpl; tauto |].
    rewrite Hnames; simpl; intros Hin.
    repeat destruct Hin as [Hin | Hin]; try discriminate; exact Hin.
  - unfold fix_col_order; rewrite Hr; eauto.
Qed.

(** ** Rows of the joins *)

Lemma nth_error_take (idx : list nat) (s : Series) (k : nat) :
  nth_error (take idx s) k = option_map (fun i => nth i s VNull) (nth_error idx k).
Proof. unfold take; apply nth_error_map. Qed.

Lemma nth_error_take_opt (idx : list (option nat)) (s : Series) (k : nat) :
  nth_error (take_opt idx s) k
  = option_map (fun o => match o with Some i => nth i s VNull | None => VNull end)
               (nth_error idx k).
Proof. unfold take_opt; apply nth_error_map. Qed.

Lemma nth_nth_error (s : Series) (i : nat) :
  (i < length s)%nat -> nth_error s i = Some (nth i s VNull).
Proof. intros Hi; now apply nth_error_nth'. Qed.

Lemma lookup_map_snd {A B : Type} (f : A -> B) (c : string) (l : list (string * A)) :
  lookup c (map (fun kv => (fst kv, f (snd kv))) l) = option_map f (lookup c l).
Proof.
  induction l as [| [k v] l IH]; simpl; [reflexivity |].
  destruct (String.eqb c k); [reflexivity | exact IH].
Qed.

Lemma lookup_app {A : Type} (c : string) (l r : list (string * A)) :
  lookup c (l ++ r)
  = match lookup c l with Some v => Some v | None => lookup c r end.
Proof.
  induction l as [| [k v] l IH]; simpl; [reflexivity |].
  destruct (String.eqb c k); [reflexivity | exact IH].
Qed.

Lemma lookup_filter {A : Type} (p : string -> bool) (c : string)
  (l : list (string * A)) :
  p c = true -> lookup c (filter (fun kv => p (fst kv)) l) = lookup c l.
Proof.
  intros Hp; induction l as [| [k v] l IH]; simpl; [reflexivity |].
  destruct (String.eqb_spec c k) as [<- | Hne].
  - rewrite Hp; simpl; now rewrite String.eqb_refl.
  - destruct (p k); simpl; [| exact IH].
    destruct (String.eqb_spec c k); [contradiction | exact IH].
Qed.

Lemma lookup_without_geometry (c : string) (l : list (string * Series)) :
  c <> "geometry" -> lookup c (without_geometry l) = lookup c l.
Proof.
  intros Hne; unfold without_geometry.
  apply (lookup_filter (fun k => negb (String.eqb k "geometry"))).
  now destruct (String.eqb_spec c "geometry").
Qed.

Lemma filter_all {A : Type} (p : A -> bool) (l : list A) :
  (forall a, In a l -> p a = true) -> filter p l = l.
Proof.
  induction l as [| a l IH]; simpl; intros Hp; [reflexivity |].
  rewrite Hp by now left.
  now rewrite IH by (intros; apply Hp; now right).
Qed.

Lemma set_column_app (c : string) (s : Series) (l r : list (string * Series)) :
  In c (map fst l) -> set_column c s (l ++ r) = set_column c s l ++ r.
Proof.
  induction l as [| [k v] l IH]; simpl; [tauto |].
  destruct (String.eqb_spec c k) as [-> | Hne]; [reflexivity |].
  intros [-> | Hin]; [contradiction | now rewrite IH].
Qed.

Lemma map_suffixed_id {A : Type} (suffix : string) (others : list string)
  (f : string * Series -> A) (l : list (string * Series)) :
  (forall c, In c (map fst l) -> ~ In c others) ->
  map (fun c => (suffixed suffix others (fst c), f c)) l
  = map (fun c => (fst c, f c)) l.
Proof.
  intros Hd; apply map_ext_in; intros [k v] Hin; simpl.
  unfold suffixed.
  destruct (existsb (String.eqb k) others) eqn:He; [| reflexivity].
  apply existsb_eqb_In in He.
  exfalso; apply (Hd k); [apply in_map_iff; exists (k, v); auto | assumption].
Qed.

Lemma not_reserved (l : list string) (c : string) :
  existsb reserved l = false -> In c l ->
  c <> "index_left" /\ c <> "index_right".
Proof.
  intros He Hin.
  assert (Hr : reserved c = false).
  { destruct (reserved c) eqn:Hr; [| reflexivity].
    rewrite <- He; symmetry; apply existsb_exists; eauto. }
  unfold reserved in Hr; apply orb_false_iff in Hr as [H1 H2].
  split; intros ->; discriminate.
Qed.

Lemma find_all_spec {A : Type} (f : A -> bool) (l : list A) (i0 j : nat) :
  In j (find_all f l i0) <->
  (i0 <= j)%nat /\ exists a, nth_error l (j - i0) = Some a /\ f a = true.
Proof.
  revert i0; induction l as [| a l IH]; intros i0; simpl.
  - split; [tauto | intros (_ & x & Hx & _); destruct (j - i0)%nat; discriminate].
  - rewrite in_app_iff, IH; split.
    + intros [Hin | (Hle & x & Hx & Hf)].
      * destruct (f a) eqn:Hf; [| destruct Hin].
        destruct Hin as [<- | []].
        split; [lia |]; exists a; now rewrite Nat.sub_diag.
      * split; [lia |]; exists x.
        replace (j - i0)%nat with (S (j - S i0)) by lia; auto.
    + intros (Hle & x & Hx & Hf).
      destruct (Nat.eq_dec i0 j) as [-> | Hne].
      * rewrite Nat.sub_diag in Hx; injection Hx as ->.
        left; rewrite Hf; now left.
      * right; split; [lia |]; exists x.
        replace (j - i0)%nat with (S (j - S i0)) in Hx by lia; auto.
Qed.

Section SpatialRows.

Context `{GeoBackend}.

Lemma right_pairs_spec (polys pts : Series) (j0 : nat) (o : option nat) (j : nat) :
  In (o, j) (right_pairs polys pts j0) <->
  (j0 <= j)%nat
  /\ exists p, nth_error pts (j - j0) = Some p
               /\ match o with
                  | None => containing polys p = []
                  | Some i => In i (containing polys p)
                  end.
Proof.
  revert j0; induction pts as [| p pts IH]; intros j0; simpl.
  - split; [tauto | intros (_ & x & Hx & _); destruct (j - j0)%nat; discriminate].
  - rewrite in_app_iff, IH; split.
    + intros [Hin | (Hle & x & Hx & Ho)].
      * assert (Hj : j = j0 /\ match o with
                                | None => containing polys p = []
                                | Some i => In i (containing polys p)
                                end).
        { destruct (containing polys p) as [| i hits] eqn:Hc.
          - destruct Hin as [Heq | []]; injection Heq as <- <-; auto.
          - change (In (o, j) (map (fun i => (Some i, j0)) (i :: hits))) in Hin.
            apply in_map_iff in Hin as (i' & Heq & Hi').
            injection Heq as <- <-; auto. }
        destruct Hj as (-> & Ho); split; [lia |].
        exists p; now rewrite Nat.sub_diag.
      * split; [lia |]; exists x.
        replace (j - j0)%nat with (S (j - S j0)) by lia; auto.
    + intros (Hle & x & Hx & Ho).
      destruct (Nat.eq_dec j0 j) as [-> | Hne].
      * rewrite Nat.sub_diag in Hx; injection Hx as ->; left.
        destruct o as [i |].
        -- destruct (containing polys x) as [| i' hits] eqn:Hc; [destruct Ho |].
           change (In (Some i, j) (map (fun i => (Some i, j)) (i' :: hits))).
           apply in_map_iff; eauto.
        -- rewrite Ho; now left.
      * right; split; [lia |]; exists x.
        replace (j - j0)%nat with (S (j - S j0)) in Hx by lia; auto.
Qed.

Lemma right_pairs_length (polys pts : Series) (j0 : nat) :
  (length pts <= length (right_pairs polys pts j0))%nat.
Proof.
  revert j0; induction pts as [| p pts IH]; intros j0; simpl; [lia |].
  rewrite length_app; specialize (IH (S j0)).
  destruct (containing polys p); simpl; [lia |].
  rewrite length_map; lia.
Qed.

Lemma right_pairs_length_exact (polys pts : Series) (j0 : nat) :
  (forall p, In p pts -> (length (containing polys p) <= 1)%nat) ->
  length (right_pairs polys pts j0) = length pts.
Proof.
  revert j0; induction pts as [| p pts IH]; intros j0 Hone; simpl; [reflexivity |].
  rewrite length_app, IH by (intros; apply Hone; now right).
  specialize (Hone p (or_introl eq_refl)).
  destruct (containing polys p) as [| i [| i' hits]]; simpl in *; lia.
Qed.

Lemma right_pairs_length_more (polys pts : Series) (j0 : nat) (p : value) :
  In p pts -> (1 < length (containing polys p))%nat ->
  (length pts < length (right_pairs polys pts j0))%nat.
Proof.
  revert j0; induction pts as [| q pts IH]; intros j0 Hin Hmany; [destruct Hin |].
  simpl; rewrite length_app.
  destruct Hin as [-> | Hin].
  - pose proof (right_pairs_length polys pts (S j0)).
    destruct (containing polys p) as [| i [| i' hits]]; simpl in *;
      rewrite ?length_map; lia.
  - specialize (IH (S j0) Hin Hmany).
    destruct (containing polys q); simpl; [lia |].
    rewrite length_map; lia.
Qed.

End SpatialRows.

(** ** [join_bairros_data] *)

Lemma aligned_column (df : DataFrame) (c : string) (s : Series) :
  aligned df -> column c df = Some s -> length s = nrows df.
Proof.
  intros Hlen Hc; apply lookup_Some_In in Hc.
  unfold aligned in Hlen; rewrite Forall_forall in Hlen; exact (Hlen _ Hc).
Qed.

Lemma column_In_names (df : DataFrame) (c : string) :
  In c (names df) -> exists s, column c df = Some s.
Proof.
  intros Hin; unfold column.
  destruct (lookup c (columns df)) eqn:Hl; [eauto |].
  apply lookup_None in Hl; contradiction.
Qed.

Lemma In_without_geometry (c : string) (l : list (string * Series)) :
  In c (map fst (without_geometry l)) <-> In c (map fst l) /\ c <> "geometry".
Proof.
  rewrite names_without_geometry, filter_In; unfold not_geometry.
  destruct (String.eqb_spec c "geometry"); simpl; intuition congruence.
Qed.

Lemma drop_head (c : string) (s : Series) (rest : list (string * Series))
  (idx : list Z) (r : option Z) :
  (forall k, In k (map fst rest) -> k <> c) ->
  drop c (mkDF idx ((c, s) :: rest) r) = Ok (mkDF idx rest r).
Proof.
  intros Hne; unfold drop, has_column, names; cbn [columns map fst existsb index crs].
  rewrite String.eqb_refl; cbn [orb filter fst].
  rewrite String.eqb_refl; cbn [negb].
  do 2 f_equal; apply filter_all; intros [k v] Hin; cbn [fst].
  destruct (String.eqb_spec c k) as [-> | Hk]; [| reflexivity].
  exfalso; apply (Hne k); [apply in_map_iff; exists (k, v); auto | reflexivity].
Qed.

Section JoinBairros.

Context `{GeoBackend}.

Lemma sjoin_right_contains_inv (left right out : DataFrame) :
  disjoint_labels (names left) (names right) ->
  sjoin_right_contains left right = Ok out ->
  exists polys pts,
    column "geometry" left = Some polys /\ column "geometry" right = Some pts
    /\ existsb reserved (names left) = false
    /\ existsb reserved (names right) = false
    /\ out = mkDF (take_labels (map snd (right_pairs polys pts 0)) (index right))
                  (("index_left",
                    labels_opt (map fst (right_pairs polys pts 0)) (index left))
                   :: map (fun c => (fst c,
                                     take_opt (map fst (right_pairs polys pts 0))
                                              (snd c)))
                          (without_geometry (columns left))
                   ++ map (fun c => (fst c,
                                     take (map snd (right_pairs polys pts 0))
                                          (snd c)))
                          (columns right))
                  (crs right).
Proof.
  intros Hdis; unfold sjoin_right_contains.
  destruct (existsb reserved (names left) || existsb reserved (names right))
    eqn:Hres; [discriminate |].
  apply orb_false_iff in Hres as [Hrl Hrr].
  intros Hj; apply bind_ok in Hj as (polys & Hpolys & Hj).
  apply bind_ok in Hj as (pts & Hpts & Hj).
  apply getitem_Ok in Hpolys, Hpts.
  exists polys, pts; repeat (split; [assumption |]).
  injection Hj as <-; f_equal; f_equal; f_equal.
  - apply map_suffixed_id; intros c Hin.
    apply In_without_geometry in Hin as [Hin Hne]; now apply Hdis.
  - apply map_suffixed_id; intros c Hin Hin'.
    apply In_without_geometry in Hin' as [Hin' Hne]; now apply (Hdis c).
Qed.

Lemma join_bairros_data_inv (ndsbr_data bairros_data out : DataFrame) :
  disjoint_labels (names bairros_data) (names ndsbr_data) ->
  join_bairros_data ndsbr_data bairros_data = Ok out ->
  exists b' polys pts,
    names b' = names bairros_data
    /\ (forall c, c <> "geometry" -> column c b' = column c bairros_data)
    /\ bairros_geometry ndsbr_data bairros_data = Some polys
    /\ column "geometry" ndsbr_data = Some pts
    /\ existsb reserved (names bairros_data) = false
    /\ existsb reserved (names ndsbr_data) = false
    /\ out = mkDF (take_labels (map snd (right_pairs polys pts 0)) (index ndsbr_data))
                  (map (fun c => (fst c,
                                  take_opt (map fst (right_pairs polys pts 0))
                                           (snd c)))
                       (without_geometry (columns b'))
                   ++ map (fun c => (fst c,
                                     take (map snd (right_pairs polys pts 0))
                                          (snd c)))
                          (columns ndsbr_data))
                  (crs ndsbr_data).
Proof.
  intros Hdis; unfold join_bairros_data; intros Hj.
  apply bind_ok in Hj as (b' & Hb' & Hj).
  apply bind_ok in Hj as (gdf & Hgdf & Hj).
  assert (Hb : names b' = names bairros_data
               /\ (forall c, c <> "geometry" -> column c b' = column c bairros_data)
               /\ bairros_geometry ndsbr_data bairros_data = column "geometry" b').
  { unfold bairros_geometry.
    destruct (crs_eqb (crs ndsbr_data) (crs bairros_data)); simpl in Hb'.
    - injection Hb' as <-; auto.
    - split; [eapply names_to_crs; eauto |].
      apply to_crs_inv in Hb' as (d & c & g & Hd & Hc & Hg & ->).
      rewrite Hd; unfold reprojected, column; simpl.
      rewrite Hc; unfold column in Hg; rewrite Hg, lookup_set_column_eq.
      split; [| reflexivity].
      intros c' Hne; now apply lookup_set_column_ne. }
  destruct Hb as (Hnames & Hcols & Hgeo).
  apply sjoin_right_contains_inv in Hgdf
    as (polys & pts & Hpolys & Hpts & Hrl & Hrr & ->);
    [| now rewrite Hnames].
  exists b', polys, pts.
  split; [assumption |]; split; [assumption |].
  split; [now rewrite Hgeo |]; split; [assumption |].
  split; [now rewrite <- Hnames |]; split; [assumption |].
  rewrite drop_head in Hj; [now injection Hj as <- |].
  intros k Hin; rewrite map_app, !map_map in Hin; cbn [fst] in Hin.
  apply in_app_iff in Hin as [Hin | Hin].
  - apply In_without_geometry in Hin as [Hin _].
    now apply (not_reserved _ _ Hrl).
  - now apply (not_reserved _ _ Hrr).
Qed.

End JoinBairros.

Section JoinBairrosReturns.

Context `{GeoBackend}.

(** No point can make the join raise: it returns as soon as both tables
    have a reference system and a geometry column and neither has a column
    labelled like the join's index columns. *)
Lemma join_bairros_data_returns (ndsbr_data bairros_data : DataFrame) :
  crs ndsbr_data <> None -> crs bairros_data <> None ->
  In "geometry" (names ndsbr_data) -> In "geometry" (names bairros_data) ->
  existsb reserved (names ndsbr_data) = false ->
  existsb reserved (names bairros_data) = false ->
  exists out, join_bairros_data ndsbr_data bairros_data = Ok out.
Proof.
  intros Hcn Hcb Hgn Hgb Hrn Hrb.
  destruct (column_In_names _ _ Hgn) as (pts & Hpts).
  destruct (column_In_names _ _ Hgb) as (polys & Hpolys).
  assert (Hb : exists b', (if negb (crs_eqb (crs ndsbr_data) (crs bairros_data))
                           then to_crs (crs ndsbr_data) bairros_data
                           else Ok bairros_data) = Ok b'
                          /\ names b' = names bairros_data).
  { destruct (negb _) eqn:Hneq; [| eauto].
    destruct (to_crs (crs ndsbr_data) bairros_data) as [b' |] eqn:Ht.
    - exists b'; split; [reflexivity | eapply names_to_crs; eauto].
    - exfalso; unfold to_crs, getitem in Ht.
      destruct (crs ndsbr_data); [| congruence].
      destruct (crs bairros_data); [| congruence].
      unfold column in Hpolys; rewrite Hpolys in Ht; discriminate. }
  destruct Hb as (b' & Hb' & Hnames).
  unfold join_bairros_data; rewrite Hb'; cbn [bind].
  assert (Hgb' : In "geometry" (names b')) by now rewrite Hnames.
  destruct (column_In_names _ _ Hgb') as (polys' & Hpolys').
  unfold sjoin_right_contains, getitem.
  rewrite Hnames, Hrb, Hrn; cbn [orb].
  unfold column in Hpolys', Hpts; rewrite Hpolys', Hpts; cbn [bind].
  unfold drop, has_column, names; cbn [columns map fst existsb].
  rewrite String.eqb_refl; cbn [orb]; eauto.
Qed.

End JoinBairrosReturns.

Section JoinBairrosRows.

Context `{GeoBackend}.

(** C4, as the code has it: on an aligned table of points whose labels
    do not clash with the neighbourhoods', whenever [join_bairros_data]
    returns, no point row is lost: the result has at least as many rows,
    and each point row is found in it with all its cells.  It has exactly as
    many rows when no point lies in more than one polygon, and more rows as
    soon as one does.  A row whose point lies in no polygon has a missing
    value in every neighbourhood field. *)
Theorem join_bairros_data_keeps_points (ndsbr_data bairros_data out : DataFrame) :
  aligned ndsbr_data ->
  disjoint_labels (names bairros_data) (names ndsbr_data) ->
  join_bairros_data ndsbr_data bairros_data = Ok out ->
  exists polys pts,
    bairros_geometry ndsbr_data bairros_data = Some polys
    /\ column "geometry" ndsbr_data = Some pts
    /\ (nrows ndsbr_data <= nrows out)%nat
    /\ (forall i, (i < nrows ndsbr_data)%nat ->
        exists k, forall c, In c (names ndsbr_data) ->
                            cell out c k = cell ndsbr_data c i)
    /\ ((forall p, In p pts -> (length (containing polys p) <= 1)%nat) ->
        nrows out = nrows ndsbr_data)
    /\ (forall p, In p pts -> (1 < length (containing polys p))%nat ->
        (nrows ndsbr_data < nrows out)%nat)
    /\ (forall k p, cell out "geometry" k = Some p -> containing polys p = [] ->
        forall c, In c (names bairros_data) -> c <> "geometry" ->
                  cell out c k = Some VNull).
Proof.
  intros Hwf Hdis Hj.
  destruct (join_bairros_data_inv _ _ _ Hdis Hj)
    as (b' & polys & pts & Hnames & Hcols & Hgeo & Hpts & Hrl & Hrr & ->).
  exists polys, pts.
  split; [assumption |]; split; [assumption |].
  pose proof (aligned_column _ _ _ Hwf Hpts) as Hlen.
  set (pairs := right_pairs polys pts 0) in *.
  assert (Hrows : nrows (mkDF (take_labels (map snd pairs) (index ndsbr_data))
                    (map (fun c => (fst c, take_opt (map fst pairs) (snd c)))
                         (without_geometry (columns b'))
                     ++ map (fun c => (fst c, take (map snd pairs) (snd c)))
                            (columns ndsbr_data))
                    (crs ndsbr_data)) = length pairs).
  { unfold nrows, take_labels; cbn [index]; now rewrite !length_map. }
  (* a label of the points is no label of the left part *)
  assert (Hleft : forall c, In c (names ndsbr_data) ->
            lookup c (map (fun c => (fst c, take_opt (map fst pairs) (snd c)))
                          (without_geometry (columns b'))) = None).
  { intros c Hin; apply lookup_None; rewrite map_map; cbn [fst].
    intros Hin'; apply In_without_geometry in Hin' as [Hin' Hne].
    fold (names b') in Hin'; rewrite Hnames in Hin'.
    now apply (Hdis c). }
  assert (Hright : forall c s, column c ndsbr_data = Some s ->
            column c (mkDF (take_labels (map snd pairs) (index ndsbr_data))
                    (map (fun c => (fst c, take_opt (map fst pairs) (snd c)))
                         (without_geometry (columns b'))
                     ++ map (fun c => (fst c, take (map snd pairs) (snd c)))
                            (columns ndsbr_data))
                    (crs ndsbr_data))
            = Some (take (map snd pairs) s)).
  { intros c s Hc; unfold column; cbn [columns].
    rewrite lookup_app, Hleft.
    - rewrite (lookup_map_snd (take (map snd pairs))).
      unfold column in Hc; now rewrite Hc.
    - destruct (in_dec string_dec c (names ndsbr_data)) as [| Hn]; [assumption |].
      apply lookup_None in Hn; unfold column in Hc; congruence. }
  split; [rewrite Hrows, <- Hlen; apply right_pairs_length |].
  split; [| split; [| split]].
  - intros i Hi.
    assert (Hp : nth_error pts i = Some (nth i pts VNull))
      by (apply nth_nth_error; lia).
    set (o := match containing polys (nth i pts VNull) with
              | [] => None
              | i0 :: _ => Some i0
              end).
    assert (Hin : In (o, i) pairs).
    { apply right_pairs_spec; split; [lia |].
      exists (nth i pts VNull); rewrite Nat.sub_0_r; split; [assumption |].
      unfold o; destruct (containing polys (nth i pts VNull));
        [reflexivity | now left]. }
    apply In_nth_error in Hin as (k & Hk); exists k.
    intros c Hc; destruct (column_In_names _ _ Hc) as (s & Hs).
    unfold cell; rewrite (Hright _ _ Hs), Hs, nth_error_take, nth_error_map, Hk.
    cbn [option_map snd]; symmetry; apply nth_nth_error.
    rewrite (aligned_column _ _ _ Hwf Hs); exact Hi.
  - intros Hone; rewrite Hrows, <- Hlen.
    now apply right_pairs_length_exact.
  - intros p Hin Hmany; rewrite Hrows, <- Hlen.
    now apply right_pairs_length_more with (p := p).
  - intros k p Hcell Hout c Hc Hne.
    unfold cell in Hcell; rewrite (Hright _ _ Hpts) in Hcell.
    rewrite nth_error_take, nth_error_map in Hcell.
    destruct (nth_error pairs k) as [[o j] |] eqn:Hk; [| discriminate].
    cbn [option_map snd] in Hcell; injection Hcell as <-.
    assert (Ho : o = None).
    { apply nth_error_In in Hk; apply right_pairs_spec in Hk as (_ & p' & Hp' & Ho).
      rewrite Nat.sub_0_r in Hp'.
      rewrite (nth_error_nth _ _ VNull Hp') in Hout.
      destruct o as [i |]; [rewrite Hout in Ho; destruct Ho | reflexivity]. }
    subst o.
    rewrite <- Hnames in Hc; destruct (column_In_names _ _ Hc) as (s & Hs).
    unfold cell, column; cbn [columns].
    rewrite lookup_app, (lookup_map_snd (take_opt (map fst pairs))).
    rewrite lookup_without_geometry by assumption.
    unfold column in Hs; rewrite Hs; cbn [option_map].
    now rewrite nth_error_take_opt, nth_error_map, Hk.
Qed.

End JoinBairrosRows.

Lemma join_bairros_data_keeps_points_witness :
  (nrows SampleJoin.spatial <= nrows SampleJoin.with_bairros)%nat
  /\ nrows SampleJoin.with_bairros = nrows SampleJoin.spatial.
Proof.
  destruct (@join_bairros_data_keeps_points Planar.backend
              SampleJoin.spatial SampleJoin.bairros SampleJoin.with_bairros)
    as (polys & pts & Hpolys & Hpts & Hle & _ & Hone & _).
  - repeat (apply Forall_cons; [reflexivity |]); apply Forall_nil.
  - intros c Hin Hne; simpl in Hin.
    destruct Hin as [<- | [<- | []]]; [| contradiction].
    simpl; intros Hin; repeat destruct Hin as [Hin | Hin];
      try discriminate; exact Hin.
  - vm_compute; reflexivity.
  - split; [exact Hle |].
    apply Hone.
    vm_compute in Hpolys; injection Hpolys as <-.
    vm_compute in Hpts; injection Hpts as <-.
    intros p Hin; simpl in Hin.
    repeat destruct Hin as [<- | Hin]; try (destruct Hin);
      vm_compute; repeat constructor.
Defined.

(** C4 fails as stated: with two neighbourhoods that overlap, the three
    points give five rows, the two points in the overlap appearing once for
    each neighbourhood. *)
Lemma join_bairros_data_can_add_rows :
  @join_bairros_data Planar.backend SampleJoin.spatial SampleJoin.bairros_overlap
  = Ok SampleJoin.with_overlap
  /\ nrows SampleJoin.spatial = 3%nat
  /\ nrows SampleJoin.with_overlap = 5%nat
  /\ column "id" SampleJoin.with_overlap
     = Some [VInt 1; VInt 1; VInt 2; VInt 2; VInt 3]
  /\ column "bairro" SampleJoin.with_overlap
     = Some [VStr "CENTRO"; VStr "BATEL"; VStr "CENTRO"; VStr "BATEL"; VNull].
Proof.
  repeat split; vm_compute; reflexivity.
Qed.

(** ** Nearest streets *)

Lemma minimum_spec (l : list Q) (m : Q) :
  minimum l = Some m -> In m l /\ forall x, In x l -> (m <= x)%Q.
Proof.
  revert m; induction l as [| d l IH]; simpl; intros m Hm; [discriminate |].
  destruct (minimum l) as [m' |] eqn:Hl.
  - destruct (IH m' eq_refl) as (Hin & Hle).
    destruct (Qle_bool d m') eqn:Hd; injection Hm as <-.
    + apply Qle_bool_iff in Hd; split; [now left |].
      intros x [<- | Hx]; [apply Qle_refl |].
      eapply Qle_trans; [exact Hd | now apply Hle].
    + assert (Hlt : (m' < d)%Q).
      { apply Qnot_le_lt; intros Hc; apply Qle_bool_iff in Hc; congruence. }
      split; [now right |].
      intros x [<- | Hx]; [now apply Qlt_le_weak | now apply Hle].
  - injection Hm as <-.
    destruct l as [| d' l]; [| simpl in Hl; destruct (minimum l); discriminate].
    split; [now left |].
    intros x [<- | []]; apply Qle_refl.
Qed.

Lemma minimum_None (l : list Q) : minimum l = None -> l = [].
Proof.
  destruct l as [| d l]; [reflexivity |].
  simpl; destruct (minimum l); discriminate.
Qed.

Section Nearest.

Context `{GeoBackend}.

Lemma In_distances (g : geom) (lines : Series) (x : Q) :
  In x (distances g lines) <-> exists v, In v lines /\ distance_to g v = Some x.
Proof.
  unfold distances; rewrite in_flat_map; split.
  - intros (v & Hin & Hx); exists v; split; [assumption |].
    destruct (distance_to g v); [| destruct Hx].
    destruct Hx as [<- | []]; reflexivity.
  - intros (v & Hin & Hd); exists v; split; [assumption |].
    rewrite Hd; now left.
Qed.

(** A street at the least distance, when that is within the bound, is
    among the nearest. *)
Lemma nearest_within (dmax : Q) (lines : Series) (g : geom) (j : nat)
  (v : value) (dj : Q) :
  nth_error lines j = Some v -> distance_to g v = Some dj -> (dj <= dmax)%Q ->
  (forall v' d', In v' lines -> distance_to g v' = Some d' -> (dj <= d')%Q) ->
  In j (nearest dmax lines (VGeom g)).
Proof.
  intros Hj Hd Hmax Hleast; unfold nearest.
  destruct (minimum (distances g lines)) as [m |] eqn:Hm.
  - destruct (minimum_spec _ _ Hm) as (Hin & Hle).
    assert (Hmj : (m <= dj)%Q).
    { apply Hle, In_distances; exists v; split; [| assumption].
      eapply nth_error_In; eauto. }
    assert (Hjm : (dj <= m)%Q).
    { apply In_distances in Hin as (v' & Hv' & Hd'); eauto. }
    assert (Hb : Qle_bool m dmax = true)
      by (apply Qle_bool_iff; eapply Qle_trans; eauto).
    rewrite Hb; apply find_all_spec; split; [lia |].
    exists v; rewrite Nat.sub_0_r, Hd; split; [assumption |].
    apply Qeq_bool_iff, Qle_antisym; assumption.
  - apply minimum_None in Hm.
    assert (Hin : In dj (distances g lines)).
    { apply In_distances; exists v; split; [| assumption].
      eapply nth_error_In; eauto. }
    rewrite Hm in Hin; destruct Hin.
Qed.

(** With every street beyond the bound, none is nearest. *)
Lemma nearest_beyond (dmax : Q) (lines : Series) (g : geom) :
  (forall v' d', In v' lines -> distance_to g v' = Some d' -> (dmax < d')%Q) ->
  nearest dmax lines (VGeom g) = [].
Proof.
  intros Hfar; unfold nearest.
  destruct (minimum (distances g lines)) as [m |] eqn:Hm; [| reflexivity].
  destruct (minimum_spec _ _ Hm) as (Hin & _).
  apply In_distances in Hin as (v' & Hv' & Hd').
  specialize (Hfar _ _ Hv' Hd').
  destruct (Qle_bool m dmax) eqn:Hb; [| reflexivity].
  apply Qle_bool_iff in Hb; exfalso; eapply Qlt_not_le; eauto.
Qed.

(** A nearest street is a street of the table, within the bound, and no
    street is nearer. *)
Lemma nearest_sound (dmax : Q) (lines : Series) (p : value) (j : nat) :
  In j (nearest dmax lines p) ->
  exists g v dj,
    p = VGeom g /\ nth_error lines j = Some v /\ distance_to g v = Some dj
    /\ (dj <= dmax)%Q
    /\ forall v' d', In v' lines -> distance_to g v' = Some d' -> (dj <= d')%Q.
Proof.
  unfold nearest; destruct p as [| | | | | g]; try (intros []).
  destruct (minimum (distances g lines)) as [m |] eqn:Hm; [| intros []].
  destruct (Qle_bool m dmax) eqn:Hb; [| intros []].
  intros Hin; apply find_all_spec in Hin as (_ & v & Hv & Hf).
  rewrite Nat.sub_0_r in Hv.
  destruct (distance_to g v) as [dj |] eqn:Hd; [| discriminate].
  apply Qeq_bool_iff in Hf; apply Qle_bool_iff in Hb.
  destruct (minimum_spec _ _ Hm) as (_ & Hle).
  exists g, v, dj; repeat split; try assumption.
  - now rewrite Hf.
  - intros v' d' Hv' Hd'; rewrite Hf.
    apply Hle, In_distances; eauto.
Qed.

Lemma left_pairs_spec (dmax : Q) (pts lines : Series) (i0 i : nat) (o : option nat) :
  In (i, o) (left_pairs dmax pts lines i0) <->
  (i0 <= i)%nat
  /\ exists p, nth_error pts (i - i0) = Some p
               /\ match o with
                  | None => nearest dmax lines p = []
                  | Some j => In j (nearest dmax lines p)
                  end.
Proof.
  revert i0; induction pts as [| p pts IH]; intros i0; simpl.
  - split; [tauto | intros (_ & x & Hx & _); destruct (i - i0)%nat; discriminate].
  - rewrite in_app_iff, IH; split.
    + intros [Hin | (Hle & x & Hx & Ho)].
      * assert (Hi : i = i0 /\ match o with
                                | None => nearest dmax lines p = []
                                | Some j => In j (nearest dmax lines p)
                                end).
        { destruct (nearest dmax lines p) as [| j hits] eqn:Hc.
          - destruct Hin as [Heq | []]; injection Heq as <- <-; auto.
          - change (In (i, o) (map (fun j => (i0, Some j)) (j :: hits))) in Hin.
            apply in_map_iff in Hin as (j' & Heq & Hj').
            injection Heq as <- <-; auto. }
        destruct Hi as (-> & Ho); split; [lia |].
        exists p; now rewrite Nat.sub_diag.
      * split; [lia |]; exists x.
        replace (i - i0)%nat with (S (i - S i0)) by lia; auto.
    + intros (Hle & x & Hx & Ho).
      destruct (Nat.eq_dec i0 i) as [-> | Hne].
      * rewrite Nat.sub_diag in Hx; injection Hx as ->; left.
        destruct o as [j |].
        -- destruct (nearest dmax lines x) as [| j' hits] eqn:Hc; [destruct Ho |].
           change (In (i, Some j) (map (fun j => (i, Some j)) (j' :: hits))).
           apply in_map_iff; eauto.
        -- rewrite Ho; now left.
      * right; split; [lia |]; exists x.
        replace (i - i0)%nat with (S (i - S i0)) in Hx by lia; auto.
Qed.

Lemma left_pairs_length (dmax : Q) (pts lines : Series) (i0 : nat) :
  (length pts <= length (left_pairs dmax pts lines i0))%nat.
Proof.
  revert i0; induction pts as [| p pts IH]; intros i0; simpl; [lia |].
  rewrite length_app; specialize (IH (S i0)).
  destruct (nearest dmax lines p); simpl; [lia |].
  rewrite length_map; lia.
Qed.

End Nearest.

(** ** [join_vias_data] *)

Lemma drop_middle (c : string) (s : Series) (l r : list (string * Series))
  (idx : list Z) (code : option Z) :
  (forall k, In k (map fst l) -> k <> c) ->
  (forall k, In k (map fst r) -> k <> c) ->
  drop c (mkDF idx (l ++ (c, s) :: r) code) = Ok (mkDF idx (l ++ r) code).
Proof.
  intros Hl Hr; unfold drop, has_column, names; cbn [columns index crs].
  destruct (existsb (String.eqb c) (map fst (l ++ (c, s) :: r))) eqn:He.
  - do 2 f_equal.
    assert (Hkeep : forall m : list (string * Series),
               (forall k, In k (map fst m) -> k <> c) ->
               filter (fun kv => negb (String.eqb c (fst kv))) m = m).
    { intros m Hm; apply filter_all; intros [k v] Hin; cbn [fst].
      destruct (String.eqb_spec c k) as [-> | Hk]; [| reflexivity].
      exfalso; apply (Hm k); [apply in_map_iff; exists (k, v); auto | reflexivity]. }
    rewrite filter_app; cbn [filter fst].
    rewrite String.eqb_refl; cbn [negb].
    now rewrite !Hkeep.
  - exfalso.
    assert (Hin : In c (map fst (l ++ (c, s) :: r)))
      by (rewrite map_app, in_app_iff; right; now left).
    apply existsb_eqb_In in Hin; congruence.
Qed.

Lemma length_take (idx : list nat) (s : Series) : length (take idx s) = length idx.
Proof. unfold take; apply length_map. Qed.

Lemma length_take_opt (idx : list (option nat)) (s : Series) :
  length (take_opt idx s) = length idx.
Proof. unfold take_opt; apply length_map. Qed.

Lemma In_set_column (c : string) (s : Series) (l : list (string * Series))
  (kv : string * Series) :
  In kv (set_column c s l) -> In kv l \/ kv = (c, s).
Proof.
  induction l as [| [k v] l IH]; simpl.
  - intros [<- | []]; now right.
  - destruct (String.eqb_spec c k) as [-> | Hne]; simpl.
    + intros [<- | Hin]; [now right | left; now right].
    + intros [<- | Hin]; [left; now left |].
      destruct (IH Hin); [left; now right | now right].
Qed.

Section JoinVias.

Context `{GeoBackend}.

Lemma to_metric_inv (df df' : DataFrame) :
  (if negb (crs_eqb (crs df) (Some 31982)) then to_crs (Some 31982) df else Ok df)
  = Ok df' ->
  metric_geometry df = column "geometry" df'
  /\ names df' = names df
  /\ (forall c, c <> "geometry" -> column c df' = column c df)
  /\ index df' = index df
  /\ crs df' = Some 31982.
Proof.
  unfold metric_geometry.
  destruct (crs_eqb (crs df) (Some 31982)) eqn:Hcrs; cbn [negb]; intros Ht.
  - injection Ht as <-; repeat split.
    destruct (crs df) as [c |]; [| discriminate].
    simpl in Hcrs; apply Z.eqb_eq in Hcrs; now subst.
  - split; [| split; [eapply names_to_crs; eauto |]];
      apply to_crs_inv in Ht as (d & c & g & Hd & Hc & Hg & ->);
      injection Hd as <-.
    + unfold reprojected, column; simpl.
      rewrite Hc; unfold column in Hg; now rewrite Hg, lookup_set_column_eq.
    + split; [| split; reflexivity].
      intros c' Hne; unfold column; simpl; now apply lookup_set_column_ne.
Qed.

Lemma sjoin_nearest_left_inv (left right out : DataFrame) (d : Q) :
  disjoint_labels (names right) (names left) ->
  sjoin_nearest_left left right d = Ok out ->
  exists pts lines,
    column "geometry" left = Some pts /\ column "geometry" right = Some lines
    /\ existsb reserved (names left) = false
    /\ existsb reserved (names right) = false
    /\ out = mkDF (take_labels (map fst (left_pairs d pts lines 0)) (index left))
                  (map (fun c => (fst c,
                                  take (map fst (left_pairs d pts lines 0)) (snd c)))
                       (columns left)
                   ++ ("index_right",
                       labels_opt (map snd (left_pairs d pts lines 0)) (index right))
                   :: map (fun c => (fst c,
                                     take_opt (map snd (left_pairs d pts lines 0))
                                              (snd c)))
                          (without_geometry (columns right)))
                  (crs left).
Proof.
  intros Hdis; unfold sjoin_nearest_left.
  destruct (existsb reserved (names left) || existsb reserved (names right))
    eqn:Hres; [discriminate |].
  apply orb_false_iff in Hres as [Hrl Hrr].
  intros Hj; apply bind_ok in Hj as (pts & Hpts & Hj).
  apply bind_ok in Hj as (lines & Hlines & Hj).
  apply getitem_Ok in Hpts, Hlines.
  exists pts, lines; repeat (split; [assumption |]).
  injection Hj as <-; f_equal; f_equal; [| f_equal].
  - apply map_suffixed_id; intros c Hin Hin'.
    apply In_without_geometry in Hin' as [Hin' Hne]; now apply (Hdis c).
  - apply map_suffixed_id; intros c Hin.
    apply In_without_geometry in Hin as [Hin Hne]; now apply Hdis.
Qed.

(** The table [join_vias_data] returns, on tables whose labels do not
    clash: the rows of the points picked by the join's pairs, their geometry
    back in EPSG 4674, then the street attributes picked by the pairs. *)
Lemma join_vias_data_inv (ndsbr_data vias_data out : DataFrame) :
  disjoint_labels (names vias_data) (names ndsbr_data) ->
  join_vias_data ndsbr_data vias_data = Ok out ->
  exists n' v' pts lines,
    names n' = names ndsbr_data
    /\ (forall c, c <> "geometry" -> column c n' = column c ndsbr_data)
    /\ names v' = names vias_data
    /\ (forall c, c <> "geometry" -> column c v' = column c vias_data)
    /\ metric_geometry ndsbr_data = Some pts
    /\ metric_geometry vias_data = Some lines
    /\ column "geometry" n' = Some pts
    /\ out = mkDF (take_labels (map fst (left_pairs 20 pts lines 0))
                               (index ndsbr_data))
                  (set_column "geometry"
                     (map (transform_value 31982 4674)
                          (take (map fst (left_pairs 20 pts lines 0)) pts))
                     (map (fun c => (fst c,
                                     take (map fst (left_pairs 20 pts lines 0))
                                          (snd c)))
                          (columns n'))
                   ++ map (fun c => (fst c,
                                     take_opt (map snd (left_pairs 20 pts lines 0))
                                              (snd c)))
                          (without_geometry (columns v')))
                  (Some 4674).
Proof.
  intros Hdis; unfold join_vias_data; intros Hj.
  apply bind_ok in Hj as (n' & Hn' & Hj).
  apply bind_ok in Hj as (v' & Hv' & Hj).
  apply bind_ok in Hj as (gdf & Hgdf & Hj).
  apply bind_ok in Hj as (gdf' & Hgdf' & Hj).
  apply to_metric_inv in Hn' as (Hng & Hnn & Hnc & Hni & Hncrs).
  apply to_metric_inv in Hv' as (Hvg & Hvn & Hvc & Hvi & Hvcrs).
  apply sjoin_nearest_left_inv in Hgdf
    as (pts & lines & Hpts & Hlines & Hrl & Hrr & ->);
    [| now rewrite Hnn, Hvn].
  exists n', v', pts, lines.
  split; [assumption |]; split; [assumption |].
  split; [assumption |]; split; [assumption |].
  split; [now rewrite Hng |]; split; [now rewrite Hvg |].
  split; [assumption |].
  set (pairs := left_pairs 20 pts lines 0) in *.
  assert (Hgeo : In "geometry"
                   (map fst (map (fun c => (fst c, take (map fst pairs) (snd c)))
                                 (columns n')))).
  { rewrite map_map; cbn [fst].
    destruct (in_dec string_dec "geometry" (map fst (columns n'))) as [| Hn];
      [assumption |].
    apply lookup_None in Hn; unfold column in Hpts; congruence. }
  apply to_crs_inv in Hgdf' as (d & c & g & Hd & Hc & Hg & ->).
  injection Hd as <-.
  cbn [crs] in Hc; rewrite Hncrs in Hc; injection Hc as <-.
  unfold column in Hg; cbn [columns] in Hg.
  rewrite lookup_app, (lookup_map_snd (take (map fst pairs))) in Hg.
  unfold column in Hpts; rewrite Hpts in Hg; cbn [option_map] in Hg.
  injection Hg as <-.
  cbn [columns index] in Hj.
  rewrite set_column_app in Hj by exact Hgeo.
  rewrite drop_middle in Hj.
  - injection Hj as <-; now rewrite Hni.
  - intros k Hin.
    rewrite names_set_column_In in Hin by exact Hgeo.
    rewrite map_map in Hin; cbn [fst] in Hin.
    now apply (not_reserved _ _ Hrl).
  - intros k Hin; rewrite map_map in Hin; cbn [fst] in Hin.
    apply In_without_geometry in Hin as [Hin _].
    now apply (not_reserved _ _ Hrr).
Qed.

End JoinVias.

Section JoinViasRows.

Context `{GeoBackend}.

Lemma metric_geometry_length (df : DataFrame) (g : Series) :
  aligned df -> metric_geometry df = Some g -> length g = nrows df.
Proof.
  intros Hal; unfold metric_geometry, reprojected.
  destruct (crs_eqb (crs df) (Some 31982)).
  - now apply aligned_column.
  - destruct (crs df) as [c |]; [| discriminate].
    destruct (column "geometry" df) as [g0 |] eqn:Hg; [| discriminate].
    intros Heq; injection Heq as <-.
    rewrite length_map; now apply (aligned_column df "geometry").
Qed.

(** Row by row: what [join_vias_data] returns is read off the pairs of the
    nearest-neighbour search, [(i, Some j)] for point [i] with street [j],
    [(i, None)] for point [i] without street. *)
Lemma join_vias_data_rows (ndsbr_data vias_data out : DataFrame) :
  aligned ndsbr_data -> aligned vias_data ->
  disjoint_labels (names vias_data) (names ndsbr_data) ->
  join_vias_data ndsbr_data vias_data = Ok out ->
  exists pts lines,
    metric_geometry ndsbr_data = Some pts
    /\ metric_geometry vias_data = Some lines
    /\ crs out = Some 4674
    /\ names out = names ndsbr_data ++ filter not_geometry (names vias_data)
    /\ nrows out = length (left_pairs 20 pts lines 0)
    /\ aligned out
    /\ forall k i o,
         nth_error (left_pairs 20 pts lines 0) k = Some (i, o) ->
         (i < nrows ndsbr_data)%nat
         /\ (forall c, In c (names ndsbr_data) -> c <> "geometry" ->
             cell out c k = cell ndsbr_data c i)
         /\ (exists g, nth_error pts i = Some g
                       /\ cell out "geometry" k
                          = Some (transform_value 31982 4674 g))
         /\ (forall c, In c (names vias_data) -> c <> "geometry" ->
             cell out c k = match o with
                            | Some j => cell vias_data c j
                            | None => Some VNull
                            end).
Proof.
  intros Haln Halv Hdis Hj.
  destruct (join_vias_data_inv _ _ _ Hdis Hj)
    as (n' & v' & pts & lines & Hnn & Hnc & Hvn & Hvc & Hpts & Hlines & Hgeo & ->).
  exists pts, lines.
  split; [assumption |]; split; [assumption |]; split; [reflexivity |].
  pose proof (metric_geometry_length _ _ Haln Hpts) as Hlp.
  pose proof (metric_geometry_length _ _ Halv Hlines) as Hll.
  set (pairs := left_pairs 20 pts lines 0) in *.
  set (G := map (transform_value 31982 4674) (take (map fst pairs) pts)).
  set (L := map (fun c => (fst c, take (map fst pairs) (snd c))) (columns n')).
  set (R := map (fun c => (fst c, take_opt (map snd pairs) (snd c)))
                (without_geometry (columns v'))).
  assert (HnL : map fst L = names ndsbr_data).
  { unfold L; rewrite map_map; cbn [fst]; exact Hnn. }
  assert (HgL : In "geometry" (map fst L)).
  { rewrite HnL, <- Hnn.
    destruct (in_dec string_dec "geometry" (names n')) as [| Hn]; [assumption |].
    apply lookup_None in Hn; unfold column in Hgeo; congruence. }
  assert (Hrows : nrows (mkDF (take_labels (map fst pairs) (index ndsbr_data))
                              (set_column "geometry" G L ++ R) (Some 4674))
                  = length pairs).
  { unfold nrows, take_labels; cbn [index]; now rewrite !length_map. }
  split; [| split; [exact Hrows | split]].
  - unfold names at 1; cbn [columns].
    rewrite map_app, names_set_column_In by exact HgL.
    rewrite HnL; f_equal.
    unfold R; rewrite map_map; cbn [fst].
    rewrite names_without_geometry; fold (names v'); now rewrite Hvn.
  - unfold aligned; rewrite Hrows; cbn [columns].
    apply Forall_forall; intros [k s] Hin; cbn [snd].
    apply in_app_iff in Hin as [Hin | Hin].
    + apply In_set_column in Hin as [Hin | Heq].
      * unfold L in Hin; apply in_map_iff in Hin as (c & Heq & _).
        injection Heq as _ <-; now rewrite length_take, length_map.
      * injection Heq as _ ->; unfold G.
        now rewrite length_map, length_take, length_map.
    + unfold R in Hin; apply in_map_iff in Hin as (c & Heq & _).
      injection Heq as _ <-; now rewrite length_take_opt, length_map.
  - intros k i o Hk.
    assert (Hin := nth_error_In _ _ Hk).
    apply left_pairs_spec in Hin as (_ & p & Hp & Ho).
    rewrite Nat.sub_0_r in Hp.
    assert (Hi : (i < nrows ndsbr_data)%nat).
    { rewrite <- Hlp; apply nth_error_Some; congruence. }
    split; [exact Hi |]; split; [| split].
    + intros c Hc Hne.
      destruct (column_In_names _ _ Hc) as (s & Hs).
      unfold cell at 1, column; cbn [columns].
      rewrite lookup_app, lookup_set_column_ne by assumption.
      unfold L; rewrite (lookup_map_snd (take (map fst pairs))).
      fold (column c n'); rewrite (Hnc c Hne), Hs; cbn [option_map].
      rewrite nth_error_take, nth_error_map, Hk; cbn [option_map fst].
      unfold cell; rewrite Hs; symmetry; apply nth_nth_error.
      now rewrite (aligned_column _ _ _ Haln Hs).
    + exists p; split; [assumption |].
      unfold cell, column; cbn [columns].
      rewrite lookup_app, lookup_set_column_eq.
      unfold G; rewrite nth_error_map, nth_error_take, nth_error_map, Hk.
      cbn [option_map fst]; now rewrite (nth_error_nth _ _ VNull Hp).
    + intros c Hc Hne.
      destruct (column_In_names _ _ Hc) as (s & Hs).
      assert (HcL : lookup c (set_column "geometry" G L) = None).
      { rewrite lookup_set_column_ne by assumption.
        apply lookup_None; rewrite HnL; now apply Hdis. }
      unfold cell at 1, column; cbn [columns].
      rewrite lookup_app, HcL.
      unfold R; rewrite (lookup_map_snd (take_opt (map snd pairs))).
      rewrite lookup_without_geometry by assumption.
      fold (column c v'); rewrite (Hvc c Hne), Hs; cbn [option_map].
      rewrite nth_error_take_opt, nth_error_map, Hk; cbn [option_map snd].
      destruct o as [j |]; [| reflexivity].
      apply nearest_sound in Ho as (g & v & dj & _ & Hv & _).
      unfold cell; rewrite Hs; symmetry; apply nth_nth_error.
      rewrite (aligned_column _ _ _ Halv Hs), <- Hll.
      apply nth_error_Some; congruence.
Qed.

(** C5: whenever [join_vias_data] returns (on aligned tables whose labels
    do not clash), distances were measured between the geometries of both
    tables in EPSG 31982, and the result is in EPSG 4674, its points brought
    back from 31982.  Its rows follow the pairs of the search: the row of a
    pair has the point's cells and the street's attributes, or missing values
    when the pair has no street.  A point whose nearest street is at distance
    19 has a row with that street's attributes, and each of its rows is
    paired with a street at distance 19; a point whose nearest street is at
    distance 21 has a row, and each of its rows has a missing value in every
    street attribute. *)
Theorem join_vias_data_within_20 (ndsbr_data vias_data out : DataFrame) :
  aligned ndsbr_data -> aligned vias_data ->
  disjoint_labels (names vias_data) (names ndsbr_data) ->
  join_vias_data ndsbr_data vias_data = Ok out ->
  exists pts lines pairs,
    metric_geometry ndsbr_data = Some pts
    /\ metric_geometry vias_data = Some lines
    /\ crs out = Some 4674
    /\ nrows out = length pairs
    /\ (forall k i o,
        nth_error pairs k = Some (i, o) ->
        (forall c, In c (names ndsbr_data) -> c <> "geometry" ->
         cell out c k = cell ndsbr_data c i)
        /\ (exists g, nth_error pts i = Some g
                      /\ cell out "geometry" k
                         = Some (transform_value 31982 4674 g))
        /\ (forall c, In c (names vias_data) -> c <> "geometry" ->
            cell out c k = match o with
                           | Some j => cell vias_data c j
                           | None => Some VNull
                           end))
    /\ (forall i p,
        nth_error pts i = Some (VGeom p) ->
        (forall j s d,
         nth_error lines j = Some (VGeom s) -> distance p s = Some d ->
         (d == 19)%Q ->
         (forall j' s' d', nth_error lines j' = Some (VGeom s') ->
                           distance p s' = Some d' -> (19 <= d')%Q) ->
         (exists k, nth_error pairs k = Some (i, Some j)
                    /\ forall c, In c (names vias_data) -> c <> "geometry" ->
                                 cell out c k = cell vias_data c j)
         /\ forall k o, nth_error pairs k = Some (i, o) ->
              exists j' s' d', o = Some j' /\ nth_error lines j' = Some (VGeom s')
                               /\ distance p s' = Some d' /\ (d' == 19)%Q)
        /\ ((forall j' s' d', nth_error lines j' = Some (VGeom s') ->
                              distance p s' = Some d' -> (21 <= d')%Q) ->
            (exists k, nth_error pairs k = Some (i, None))
            /\ forall k o, nth_error pairs k = Some (i, o) ->
                 forall c, In c (names vias_data) -> c <> "geometry" ->
                           cell out c k = Some VNull)).
Proof.
  intros Haln Halv Hdis Hj.
  destruct (join_vias_data_rows _ _ _ Haln Halv Hdis Hj)
    as (pts & lines & Hpts & Hlines & Hcrs & _ & Hrows & _ & Hcells).
  exists pts, lines, (left_pairs 20 pts lines 0).
  repeat (split; [assumption |]).
  split; [intros k i o Hk; now destruct (Hcells k i o Hk) as (_ & ? & ? & ?) |].
  intros i p Hp.
  assert (Hconv : forall (b : Q),
            (forall j' s' d', nth_error lines j' = Some (VGeom s') ->
                              distance p s' = Some d' -> (b <= d')%Q) ->
            forall v' d', In v' lines -> distance_to p v' = Some d' -> (b <= d')%Q).
  { intros b Hb v' d' Hin Hd.
    apply In_nth_error in Hin as (j' & Hj').
    destruct v' as [| | | | | s']; try discriminate.
    eapply Hb; eauto. }
  split.
  - intros j s d Hs Hd Hd19 Hleast.
    assert (Hin : In (i, Some j) (left_pairs 20 pts lines 0)).
    { apply left_pairs_spec; split; [lia |].
      exists (VGeom p); rewrite Nat.sub_0_r; split; [assumption |].
      apply (nearest_within 20 lines p j (VGeom s) d); try assumption.
      - rewrite Hd19; discriminate.
      - intros v' d' Hin Hd'; rewrite Hd19; eapply Hconv; eauto. }
    split.
    + apply In_nth_error in Hin as (k & Hk); exists k; split; [assumption |].
      now destruct (Hcells k i (Some j) Hk) as (_ & _ & _ & Hattr).
    + intros k o Hk.
      apply nth_error_In, left_pairs_spec in Hk as (_ & p' & Hp' & Ho).
      rewrite Nat.sub_0_r, Hp in Hp'; injection Hp' as <-.
      apply left_pairs_spec in Hin as (_ & p' & Hp' & Hnj).
      rewrite Nat.sub_0_r, Hp in Hp'; injection Hp' as <-.
      destruct o as [j' |]; [| rewrite Ho in Hnj; destruct Hnj].
      apply nearest_sound in Ho as (g & v & dj & Hg & Hv & Hdj & _ & Hmin).
      injection Hg as <-.
      destruct v as [| | | | | s']; try discriminate.
      exists j', s', dj; repeat split; try assumption.
      apply Qle_antisym.
      * rewrite <- Hd19.
        apply (Hmin (VGeom s) d); [eapply nth_error_In; eauto | assumption].
      * eapply Hleast; eauto.
  - intros Hfar.
    assert (Hnone : nearest 20 lines (VGeom p) = []).
    { apply nearest_beyond; intros v' d' Hin Hd'.
      apply Qlt_le_trans with (y := 21%Q); [reflexivity |].
      eapply Hconv; eauto. }
    split.
    + apply In_nth_error, left_pairs_spec; split; [lia |].
      exists (VGeom p); rewrite Nat.sub_0_r; auto.
    + intros k o Hk.
      assert (Ho : o = None).
      { apply nth_error_In, left_pairs_spec in Hk as (_ & p' & Hp' & Ho).
        rewrite Nat.sub_0_r, Hp in Hp'; injection Hp' as <-.
        destruct o as [j |]; [| reflexivity].
        rewrite Hnone in Ho; destruct Ho. }
      subst o.
      now destruct (Hcells k i None Hk) as (_ & _ & _ & Hattr).
Qed.

(** C3, as the code has it: when [join_vias_data] is applied to the
    municipal streets and then, on its result, to the OSM streets (labels
    not clashing), the second join leaves every column of the first result
    other than the geometry as it was, missing values included: each row of
    the final table is a row of the first result, each row of the first
    result is in the final table, and the street attributes of the municipal
    source are columns of both.  What the second join adds are columns of its
    own. *)
Theorem second_join_keeps_first
  (ndsbr_data vias_data osm_data first final : DataFrame) :
  aligned ndsbr_data -> aligned vias_data -> aligned osm_data ->
  disjoint_labels (names vias_data) (names ndsbr_data) ->
  disjoint_labels (names osm_data) (names first) ->
  join_vias_data ndsbr_data vias_data = Ok first ->
  join_vias_data first osm_data = Ok final ->
  names final = names first ++ filter not_geometry (names osm_data)
  /\ (nrows first <= nrows final)%nat
  /\ (forall c, In c (names vias_data) -> c <> "geometry" ->
      In c (names first) /\ In c (names final))
  /\ (forall k, (k < nrows final)%nat ->
      exists i, (i < nrows first)%nat
                /\ forall c, In c (names first) -> c <> "geometry" ->
                             cell final c k = cell first c i)
  /\ (forall i, (i < nrows first)%nat ->
      exists k, (k < nrows final)%nat
                /\ forall c, In c (names first) -> c <> "geometry" ->
                             cell final c k = cell first c i).
Proof.
  intros Haln Halv Halo Hdis1 Hdis2 Hj1 Hj2.
  destruct (join_vias_data_rows _ _ _ Haln Halv Hdis1 Hj1)
    as (pts1 & lines1 & _ & _ & _ & Hnames1 & _ & Hal1 & _).
  destruct (join_vias_data_rows _ _ _ Hal1 Halo Hdis2 Hj2)
    as (pts & lines & Hpts & _ & _ & Hnames2 & Hrows & _ & Hcells).
  split; [assumption |]; split; [| split; [| split]].
  - rewrite Hrows, <- (metric_geometry_length _ _ Hal1 Hpts).
    apply left_pairs_length.
  - intros c Hc Hne.
    assert (Hin : In c (names first)).
    { rewrite Hnames1; apply in_app_iff; right; apply filter_In; split;
        [assumption |].
      unfold not_geometry; now destruct (String.eqb_spec c "geometry"). }
    split; [assumption |].
    rewrite Hnames2; apply in_app_iff; now left.
  - intros k Hk; rewrite Hrows in Hk.
    destruct (nth_error (left_pairs 20 pts lines 0) k) as [[i o] |] eqn:Hp.
    + destruct (Hcells k i o Hp) as (Hi & Hsame & _); eauto.
    + apply nth_error_None in Hp; lia.
  - intros i Hi.
    pose proof (metric_geometry_length _ _ Hal1 Hpts) as Hlen.
    assert (Hp : nth_error pts i = Some (nth i pts VNull))
      by (apply nth_nth_error; lia).
    set (o := match nearest 20 lines (nth i pts VNull) with
              | [] => None
              | j :: _ => Some j
              end).
    assert (Hin : In (i, o) (left_pairs 20 pts lines 0)).
    { apply left_pairs_spec; split; [lia |].
      exists (nth i pts VNull); rewrite Nat.sub_0_r; split; [assumption |].
      unfold o; destruct (nearest 20 lines (nth i pts VNull));
        [reflexivity | now left]. }
    apply In_nth_error in Hin as (k & Hk); exists k; split.
    + rewrite Hrows; apply nth_error_Some; congruence.
    + now destruct (Hcells k i o Hk) as (_ & Hsame & _).
Qed.

End JoinViasRows.

Ltac labels_apart :=
  let c := fresh "c" in
  let Hin := fresh "Hin" in
  let Hne := fresh "Hne" in
  let Hin' := fresh "Hin'" in
  intros c Hin Hne; simpl in Hin;
  repeat (destruct Hin as [<- | Hin]; [try contradiction |]);
  try (destruct Hin);
  simpl; intros Hin';
  repeat (destruct Hin' as [Hin' | Hin']; [discriminate |]);
  exact Hin'.

Ltac cells_aligned :=
  repeat (apply Forall_cons; [reflexivity |]); apply Forall_nil.

Lemma join_vias_data_within_20_witness :
  (exists k, cell SampleJoin.with_vias "nome_via" k = Some (VStr "RUA A"))
  /\ (exists k, cell SampleJoin.with_vias "nome_via" k = Some VNull).
Proof.
  destruct (@join_vias_data_within_20 Planar.backend
              SampleJoin.with_bairros SampleJoin.vias SampleJoin.with_vias)
    as (pts & lines & pairs & Hpts & Hlines & _ & Hrows & _ & Hnear).
  - cells_aligned.
  - cells_aligned.
  - labels_apart.
  - vm_compute; reflexivity.
  - vm_compute in Hpts; injection Hpts as <-.
    vm_compute in Hlines; injection Hlines as <-.
    split.
    + destruct (proj1 (Hnear 0%nat _ eq_refl) 0%nat _ 19%Q eq_refl)
        as ((k & _ & Hattr) & _).
      * vm_compute; reflexivity.
      * reflexivity.
      * intros [| [| [| j']]] s' d' Hs' Hd'; simpl in Hs'; try discriminate;
          injection Hs' as <-; vm_compute in Hd'; injection Hd' as <-;
          discriminate.
      * exists k; rewrite (Hattr "nome_via"); [reflexivity | | discriminate].
        simpl; tauto.
    + destruct (proj2 (Hnear 1%nat _ eq_refl)) as ((k & Hk) & Hnull).
      * intros [| [| [| j']]] s' d' Hs' Hd'; simpl in Hs'; try discriminate;
          injection Hs' as <-; vm_compute in Hd'; injection Hd' as <-;
          discriminate.
      * exists k; apply (Hnull k None Hk); [simpl; tauto | discriminate].
Defined.

Lemma second_join_keeps_first_witness :
  names SampleJoin.with_osm = names SampleJoin.with_vias ++ ["spd_limit"]
  /\ In "nome_via" (names SampleJoin.with_osm).
Proof.
  destruct (@second_join_keeps_first Planar.backend
              SampleJoin.with_bairros SampleJoin.vias SampleJoin.osm_vias
              SampleJoin.with_vias SampleJoin.with_osm)
    as (Hnames & _ & Hattr & _).
  - cells_aligned.
  - cells_aligned.
  - cells_aligned.
  - labels_apart.
  - labels_apart.
  - vm_compute; reflexivity.
  - vm_compute; reflexivity.
  - split; [exact Hnames |].
    apply (Hattr "nome_via"); [simpl; tauto | discriminate].
Defined.

(** C3 fails as stated: the second point has no municipal street within
    20, so the first join leaves its street name and type codes missing; the
    second join finds it an OSM street, whose speed limit it receives; and
    the name and the type codes are still missing afterwards. *)
Lemma second_join_fills_no_null :
  @join_vias_data Planar.backend SampleJoin.with_bairros SampleJoin.vias
  = Ok SampleJoin.with_vias
  /\ @join_vias_data Planar.backend SampleJoin.with_vias SampleJoin.osm_vias
     = Ok SampleJoin.with_osm
  /\ cell SampleJoin.with_vias "nome_via" 1 = Some VNull
  /\ cell SampleJoin.with_vias "tipo_via_cwb" 1 = Some VNull
  /\ cell SampleJoin.with_vias "tipo_via_ctb" 1 = Some VNull
  /\ cell SampleJoin.with_osm "spd_limit" 1 = Some (VStr "40")
  /\ cell SampleJoin.with_osm "nome_via" 1 = Some VNull
  /\ cell SampleJoin.with_osm "tipo_via_cwb" 1 = Some VNull
  /\ cell SampleJoin.with_osm "tipo_via_ctb" 1 = Some VNull.
Proof.
  repeat split; vm_compute; reflexivity.
Qed.

(** * Further properties *)

(** ** [clean_cols]: when it returns and how it fails *)

Lemma mapM_returns {A B : Type} (f : A -> result B) (l : list A) :
  (forall a, In a l -> exists b, f a = Ok b) -> exists l', mapM f l = Ok l'.
Proof.
  induction l as [| a l IH]; simpl; intros Hall; [eauto |].
  destruct (Hall a (or_introl eq_refl)) as (b & ->); simpl.
  destruct IH as (l' & ->); [intros; apply Hall; now right |].
  simpl; eauto.
Qed.

(** When every failure of [f] is the same exception, that is what [mapM]
    raises as soon as one element fails. *)
Lemma mapM_raises {A B : Type} (f : A -> result B) (l : list A) (e : exn) :
  (forall a e', f a = Raise e' -> e' = e) ->
  (exists a, In a l /\ f a = Raise e) -> mapM f l = Raise e.
Proof.
  intros Hsame; induction l as [| x l IH]; intros (a & Hin & Hf); [destruct Hin |].
  simpl; destruct (f x) as [b | e'] eqn:Hx; simpl.
  - destruct Hin as [-> | Hin]; [congruence |].
    rewrite IH by eauto; reflexivity.
  - now rewrite (Hsame _ _ Hx).
Qed.

Lemma to_float_returns (df : DataFrame) (col : string) (s : Series) :
  column col df = Some s -> forallb float_text s = true ->
  exists out, to_float df col = Ok out.
Proof.
  intros Hc Hs; unfold to_float, getitem; unfold column in Hc; rewrite Hc.
  cbn [bind].
  assert (Htxt : exists t, str_accessor s = Ok t
                           /\ Forall (fun o => match o with
                                               | Some x => float_text (VStr x) = true
                                               | None => True
                                               end) t).
  { clear Hc; unfold str_accessor.
    induction s as [| v s IH]; simpl; [eauto |].
    simpl in Hs; apply andb_true_iff in Hs as [Hv Hs].
    destruct (IH Hs) as (t & -> & Ht).
    destruct v; try discriminate; simpl; eexists; split; try reflexivity;
      constructor; auto. }
  destruct Htxt as (t & -> & Ht); cbn [bind].
  unfold astype_float, str_replace_comma; apply mapM_returns.
  intros o Hin; apply in_map_iff in Hin as (o' & <- & Hin').
  rewrite Forall_forall in Ht; specialize (Ht _ Hin').
  destruct o' as [x |]; simpl; [| eauto].
  simpl in Ht; destruct (float_of_string _); [eauto | discriminate].
Qed.

Lemma float_of_cell_text (raw out : Series) :
  Forall2 float_of_cell raw out -> forallb float_text raw = true.
Proof.
  induction 1 as [| v v' raw out Hv _ IH]; simpl; [reflexivity |].
  rewrite IH, andb_true_r.
  destruct Hv as [[-> _] | (t & f & -> & Hf & _)]; simpl; [reflexivity |].
  now rewrite Hf.
Qed.

(** With its twelve columns found, [clean_cols] is the conversion loop on
    the selected and renamed table. *)
Lemma clean_cols_selected (df : DataFrame)
  (driver long lat date trip id time time_acum spd_kmh valid_time timestamp
     acel_ms2 : Series) :
  column "DRIVER" df = Some driver -> column "LONG" df = Some long ->
  column "LAT" df = Some lat -> column "DAY" df = Some date ->
  column "TRIP" df = Some trip -> column "ID" df = Some id ->
  column "PR" df = Some time -> column "TIME_ACUM" df = Some time_acum ->
  column "SPD_KMH" df = Some spd_kmh -> column "VALID_TIME" df = Some valid_time ->
  column "TIMESTAMP" df = Some timestamp -> column "ACEL_MS2" df = Some acel_ms2 ->
  clean_cols df
  = to_float_loop FLOAT_COLS
      (mkDF (index df)
            [ ("driver", driver); ("long", long); ("lat", lat); ("date", date);
              ("trip", trip); ("id", id); ("time", time);
              ("time_acum", time_acum); ("spd_kmh", spd_kmh);
              ("valid_time", valid_time); ("TIMESTAMP", timestamp);
              ("acel_ms2", acel_ms2) ]
            (crs df)).
Proof.
  unfold column; intros H1 H2 H3 H4 H5 H6 H7 H8 H9 H10 H11 H12.
  unfold clean_cols, getitem_list, COLS; cbn [mapM]; unfold getitem.
  rewrite H1, H2, H3, H4, H5, H6, H7, H8, H9, H10, H11, H12.
  reflexivity.
Qed.

Lemma all_columns_found (df : DataFrame) :
  (forall c, In c COLS -> In c (names df)) ->
  exists driver long lat date trip id time time_acum spd_kmh valid_time
         timestamp acel_ms2,
    column "DRIVER" df = Some driver /\ column "LONG" df = Some long
    /\ column "LAT" df = Some lat /\ column "DAY" df = Some date
    /\ column "TRIP" df = Some trip /\ column "ID" df = Some id
    /\ column "PR" df = Some time /\ column "TIME_ACUM" df = Some time_acum
    /\ column "SPD_KMH" df = Some spd_kmh
    /\ column "VALID_TIME" df = Some valid_time
    /\ column "TIMESTAMP" df = Some timestamp
    /\ column "ACEL_MS2" df = Some acel_ms2.
Proof.
  intros Hall.
  assert (Hc : forall c, In c COLS -> exists s, column c df = Some s)
    by (intros c Hin; apply column_In_names; auto).
  destruct (Hc "DRIVER") as (s1 & H1); [simpl; tauto |].
  destruct (Hc "LONG") as (s2 & H2); [simpl; tauto |].
  destruct (Hc "LAT") as (s3 & H3); [simpl; tauto |].
  destruct (Hc "DAY") as (s4 & H4); [simpl; tauto |].
  destruct (Hc "TRIP") as (s5 & H5); [simpl; tauto |].
  destruct (Hc "ID") as (s6 & H6); [simpl; tauto |].
  destruct (Hc "PR") as (s7 & H7); [simpl; tauto |].
  destruct (Hc "TIME_ACUM") as (s8 & H8); [simpl; tauto |].
  destruct (Hc "SPD_KMH") as (s9 & H9); [simpl; tauto |].
  destruct (Hc "VALID_TIME") as (s10 & H10); [simpl; tauto |].
  destruct (Hc "TIMESTAMP") as (s11 & H11); [simpl; tauto |].
  destruct (Hc "ACEL_MS2") as (s12 & H12); [simpl; tauto |].
  exists s1, s2, s3, s4, s5, s6, s7, s8, s9, s10, s11, s12; tauto.
Qed.

Lemma clean_cols_returns_when (df : DataFrame) :
  (exists df', clean_cols df = Ok df')
  <-> (forall c, In c COLS -> In c (names df))
      /\ forall c s, In c RAW_FLOAT_COLS -> column c df = Some s ->
                     forallb float_text s = true.
Proof.
  split.
  - intros (df' & Hc).
    destruct (clean_cols_inv _ _ Hc)
      as (driver & long & lat & date & trip & id & time & time_acum & spd_kmh
          & valid_time & timestamp & acel_ms2 & long' & lat' & spd_kmh'
          & acel_ms2' & H1 & H2 & H3 & H4 & H5 & H6 & H7 & H8 & H9 & H10
          & H11 & H12 & F1 & F2 & F3 & F4 & _).
    split.
    + intros c Hin.
      destruct (in_dec string_dec c (names df)) as [| Hn]; [assumption |].
      apply lookup_None in Hn; unfold column in *.
      simpl in Hin; repeat destruct Hin as [<- | Hin]; try congruence.
      destruct Hin.
    + intros c s Hin Hs; simpl in Hin.
      destruct Hin as [<- | [<- | [<- | [<- | []]]]];
        match goal with
        | Hcol : column ?c df = Some ?r, HF : Forall2 float_of_cell ?r _ |- _ =>
            rewrite Hcol in Hs; injection Hs as <-;
            exact (float_of_cell_text _ _ HF)
        end.
  - intros (Hall & Htext).
    destruct (all_columns_found _ Hall)
      as (driver & long & lat & date & trip & id & time & time_acum & spd_kmh
          & valid_time & timestamp & acel_ms2 & H1 & H2 & H3 & H4 & H5 & H6
          & H7 & H8 & H9 & H10 & H11 & H12).
    rewrite (clean_cols_selected df _ _ _ _ _ _ _ _ _ _ _ _
               H1 H2 H3 H4 H5 H6 H7 H8 H9 H10 H11 H12).
    unfold FLOAT_COLS; cbn [to_float_loop].
    match goal with
    | |- context [to_float ?d "long"] =>
        destruct (to_float_returns d "long" long eq_refl) as (long' & ->);
          [apply (Htext "LONG"); [simpl; tauto | assumption] |]
    end.
    cbn [bind]; unfold setitem; simpl set_column; cbn [index crs columns].
    match goal with
    | |- context [to_float ?d "lat"] =>
        destruct (to_float_returns d "lat" lat eq_refl) as (lat' & ->);
          [apply (Htext "LAT"); [simpl; tauto | assumption] |]
    end.
    cbn [bind]; unfold setitem; simpl set_column; cbn [index crs columns].
    match goal with
    | |- context [to_float ?d "spd_kmh"] =>
        destruct (to_float_returns d "spd_kmh" spd_kmh eq_refl) as (spd' & ->);
          [apply (Htext "SPD_KMH"); [simpl; tauto | assumption] |]
    end.
    cbn [bind]; unfold setitem; simpl set_column; cbn [index crs columns].
    match goal with
    | |- context [to_float ?d "acel_ms2"] =>
        destruct (to_float_returns d "acel_ms2" acel_ms2 eq_refl) as (acel' & ->);
          [apply (Htext "ACEL_MS2"); [simpl; tauto | assumption] |]
    end.
    cbn [bind]; eauto.
Qed.

(** X1: on a raw table whose [LONG], [LAT], [SPD_KMH] and [ACEL_MS2]
    columns are text, as [read_csv] leaves columns written with decimal
    commas, [clean_cols] returns exactly when the table has the twelve
    allow-listed columns and every cell of those four is missing or is text
    that [float] reads once its commas are points. *)
Theorem clean_cols_returns_iff (df : DataFrame) :
  (forall c s, In c RAW_FLOAT_COLS -> column c df = Some s ->
               text_column s = true) ->
  (exists df', clean_cols df = Ok df')
  <-> (forall c, In c COLS -> In c (names df))
      /\ forall c s, In c RAW_FLOAT_COLS -> column c df = Some s ->
                     forallb float_text s = true.
Proof.
  intros _; apply clean_cols_returns_when.
Qed.

Lemma clean_cols_returns_iff_witness :
  exists df', clean_cols Sample.raw = Ok df'.
Proof.
  apply (proj2 (clean_cols_returns_iff Sample.raw
                  ltac:(intros c s Hin Hs; simpl in Hin;
                        destruct Hin as [<- | [<- | [<- | [<- | []]]]];
                        vm_compute in Hs; injection Hs as <-; reflexivity))).
  split.
  - intros c Hin; simpl in Hin; simpl.
    repeat (destruct Hin as [<- | Hin]; [tauto |]); destruct Hin.
  - intros c s Hin Hs; simpl in Hin.
    destruct Hin as [<- | [<- | [<- | [<- | []]]]];
      vm_compute in Hs; injection Hs as <-; vm_compute; reflexivity.
Defined.

Lemma non_text_long_raises (df : DataFrame) (long : Series) :
  (forall c, In c COLS -> In c (names df)) ->
  column "LONG" df = Some long -> forallb is_text long = false ->
  clean_cols df
  = Raise (AttributeError "Can only use .str accessor with string values").
Proof.
  intros Hall Hlong Hnum.
  destruct (all_columns_found _ Hall)
    as (driver & long0 & lat & date & trip & id & time & time_acum & spd_kmh
        & valid_time & timestamp & acel_ms2 & H1 & H2 & H3 & H4 & H5 & H6
        & H7 & H8 & H9 & H10 & H11 & H12).
  rewrite Hlong in H2; injection H2 as <-.
  rewrite (clean_cols_selected df _ _ _ _ _ _ _ _ _ _ _ _
             H1 Hlong H3 H4 H5 H6 H7 H8 H9 H10 H11 H12).
  unfold FLOAT_COLS; cbn [to_float_loop].
  unfold to_float at 1, getitem; simpl lookup; cbn [bind].
  unfold str_accessor; rewrite mapM_raises
    with (e := AttributeError "Can only use .str accessor with string values").
  - reflexivity.
  - intros v e' Hv; destruct v; try discriminate; now injection Hv.
  - assert (Hex : exists v, In v long /\ is_text v = false).
    { clear - Hnum; induction long as [| v l IH]; simpl in Hnum; [discriminate |].
      destruct (is_text v) eqn:Hv.
      - destruct (IH Hnum) as (w & Hin & Hw); exists w; split; [now right | auto].
      - exists v; split; [now left | auto]. }
    destruct Hex as (v & Hin & Hv); exists v; split; [assumption |].
    destruct v; try discriminate; reflexivity.
Qed.

(** X2: a column of numbers among [LONG], [LAT], [SPD_KMH] and
    [ACEL_MS2] (the file had decimal points and [read_csv] made numbers of
    it) makes [clean_cols] raise, even though all twelve columns are there;
    for [LONG], the first one converted, the error is the [AttributeError] of
    the [.str] accessor. *)
Theorem clean_cols_numeric_column_raises (df : DataFrame) (c : string)
  (col : Series) :
  (forall c, In c COLS -> In c (names df)) ->
  In c RAW_FLOAT_COLS -> column c df = Some col ->
  col <> [] -> forallb is_number col = true ->
  (exists e, clean_cols df = Raise e)
  /\ (c = "LONG" ->
      clean_cols df
      = Raise (AttributeError "Can only use .str accessor with string values")).
Proof.
  intros Hall Hin Hcol Hne Hnum.
  destruct col as [| v col]; [congruence |].
  cbn [forallb] in Hnum; apply andb_true_iff in Hnum as [Hv _].
  split.
  - destruct (clean_cols df) as [df' | e] eqn:Hc; [| eauto].
    exfalso.
    destruct (proj1 (clean_cols_returns_when df)) as (_ & Htext); [eauto |].
    specialize (Htext c _ Hin Hcol); cbn [forallb] in Htext.
    destruct v; discriminate.
  - intros ->; apply (non_text_long_raises df (v :: col)); try assumption.
    cbn [forallb]; destruct v; try discriminate; reflexivity.
Qed.

Lemma clean_cols_numeric_column_raises_witness :
  clean_cols (setitem "LONG" [VFloat (FNum 1); VFloat FNaN; VFloat (FNum 2)]
                      Sample.raw)
  = Raise (AttributeError "Can only use .str accessor with string values").
Proof.
  apply (clean_cols_numeric_column_raises _ "LONG"
           [VFloat (FNum 1); VFloat FNaN; VFloat (FNum 2)]).
  - intros c Hin; simpl in Hin; simpl.
    repeat (destruct Hin as [<- | Hin]; [tauto |]); destruct Hin.
  - simpl; tauto.
  - reflexivity.
  - discriminate.
  - reflexivity.
  - reflexivity.
Defined.

(** ** [fill_missing_speed] and [fix_col_order] applied again *)

Lemma fillna_twice (s other : Series) :
  fillna (fillna s other) other = fillna s other.
Proof.
  revert other; induction s as [| a s IH]; intros [| b other]; simpl;
    try reflexivity.
  rewrite IH; f_equal.
  destruct (isna a) eqn:Ha; [| now rewrite Ha].
  now destruct (isna b).
Qed.

(** X3: [fill_missing_speed] is idempotent: run on its own result it
    returns that result unchanged. *)
Theorem fill_missing_speed_idempotent (df df' : DataFrame) :
  fill_missing_speed df = Ok df' -> fill_missing_speed df' = Ok df'.
Proof.
  intros Hf.
  destruct (fill_missing_speed_inv _ _ Hf) as (spd & tipo & Hs & Ht & ->).
  unfold fill_missing_speed, getitem, setitem; cbn [columns index crs].
  rewrite lookup_set_column_eq; cbn [bind].
  rewrite lookup_set_column_ne by discriminate.
  unfold column in Ht; rewrite Ht; cbn [bind].
  now rewrite set_column_twice, fillna_twice.
Qed.

Lemma fill_missing_speed_idempotent_witness :
  fill_missing_speed SampleRoads.filled = Ok SampleRoads.filled.
Proof.
  apply (fill_missing_speed_idempotent SampleRoads.joined).
  vm_compute; reflexivity.
Defined.

(** X4: after [fill_missing_speed], the limit of a row is missing exactly
    when it was missing before and the row has no road type: a limit that is
    still missing tells that no municipal street was matched. *)
Theorem fill_missing_speed_leftover (df df' : DataFrame) (k : nat)
  (spd tipo : value) :
  fill_missing_speed df = Ok df' ->
  cell df "spd_limit" k = Some spd -> cell df "tipo_via_ctb" k = Some tipo ->
  exists spd', cell df' "spd_limit" k = Some spd'
               /\ isna spd' = isna spd && isna tipo.
Proof.
  intros Hf Hs Ht.
  rewrite (fill_missing_speed_row _ _ _ _ _ Hf Hs Ht).
  eexists; split; [reflexivity |].
  destruct (isna spd) eqn:Hna; cbn [andb]; [| assumption].
  destruct tipo as [| t | | | |]; try reflexivity.
  now destruct (lookup t SPEED_BY_ROAD_TYPE).
Qed.

Lemma fill_missing_speed_leftover_witness :
  exists spd', cell SampleRoads.filled "spd_limit" 3 = Some spd'
               /\ isna spd' = true.
Proof.
  destruct (fill_missing_speed_leftover SampleRoads.joined SampleRoads.filled
              3 VNull VNull) as (spd' & Hc & Hna); try reflexivity.
  exists spd'; split; assumption.
Defined.

Lemma mapM_ext_in {A B : Type} (f g : A -> result B) (l : list A) :
  (forall a, In a l -> f a = g a) -> mapM f l = mapM g l.
Proof.
  induction l as [| a l IH]; simpl; intros Heq; [reflexivity |].
  rewrite Heq by now left.
  rewrite IH by (intros; apply Heq; now right); reflexivity.
Qed.

Lemma getitem_list_twice (cols : list string) (df df' : DataFrame) :
  getitem_list cols df = Ok df' -> getitem_list cols df' = Ok df'.
Proof.
  intros Hg.
  assert (Hcol : forall c, In c cols -> getitem c df' = getitem c df).
  { intros c Hin; unfold getitem.
    pose proof (getitem_list_column _ _ _ c Hg Hin) as Hc.
    unfold column in Hc; now rewrite Hc. }
  unfold getitem_list in *.
  rewrite (mapM_ext_in _ (fun c => s <- getitem c df ;; Ok (c, s)))
    by (intros c Hin; now rewrite Hcol).
  apply bind_ok in Hg as (cs & Hcs & Hg); injection Hg as <-.
  now rewrite Hcs.
Qed.

(** X5: [fix_col_order] keeps the rows and the reference system, and is
    idempotent: run on its own result it returns that result unchanged. *)
Theorem fix_col_order_idempotent (df df' : DataFrame) :
  fix_col_order df = Ok df' ->
  index df' = index df /\ crs df' = crs df /\ fix_col_order df' = Ok df'.
Proof.
  unfold fix_col_order; intros Hf.
  split; [| split; [| eapply getitem_list_twice; eauto]];
    unfold getitem_list in Hf; apply bind_ok in Hf as (cs & _ & Hf);
    now injection Hf as <-.
Qed.

Lemma fix_col_order_idempotent_witness :
  index SampleFinal.ordered = index SampleFinal.renamed
  /\ crs SampleFinal.ordered = crs SampleFinal.renamed
  /\ fix_col_order SampleFinal.ordered = Ok SampleFinal.ordered.
Proof.
  apply (fix_col_order_idempotent SampleFinal.renamed SampleFinal.ordered).
  vm_compute; reflexivity.
Defined.

(** ** Alignment through the stages *)

Lemma aligned_set_column (df : DataFrame) (c : string) (s : Series) :
  aligned df -> length s = nrows df ->
  aligned (mkDF (index df) (set_column c s (columns df)) (crs df)).
Proof.
  unfold aligned, nrows; cbn [index columns]; intros Hal Hs.
  apply Forall_forall; intros kv Hin.
  apply In_set_column in Hin as [Hin | ->]; [| exact Hs].
  rewrite Forall_forall in Hal; now apply Hal.
Qed.

Lemma aligned_filter (df : DataFrame) (p : string * Series -> bool) :
  aligned df -> aligned (mkDF (index df) (filter p (columns df)) (crs df)).
Proof.
  unfold aligned, nrows; cbn [index columns]; intros Hal.
  apply Forall_forall; intros kv Hin; apply filter_In in Hin as [Hin _].
  rewrite Forall_forall in Hal; now apply Hal.
Qed.

Lemma mapM_length {A B : Type} (f : A -> result B) (l : list A) (l' : list B) :
  mapM f l = Ok l' -> length l' = length l.
Proof.
  intros Hm; apply mapM_Forall2 in Hm; symmetry; eapply Forall2_length; eauto.
Qed.

Lemma add_series_length (x y r : Series) :
  add_series x y = Ok r -> length r = Nat.min (length x) (length y).
Proof.
  revert y r; induction x as [| a x IH]; intros [| b y] r; simpl; intros Ha;
    try (injection Ha as <-; reflexivity).
  apply bind_ok in Ha as (c & _ & Ha).
  apply bind_ok in Ha as (r' & Hr' & Ha); injection Ha as <-.
  simpl; now rewrite (IH _ _ Hr').
Qed.

Lemma points_from_xy_length (x y g : Series) :
  points_from_xy x y = Ok g -> length g = length x /\ length g = length y.
Proof.
  revert y g; induction x as [| a x IH]; intros [| b y] g; simpl; intros Hp;
    try discriminate.
  - injection Hp as <-; auto.
  - apply bind_ok in Hp as (fx & _ & Hp).
    apply bind_ok in Hp as (fy & _ & Hp).
    apply bind_ok in Hp as (r & Hr & Hp); injection Hp as <-.
    destruct (IH _ _ Hr); simpl; auto.
Qed.

Lemma getitem_list_aligned (cols : list string) (df df' : DataFrame) :
  getitem_list cols df = Ok df' ->
  index df' = index df /\ crs df' = crs df /\ (aligned df -> aligned df').
Proof.
  unfold getitem_list; intros Hg.
  apply bind_ok in Hg as (cs & Hcs & Hg); injection Hg as <-.
  split; [reflexivity |]; split; [reflexivity |].
  unfold aligned, nrows; cbn [index columns]; intros Hal.
  apply mapM_Forall2 in Hcs.
  induction Hcs as [| c kv l1 l2 Hc Hrest IH]; constructor; [| exact IH].
  apply bind_ok in Hc as (s & Hs & Hc); injection Hc as <-; cbn [snd].
  apply getitem_Ok, lookup_Some_In in Hs.
  rewrite Forall_forall in Hal; exact (Hal _ Hs).
Qed.

Lemma rename_aligned (m : list (string * string)) (df : DataFrame) :
  aligned df -> aligned (rename m df).
Proof.
  unfold aligned, nrows, rename; cbn [index columns]; intros Hal.
  apply Forall_forall; intros kv Hin.
  apply in_map_iff in Hin as (c & <- & Hin); cbn [snd].
  rewrite Forall_forall in Hal; now apply Hal.
Qed.

Lemma Forall2_float_length (raw out : Series) :
  Forall2 float_of_cell raw out -> length out = length raw.
Proof. intros HF; symmetry; eapply Forall2_length; eauto. Qed.

Lemma clean_cols_aligned (df df' : DataFrame) :
  clean_cols df = Ok df' ->
  index df' = index df /\ crs df' = crs df /\ (aligned df -> aligned df').
Proof.
  intros Hc.
  destruct (clean_cols_inv _ _ Hc)
    as (driver & long & lat & date & trip & id & time & time_acum & spd_kmh
        & valid_time & timestamp & acel_ms2 & long' & lat' & spd_kmh'
        & acel_ms2' & H1 & H2 & H3 & H4 & H5 & H6 & H7 & H8 & H9 & H10
        & H11 & H12 & F1 & F2 & F3 & F4 & ->).
  split; [reflexivity |]; split; [reflexivity |].
  intros Hal; unfold aligned, nrows; cbn [index columns].
  apply Forall2_float_length in F1, F2, F3, F4.
  pose proof (fun c s => aligned_column df c s Hal) as Hlen.
  unfold nrows in Hlen.
  apply Hlen in H1, H2, H3, H4, H5, H6, H7, H8, H9, H10, H11, H12.
  repeat (apply Forall_cons; [cbn [snd]; congruence |]).
  apply Forall_nil.
Qed.

Lemma create_datetime_aligned (df df' : DataFrame) :
  create_datetime "date" "time" df = Ok df' ->
  index df' = index df /\ crs df' = crs df /\ (aligned df -> aligned df').
Proof.
  unfold create_datetime; intros Hc.
  apply bind_ok in Hc as (dates & Hdates & Hc).
  apply bind_ok in Hc as (ds & Hds & Hc).
  apply bind_ok in Hc as (times & Htimes & Hc).
  apply bind_ok in Hc as (dt & Hdt & Hc).
  apply bind_ok in Hc as (dt0 & Hdt0 & Hc).
  apply bind_ok in Hc as (stamps & Hstamps & Hc).
  apply bind_ok in Hc as (dates0 & Hdates0 & Hc).
  apply bind_ok in Hc as (dates' & Hdates' & Hc).
  injection Hc as <-.
  split; [reflexivity |]; split; [reflexivity |]; intros Hal.
  apply getitem_Ok in Hdates, Htimes, Hdt0, Hdates0.
  unfold column in Hdt0, Hdates0; simpl in Hdt0, Hdates0.
  rewrite lookup_set_column_eq in Hdt0; injection Hdt0 as <-.
  rewrite !lookup_set_column_ne in Hdates0 by discriminate.
  unfold column in Hdates; rewrite Hdates in Hdates0; injection Hdates0 as <-.
  pose proof (aligned_column df "date" dates Hal Hdates) as Hld.
  pose proof (aligned_column df "time" times Hal Htimes) as Hlt.
  apply mapM_length in Hds, Hstamps, Hdates'.
  apply add_series_length in Hdt.
  assert (Hset : forall d c s, aligned d -> length s = nrows d ->
                               aligned (setitem c s d))
    by (intros d c s; apply aligned_set_column).
  repeat apply Hset; try assumption; unfold nrows in *; cbn [setitem index]; lia.
Qed.

Lemma create_spatial_data_aligned (df df' : DataFrame) :
  create_spatial_data df = Ok df' ->
  index df' = index df /\ (aligned df -> aligned df').
Proof.
  unfold create_spatial_data; intros Hc.
  apply bind_ok in Hc as (x & Hx & Hc).
  apply bind_ok in Hc as (y & Hy & Hc).
  apply bind_ok in Hc as (g & Hg & Hc); injection Hc as <-.
  split; [reflexivity |]; intros Hal.
  apply getitem_Ok in Hx.
  apply points_from_xy_length in Hg as [Hg _].
  pose proof (aligned_column _ _ _ Hal Hx) as Hlen.
  unfold aligned, nrows in *; cbn [index columns].
  apply Forall_forall; intros kv Hin.
  apply In_set_column in Hin as [Hin | ->]; [| cbn [snd]; congruence].
  rewrite Forall_forall in Hal; now apply Hal.
Qed.

Lemma fill_missing_speed_aligned (df df' : DataFrame) :
  fill_missing_speed df = Ok df' ->
  index df' = index df /\ crs df' = crs df /\ (aligned df -> aligned df').
Proof.
  intros Hf.
  destruct (fill_missing_speed_inv _ _ Hf) as (spd & tipo & Hs & _ & ->).
  split; [reflexivity |]; split; [reflexivity |]; intros Hal.
  apply aligned_set_column; [assumption |].
  rewrite fillna_length; now apply (aligned_column df "spd_limit").
Qed.

Lemma drop_aligned (c : string) (df df' : DataFrame) :
  drop c df = Ok df' ->
  index df' = index df /\ crs df' = crs df /\ (aligned df -> aligned df').
Proof.
  unfold drop; destruct (has_column c df); [| discriminate].
  intros Hd; injection Hd as <-.
  split; [reflexivity |]; split; [reflexivity |]; apply aligned_filter.
Qed.

Section SpatialAlignment.

Context `{GeoBackend}.

Lemma to_crs_aligned (dst : option Z) (df df' : DataFrame) :
  to_crs dst df = Ok df' ->
  index df' = index df /\ crs df' = dst /\ (aligned df -> aligned df').
Proof.
  intros Ht; apply to_crs_inv in Ht as (d & c & g & -> & Hc & Hg & ->).
  split; [reflexivity |]; split; [reflexivity |]; intros Hal.
  apply aligned_set_column; [assumption |].
  rewrite length_map; now apply (aligned_column df "geometry").
Qed.

Lemma sjoin_right_contains_aligned (left right out : DataFrame) :
  sjoin_right_contains left right = Ok out -> aligned out.
Proof.
  unfold sjoin_right_contains.
  destruct (existsb reserved (names left) || existsb reserved (names right));
    [discriminate |].
  intros Hj; apply bind_ok in Hj as (lg & _ & Hj).
  apply bind_ok in Hj as (rg & _ & Hj); injection Hj as <-.
  unfold aligned, nrows, take_labels, labels_opt; cbn [index columns].
  rewrite length_map.
  apply Forall_cons; [cbn [snd]; now rewrite !length_map |].
  apply Forall_app; split; apply Forall_forall; intros kv Hin;
    apply in_map_iff in Hin as (c & <- & _); cbn [snd];
    now rewrite ?length_take, ?length_take_opt, !length_map.
Qed.

Lemma sjoin_nearest_left_aligned (left right out : DataFrame) (d : Q) :
  sjoin_nearest_left left right d = Ok out -> aligned out.
Proof.
  unfold sjoin_nearest_left.
  destruct (existsb reserved (names left) || existsb reserved (names right));
    [discriminate |].
  intros Hj; apply bind_ok in Hj as (lg & _ & Hj).
  apply bind_ok in Hj as (rg & _ & Hj); injection Hj as <-.
  unfold aligned, nrows, take_labels, labels_opt; cbn [index columns].
  rewrite length_map.
  apply Forall_app; split;
    [| apply Forall_cons; [cbn [snd]; now rewrite !length_map |]];
    apply Forall_forall; intros kv Hin;
    apply in_map_iff in Hin as (c & <- & _); cbn [snd];
    now rewrite ?length_take, ?length_take_opt, !length_map.
Qed.

Lemma join_bairros_data_aligned (ndsbr_data bairros_data out : DataFrame) :
  join_bairros_data ndsbr_data bairros_data = Ok out ->
  aligned out /\ crs out = crs ndsbr_data.
Proof.
  unfold join_bairros_data; intros Hj.
  apply bind_ok in Hj as (b & _ & Hj).
  apply bind_ok in Hj as (gdf & Hgdf & Hj).
  apply drop_aligned in Hj as (_ & Hcrs & Hal).
  split; [now apply Hal, (sjoin_right_contains_aligned b ndsbr_data) |].
  rewrite Hcrs; unfold sjoin_right_contains in Hgdf.
  destruct (existsb reserved (names b) || existsb reserved (names ndsbr_data));
    [discriminate |].
  apply bind_ok in Hgdf as (lg & _ & Hgdf).
  apply bind_ok in Hgdf as (rg & _ & Hgdf); now injection Hgdf as <-.
Qed.

Lemma join_vias_data_aligned (ndsbr_data vias_data out : DataFrame) :
  join_vias_data ndsbr_data vias_data = Ok out ->
  aligned out /\ crs out = Some 4674.
Proof.
  unfold join_vias_data; intros Hj.
  apply bind_ok in Hj as (n & _ & Hj).
  apply bind_ok in Hj as (v & _ & Hj).
  apply bind_ok in Hj as (gdf & Hgdf & Hj).
  apply bind_ok in Hj as (gdf' & Hgdf' & Hj).
  apply drop_aligned in Hj as (_ & Hcrs & Hal).
  apply to_crs_aligned in Hgdf' as (_ & Hcrs' & Hal').
  split; [| congruence].
  now apply Hal, Hal', (sjoin_nearest_left_aligned n v gdf 20).
Qed.

End SpatialAlignment.

Lemma loaders_aligned (file out : DataFrame) :
  load_bairros file = Ok out \/ load_vias_cwb file = Ok out
  \/ import_osm file = Ok out ->
  index out = index file /\ crs out = crs file /\ (aligned file -> aligned out).
Proof.
  unfold load_bairros, load_vias_cwb, import_osm.
  intros [Hl | [Hl | Hl]]; apply bind_ok in Hl as (sel & Hsel & Hl);
    injection Hl as <-;
    apply getitem_list_aligned in Hsel as (Hi & Hc & Hal);
    (split; [exact Hi |]; split; [exact Hc |]);
    intros Ha; apply rename_aligned; auto.
Qed.

(** X6: every stage keeps the table aligned (each column with one cell per
    row).  The cleaning stages, [fill_missing_speed], [fix_col_order] and the
    loaders also keep the row labels as they are; the joins return an aligned
    table whatever they are given. *)
Theorem stages_keep_alignment `{GeoBackend} :
  (forall df df', clean_cols df = Ok df' ->
     index df' = index df /\ (aligned df -> aligned df'))
  /\ (forall df df', create_datetime "date" "time" df = Ok df' ->
      index df' = index df /\ (aligned df -> aligned df'))
  /\ (forall df df', create_spatial_data df = Ok df' ->
      index df' = index df /\ (aligned df -> aligned df'))
  /\ (forall nds bairros out, join_bairros_data nds bairros = Ok out -> aligned out)
  /\ (forall nds vias out, join_vias_data nds vias = Ok out -> aligned out)
  /\ (forall df df', fill_missing_speed df = Ok df' ->
      index df' = index df /\ (aligned df -> aligned df'))
  /\ (forall df df', fix_col_order df = Ok df' ->
      index df' = index df /\ (aligned df -> aligned df'))
  /\ (forall file out,
      load_bairros file = Ok out \/ load_vias_cwb file = Ok out
      \/ import_osm file = Ok out ->
      index out = index file /\ (aligned file -> aligned out)).
Proof.
  repeat match goal with |- _ /\ _ => split end.
  - intros df df' Hc; apply clean_cols_aligned in Hc; tauto.
  - intros df df' Hc; apply create_datetime_aligned in Hc; tauto.
  - intros df df' Hc; apply create_spatial_data_aligned in Hc; tauto.
  - intros nds bairros out Hj; now apply join_bairros_data_aligned in Hj.
  - intros nds vias out Hj; now apply join_vias_data_aligned in Hj.
  - intros df df' Hc; apply fill_missing_speed_aligned in Hc; tauto.
  - intros df df' Hc; apply getitem_list_aligned in Hc; tauto.
  - intros file out Hl; apply loaders_aligned in Hl; tauto.
Qed.

Lemma stages_keep_alignment_witness :
  aligned Sample.cleaned /\ aligned SampleJoin.with_vias.
Proof.
  destruct (@stages_keep_alignment Planar.backend)
    as (Hclean & _ & _ & _ & Hvias & _).
  split.
  - apply (Hclean Sample.raw); [vm_compute; reflexivity |].
    repeat (apply Forall_cons; [reflexivity |]); apply Forall_nil.
  - apply (Hvias SampleJoin.with_bairros SampleJoin.vias).
    vm_compute; reflexivity.
Defined.

(** ** [create_spatial_data] *)

Lemma points_from_xy_nth (x y g : Series) (k : nat) (a b : value) :
  points_from_xy x y = Ok g ->
  nth_error x k = Some a -> nth_error y k = Some b ->
  exists fx fy, as_float a = Ok fx /\ as_float b = Ok fy
                /\ nth_error g k = Some (VGeom (Point fx fy)).
Proof.
  revert y g k; induction x as [| a0 x IH]; intros [| b0 y] g k Hp Ha Hb;
    try (destruct k; discriminate).
  simpl in Hp.
  apply bind_ok in Hp as (fx & Hfx & Hp).
  apply bind_ok in Hp as (fy & Hfy & Hp).
  apply bind_ok in Hp as (r & Hr & Hp); injection Hp as <-.
  destruct k as [| k]; simpl in *.
  - injection Ha as <-; injection Hb as <-; eauto.
  - eapply IH; eauto.
Qed.

Lemma points_from_floats (x y : Series) :
  forallb is_float x = true -> forallb is_float y = true ->
  length x = length y -> exists g, points_from_xy x y = Ok g.
Proof.
  revert y; induction x as [| a x IH]; intros [| b y] Hx Hy Hlen;
    try discriminate; simpl; [eauto |].
  simpl in Hx, Hy.
  apply andb_true_iff in Hx as [Ha Hx]; apply andb_true_iff in Hy as [Hb Hy].
  destruct a; try discriminate; destruct b; try discriminate; simpl.
  destruct (IH y Hx Hy) as (g & ->); [simpl in Hlen; lia |].
  simpl; eauto.
Qed.

(** X7: [create_spatial_data] raises [KeyError] without a [long] or a
    [lat] column.  On float columns of equal length, as [clean_cols] leaves
    them, it returns: the table is then in EPSG 4674 whatever it was before,
    has the same rows and every column other than [geometry] as it was, and
    one point per row built from that row's [long] and [lat]; a coordinate
    that is NaN gives a point with NaN, not a dropped row. *)
Theorem create_spatial_data_points (df : DataFrame) :
  (~ In "long" (names df) -> create_spatial_data df = Raise (KeyError "long"))
  /\ (In "long" (names df) -> ~ In "lat" (names df) ->
      create_spatial_data df = Raise (KeyError "lat"))
  /\ forall xs ys,
       column "long" df = Some xs -> column "lat" df = Some ys ->
       forallb is_float xs = true -> forallb is_float ys = true ->
       length xs = length ys ->
       exists df' g,
         create_spatial_data df = Ok df'
         /\ crs df' = Some 4674 /\ index df' = index df
         /\ (forall c, c <> "geometry" -> column c df' = column c df)
         /\ column "geometry" df' = Some g /\ length g = length xs
         /\ forall k fx fy,
              nth_error xs k = Some (VFloat fx) ->
              nth_error ys k = Some (VFloat fy) ->
              nth_error g k = Some (VGeom (Point fx fy)).
Proof.
  split; [| split].
  - intros Hn; unfold create_spatial_data.
    now rewrite (getitem_missing _ _ Hn).
  - intros Hin Hn; unfold create_spatial_data.
    destruct (column_In_names _ _ Hin) as (xs & Hxs).
    apply getitem_Ok in Hxs; rewrite Hxs; cbn [bind].
    now rewrite (getitem_missing _ _ Hn).
  - intros xs ys Hxs Hys Fx Fy Hlen.
    destruct (points_from_floats xs ys Fx Fy Hlen) as (g & Hg).
    unfold create_spatial_data.
    apply getitem_Ok in Hxs, Hys; rewrite Hxs, Hys; cbn [bind].
    rewrite Hg; cbn [bind].
    eexists; exists g; split; [reflexivity |].
    split; [reflexivity |]; split; [reflexivity |]; split.
    + intros c Hne; unfold column; cbn [columns].
      now apply lookup_set_column_ne.
    + split; [unfold column; cbn [columns]; apply lookup_set_column_eq |].
      split; [now apply points_from_xy_length in Hg |].
      intros k fx fy Hx Hy.
      destruct (points_from_xy_nth _ _ _ _ _ _ Hg Hx Hy)
        as (fx' & fy' & Hfx & Hfy & Hk).
      cbn [as_float] in Hfx, Hfy; congruence.
Qed.

Lemma create_spatial_data_points_witness :
  create_spatial_data (mkDF [0] [("long", [VFloat (FNum 1)])] None)
  = Raise (KeyError "lat").
Proof.
  apply (proj1 (proj2 (create_spatial_data_points _))).
  - simpl; tauto.
  - simpl; intros [Heq | []]; discriminate.
Defined.

Lemma float_of_cell_floats (raw out : Series) :
  Forall2 float_of_cell raw out -> forallb is_float out = true.
Proof.
  induction 1 as [| v v' raw out Hv _ IH]; simpl; [reflexivity |].
  rewrite IH, andb_true_r.
  destruct Hv as [[_ ->] | (t & f & _ & _ & ->)]; reflexivity.
Qed.

(** X8: the cleaner's output can always be made spatial: on an aligned raw
    table, once [clean_cols] and [create_datetime] have returned,
    [create_spatial_data] returns too. *)
Theorem cleaned_table_becomes_spatial (raw c1 c2 : DataFrame) :
  aligned raw ->
  clean_cols raw = Ok c1 -> create_datetime "date" "time" c1 = Ok c2 ->
  exists sp, create_spatial_data c2 = Ok sp.
Proof.
  intros Hal Hc1 Hc2.
  destruct (clean_cols_inv _ _ Hc1)
    as (driver & long & lat & date & trip & id & time & time_acum & spd_kmh
        & valid_time & timestamp & acel_ms2 & long' & lat' & spd_kmh'
        & acel_ms2' & H1 & H2 & H3 & H4 & H5 & H6 & H7 & H8 & H9 & H10
        & H11 & H12 & F1 & F2 & F3 & F4 & ->).
  destruct (create_datetime_inv _ _ Hc2)
    as (dates & times & stamps & dates' & _ & _ & _ & _ & ->).
  unfold create_spatial_data, getitem, setitem; cbn [columns].
  rewrite !lookup_set_column_ne by discriminate.
  simpl lookup; cbn [bind].
  destruct (points_from_floats long' lat') as (g & ->).
  - eapply float_of_cell_floats; eauto.
  - eapply float_of_cell_floats; eauto.
  - rewrite (Forall2_float_length _ _ F1), (Forall2_float_length _ _ F2).
    rewrite (aligned_column _ _ _ Hal H2), (aligned_column _ _ _ Hal H3).
    reflexivity.
  - cbn [bind]; eauto.
Qed.

Lemma cleaned_table_becomes_spatial_witness :
  exists sp, create_spatial_data
               (Sample.or_else (create_datetime "date" "time" Sample.cleaned)
                               Sample.cleaned)
             = Ok sp.
Proof.
  apply (cleaned_table_becomes_spatial Sample.raw Sample.cleaned).
  - repeat (apply Forall_cons; [reflexivity |]); apply Forall_nil.
  - vm_compute; reflexivity.
  - vm_compute; reflexivity.
Defined.

(** ** The loaders *)

Lemma select_rename_columns (cols : list string) (m : list (string * string))
  (file out : DataFrame) :
  (sel <- getitem_list cols file ;; Ok (rename m sel)) = Ok out ->
  (forall c, In c cols -> In c (names file))
  /\ names out = map (rename_label m) cols
  /\ index out = index file /\ crs out = crs file
  /\ Forall2 (fun c kv => fst kv = rename_label m c
                          /\ column c file = Some (snd kv))
             cols (columns out).
Proof.
  intros Hl; apply bind_ok in Hl as (sel & Hsel & Hl); injection Hl as <-.
  split.
  - intros c Hin.
    destruct (in_dec string_dec c (names file)) as [| Hn]; [assumption |].
    destruct (getitem_list_missing cols file) as (c' & _ & _ & Hr); [eauto |].
    congruence.
  - rewrite names_rename, (getitem_list_names _ _ _ Hsel).
    split; [reflexivity |].
    unfold getitem_list in Hsel.
    apply bind_ok in Hsel as (cs & Hcs & Hsel); injection Hsel as <-.
    split; [reflexivity |]; split; [reflexivity |].
    unfold rename; cbn [columns].
    apply mapM_Forall2 in Hcs.
    induction Hcs as [| c kv l1 l2 Hc Hrest IH]; simpl; constructor; auto.
    apply bind_ok in Hc as (s & Hs & Hc); injection Hc as <-; cbn [fst snd].
    apply getitem_Ok in Hs; auto.
Qed.

(** X9: each loader raises [KeyError] when the file read lacks one of the
    fields it selects, and otherwise returns exactly the selected columns
    under their new labels ([bairro]; [nome_via], [tipo_via_cwb],
    [tipo_via_ctb]; [spd_limit]; each with [geometry]), with the file's cells,
    rows and reference system; every other field of the file is gone. *)
Theorem loaders_select_and_rename (file : DataFrame) :
  (forall cols load,
     In (cols, load)
        [ ([ "NOME"; "geometry" ], load_bairros);
          ([ "NMVIA"; "SVIARIO"; "HIERARQUIA"; "geometry" ], load_vias_cwb);
          ([ "maxspeed"; "geometry" ], import_osm) ] ->
     (exists c, In c cols /\ ~ In c (names file)) ->
     exists c, In c cols /\ load file = Raise (KeyError c))
  /\ (forall out, load_bairros file = Ok out ->
      names out = [ "bairro"; "geometry" ]
      /\ index out = index file /\ crs out = crs file
      /\ column "bairro" out = column "NOME" file
      /\ column "geometry" out = column "geometry" file)
  /\ (forall out, load_vias_cwb file = Ok out ->
      names out = [ "nome_via"; "tipo_via_cwb"; "tipo_via_ctb"; "geometry" ]
      /\ index out = index file /\ crs out = crs file
      /\ column "nome_via" out = column "NMVIA" file
      /\ column "tipo_via_cwb" out = column "SVIARIO" file
      /\ column "tipo_via_ctb" out = column "HIERARQUIA" file
      /\ column "geometry" out = column "geometry" file)
  /\ (forall out, import_osm file = Ok out ->
      names out = [ "spd_limit"; "geometry" ]
      /\ index out = index file /\ crs out = crs file
      /\ column "spd_limit" out = column "maxspeed" file
      /\ column "geometry" out = column "geometry" file).
Proof.
  split; [| split; [| split]].
  - intros cols load Hin Hmiss.
    destruct (getitem_list_missing cols file Hmiss) as (c & Hc & _ & Hr).
    exists c; split; [assumption |].
    simpl in Hin; destruct Hin as [Heq | [Heq | [Heq | []]]];
      injection Heq as <- <-;
      unfold load_bairros, load_vias_cwb, import_osm; now rewrite Hr.
  - intros out Hl; unfold load_bairros in Hl.
    apply select_rename_columns in Hl as (_ & Hn & Hi & Hc & Hcols).
    split; [exact Hn |]; split; [exact Hi |]; split; [exact Hc |].
    inversion Hcols as [| ? [k1 s1] ? ? [Hk1 Hs1] Hcols1 Heq1 Heq2]; subst.
    inversion Hcols1 as [| ? [k2 s2] ? ? [Hk2 Hs2] Hcols2 Heq1 Heq3]; subst.
    inversion Hcols2; subst.
    unfold column at 1 3; rewrite <- Heq2; cbn [fst snd] in *; subst.
    simpl; auto.
  - intros out Hl; unfold load_vias_cwb in Hl.
    apply select_rename_columns in Hl as (_ & Hn & Hi & Hc & Hcols).
    split; [exact Hn |]; split; [exact Hi |]; split; [exact Hc |].
    inversion Hcols as [| ? [k1 s1] ? ? [Hk1 Hs1] Hcols1 Heq1 Heq2]; subst.
    inversion Hcols1 as [| ? [k2 s2] ? ? [Hk2 Hs2] Hcols2 Heq1 Heq3]; subst.
    inversion Hcols2 as [| ? [k3 s3] ? ? [Hk3 Hs3] Hcols3 Heq1 Heq4]; subst.
    inversion Hcols3 as [| ? [k4 s4] ? ? [Hk4 Hs4] Hcols4 Heq1 Heq5]; subst.
    inversion Hcols4; subst.
    unfold column at 1 3 5 7; rewrite <- Heq2; cbn [fst snd] in *; subst.
    simpl; auto.
  - intros out Hl; unfold import_osm in Hl.
    apply select_rename_columns in Hl as (_ & Hn & Hi & Hc & Hcols).
    split; [exact Hn |]; split; [exact Hi |]; split; [exact Hc |].
    inversion Hcols as [| ? [k1 s1] ? ? [Hk1 Hs1] Hcols1 Heq1 Heq2]; subst.
    inversion Hcols1 as [| ? [k2 s2] ? ? [Hk2 Hs2] Hcols2 Heq1 Heq3]; subst.
    inversion Hcols2; subst.
    unfold column at 1 3; rewrite <- Heq2; cbn [fst snd] in *; subst.
    simpl; auto.
Qed.

Lemma loaders_select_and_rename_witness :
  (exists c, In c [ "maxspeed"; "geometry" ]
             /\ import_osm SampleJoin.vias_file = Raise (KeyError c))
  /\ column "tipo_via_ctb" SampleJoin.vias = column "HIERARQUIA" SampleJoin.vias_file.
Proof.
  destruct (loaders_select_and_rename SampleJoin.vias_file)
    as (Hmiss & _ & Hvias & _).
  split.
  - apply (Hmiss [ "maxspeed"; "geometry" ] import_osm); [simpl; tauto |].
    exists "maxspeed"; split; [simpl; tauto |].
    simpl; intros Hin; repeat destruct Hin as [Hin | Hin]; try discriminate;
      exact Hin.
  - destruct (Hvias SampleJoin.vias) as (_ & _ & _ & _ & _ & Hctb & _);
      [vm_compute; reflexivity | exact Hctb].
Defined.

(** ** Rows through the joins *)

Lemma rows_of_trans (cols : list string) (a b c : DataFrame) :
  rows_of cols b a -> rows_of cols c b -> rows_of cols c a.
Proof.
  intros [Hba Hab] [Hcb Hbc]; split.
  - intros k Hk.
    destruct (Hcb k Hk) as (j & Hj & Hcj).
    destruct (Hba j Hj) as (i & Hi & Hci).
    exists i; split; [assumption |].
    intros x Hx; now rewrite Hcj, Hci.
  - intros i Hi.
    destruct (Hab i Hi) as (j & Hj & Hcj).
    destruct (Hbc j Hj) as (k & Hk & Hck).
    exists k; split; [assumption |].
    intros x Hx; now rewrite Hck, Hcj.
Qed.

Lemma rows_of_incl (cols cols' : list string) (out inp : DataFrame) :
  (forall c, In c cols' -> In c cols) ->
  rows_of cols out inp -> rows_of cols' out inp.
Proof.
  intros Hincl [Hout Hinp]; split.
  - intros k Hk; destruct (Hout k Hk) as (i & Hi & Hc); eauto.
  - intros i Hi; destruct (Hinp i Hi) as (k & Hk & Hc); eauto.
Qed.

Lemma fill_missing_speed_rows (cols : list string) (df df' : DataFrame) :
  ~ In "spd_limit" cols -> fill_missing_speed df = Ok df' ->
  rows_of cols df' df.
Proof.
  intros Hn Hf.
  destruct (fill_missing_speed_inv _ _ Hf) as (spd & tipo & _ & _ & ->).
  assert (Hcell : forall k c, In c cols ->
            cell (setitem "spd_limit"
                    (fillna spd (replace SPEED_BY_ROAD_TYPE tipo)) df) c k
            = cell df c k).
  { intros k c Hc; unfold cell, column, setitem; cbn [columns].
    rewrite lookup_set_column_ne; [reflexivity |].
    intros ->; contradiction. }
  split; intros k Hk; exists k; (split; [exact Hk | intros c Hc; now apply Hcell]).
Qed.

Section Counting.

Context `{GeoBackend}.

Lemma left_pairs_length_exact (dmax : Q) (pts lines : Series) (i0 : nat) :
  (forall p, In p pts -> (length (nearest dmax lines p) <= 1)%nat) ->
  length (left_pairs dmax pts lines i0) = length pts.
Proof.
  revert i0; induction pts as [| p pts IH]; intros i0 Hone; simpl; [reflexivity |].
  rewrite length_app, IH by (intros; apply Hone; now right).
  specialize (Hone p (or_introl eq_refl)).
  destruct (nearest dmax lines p) as [| i [| i' hits]]; simpl in *; lia.
Qed.

Lemma left_pairs_length_more (dmax : Q) (pts lines : Series) (i0 : nat) (p : value) :
  In p pts -> (1 < length (nearest dmax lines p))%nat ->
  (length pts < length (left_pairs dmax pts lines i0))%nat.
Proof.
  revert i0; induction pts as [| q pts IH]; intros i0 Hin Hmany; [destruct Hin |].
  simpl; rewrite length_app.
  destruct Hin as [-> | Hin].
  - pose proof (left_pairs_length dmax pts lines (S i0)).
    destruct (nearest dmax lines p) as [| i [| i' hits]]; simpl in *;
      rewrite ?length_map; lia.
  - specialize (IH (S i0) Hin Hmany).
    destruct (nearest dmax lines q); simpl; [lia |].
    rewrite length_map; lia.
Qed.

Lemma join_bairros_data_rows (ndsbr_data bairros_data out : DataFrame) :
  aligned ndsbr_data ->
  disjoint_labels (names bairros_data) (names ndsbr_data) ->
  join_bairros_data ndsbr_data bairros_data = Ok out ->
  rows_of (names ndsbr_data) out ndsbr_data.
Proof.
  intros Hwf Hdis Hj.
  destruct (join_bairros_data_inv _ _ _ Hdis Hj)
    as (b' & polys & pts & Hnames & Hcols & Hgeo & Hpts & Hrl & Hrr & ->).
  pose proof (aligned_column _ _ _ Hwf Hpts) as Hlen.
  set (pairs := right_pairs polys pts 0) in *.
  set (out := mkDF (take_labels (map snd pairs) (index ndsbr_data))
                (map (fun c => (fst c, take_opt (map fst pairs) (snd c)))
                     (without_geometry (columns b'))
                 ++ map (fun c => (fst c, take (map snd pairs) (snd c)))
                        (columns ndsbr_data))
                (crs ndsbr_data)).
  assert (Hrows : nrows out = length pairs).
  { unfold nrows, out, take_labels; cbn [index]; now rewrite !length_map. }
  assert (Hcell : forall k o j c, nth_error pairs k = Some (o, j) ->
            (j < nrows ndsbr_data)%nat -> In c (names ndsbr_data) ->
            cell out c k = cell ndsbr_data c j).
  { intros k o j c Hk Hlt Hc.
    destruct (column_In_names _ _ Hc) as (s & Hs).
    unfold cell at 1, column, out; cbn [columns].
    rewrite lookup_app.
    replace (lookup c (map (fun c => (fst c, take_opt (map fst pairs) (snd c)))
                           (without_geometry (columns b')))) with (@None Series).
    - rewrite (lookup_map_snd (take (map snd pairs))).
      fold (column c ndsbr_data); rewrite Hs; cbn [option_map].
      rewrite nth_error_take, nth_error_map, Hk; cbn [option_map snd].
      unfold cell; rewrite Hs; symmetry; apply nth_nth_error.
      now rewrite (aligned_column _ _ _ Hwf Hs).
    - symmetry; apply lookup_None; rewrite map_map; cbn [fst].
      intros Hin'; apply In_without_geometry in Hin' as [Hin' Hne].
      fold (names b') in Hin'; rewrite Hnames in Hin'.
      now apply (Hdis c). }
  split.
  - intros k Hk; rewrite Hrows in Hk.
    destruct (nth_error pairs k) as [[o j] |] eqn:Hp;
      [| apply nth_error_None in Hp; lia].
    assert (Hj' : (j < nrows ndsbr_data)%nat).
    { pose proof (nth_error_In _ _ Hp) as Hin.
      apply right_pairs_spec in Hin as (_ & p & Hin & _).
      rewrite Nat.sub_0_r in Hin.
      rewrite <- Hlen; apply nth_error_Some; congruence. }
    exists j; split; [exact Hj' |].
    intros c Hc; eapply Hcell; eauto.
  - intros i Hi.
    assert (Hp : nth_error pts i = Some (nth i pts VNull))
      by (apply nth_nth_error; lia).
    set (o := match containing polys (nth i pts VNull) with
              | [] => None
              | i0 :: _ => Some i0
              end).
    assert (Hin : In (o, i) pairs).
    { apply right_pairs_spec; split; [lia |].
      exists (nth i pts VNull); rewrite Nat.sub_0_r; split; [assumption |].
      unfold o; destruct (containing polys (nth i pts VNull));
        [reflexivity | now left]. }
    apply In_nth_error in Hin as (k & Hk); exists k; split.
    + rewrite Hrows; apply nth_error_Some; congruence.
    + intros c Hc; eapply Hcell; eauto.
Qed.

Lemma join_vias_data_rows_of (ndsbr_data vias_data out : DataFrame) :
  aligned ndsbr_data -> aligned vias_data ->
  disjoint_labels (names vias_data) (names ndsbr_data) ->
  join_vias_data ndsbr_data vias_data = Ok out ->
  exists pts lines,
    metric_geometry ndsbr_data = Some pts
    /\ metric_geometry vias_data = Some lines
    /\ length pts = nrows ndsbr_data
    /\ nrows out = length (left_pairs 20 pts lines 0)
    /\ rows_of (filter not_geometry (names ndsbr_data)) out ndsbr_data.
Proof.
  intros Haln Halv Hdis Hj.
  destruct (join_vias_data_rows _ _ _ Haln Halv Hdis Hj)
    as (pts & lines & Hpts & Hlines & _ & _ & Hrows & _ & Hcells).
  exists pts, lines.
  pose proof (metric_geometry_length _ _ Haln Hpts) as Hlen.
  repeat (split; [assumption |]).
  split.
  - intros k Hk; rewrite Hrows in Hk.
    destruct (nth_error (left_pairs 20 pts lines 0) k) as [[i o] |] eqn:Hp;
      [| apply nth_error_None in Hp; lia].
    destruct (Hcells _ _ _ Hp) as (Hi & Hc & _).
    exists i; split; [exact Hi |].
    intros c Hin; apply filter_In in Hin as [Hin Hne]; apply Hc; [exact Hin |].
    unfold not_geometry in Hne; intros ->; discriminate.
  - intros i Hi.
    assert (Hp : nth_error pts i = Some (nth i pts VNull))
      by (apply nth_nth_error; lia).
    set (o := match nearest 20 lines (nth i pts VNull) with
              | [] => None
              | j :: _ => Some j
              end).
    assert (Hin : In (i, o) (left_pairs 20 pts lines 0)).
    { apply left_pairs_spec; split; [lia |].
      exists (nth i pts VNull); rewrite Nat.sub_0_r; split; [assumption |].
      unfold o; destruct (nearest 20 lines (nth i pts VNull));
        [reflexivity | now left]. }
    apply In_nth_error in Hin as (k & Hk); exists k; split.
    + rewrite Hrows; apply nth_error_Some; congruence.
    + destruct (Hcells _ _ _ Hk) as (_ & Hc & _).
      intros c Hin; apply filter_In in Hin as [Hin Hne]; apply Hc; [exact Hin |].
      unfold not_geometry in Hne; intros ->; discriminate.
Qed.

(** X10: the street join loses no fix and invents none.  On aligned
    tables whose labels do not clash, whenever [join_vias_data] returns,
    every row of the result carries the cells of one input row and every
    input row is in the result.  The result has exactly as many rows as the
    input when no point has two nearest streets within 20 m, and more rows as
    soon as one point is at the same least distance from two streets. *)
Theorem join_vias_data_row_count (ndsbr_data vias_data out : DataFrame) :
  aligned ndsbr_data -> aligned vias_data ->
  disjoint_labels (names vias_data) (names ndsbr_data) ->
  join_vias_data ndsbr_data vias_data = Ok out ->
  exists pts lines,
    metric_geometry ndsbr_data = Some pts
    /\ metric_geometry vias_data = Some lines
    /\ rows_of (filter not_geometry (names ndsbr_data)) out ndsbr_data
    /\ (nrows ndsbr_data <= nrows out)%nat
    /\ ((forall p, In p pts -> (length (nearest 20 lines p) <= 1)%nat) ->
        nrows out = nrows ndsbr_data)
    /\ (forall p, In p pts -> (1 < length (nearest 20 lines p))%nat ->
        (nrows ndsbr_data < nrows out)%nat).
Proof.
  intros Haln Halv Hdis Hj.
  destruct (join_vias_data_rows_of _ _ _ Haln Halv Hdis Hj)
    as (pts & lines & Hpts & Hlines & Hlen & Hrows & Hof).
  exists pts, lines; repeat (split; [assumption |]).
  rewrite Hrows, <- Hlen; split; [apply left_pairs_length |]; split.
  - apply left_pairs_length_exact.
  - intros p Hin Hmany; now apply left_pairs_length_more with (p := p).
Qed.

End Counting.

Lemma join_vias_data_row_count_witness :
  nrows SampleJoin.with_vias = nrows SampleJoin.with_bairros
  /\ (nrows SampleJoin.with_bairros < nrows SampleTie.with_pair)%nat.
Proof.
  split.
  - destruct (@join_vias_data_row_count Planar.backend
                SampleJoin.with_bairros SampleJoin.vias SampleJoin.with_vias)
      as (pts & lines & Hpts & Hlines & _ & _ & Hsame & _).
    + cells_aligned.
    + cells_aligned.
    + labels_apart.
    + vm_compute; reflexivity.
    + apply Hsame.
      vm_compute in Hpts; injection Hpts as <-.
      vm_compute in Hlines; injection Hlines as <-.
      intros p [<- | [<- | [<- | []]]]; vm_compute; repeat constructor.
  - destruct (@join_vias_data_row_count Planar.backend
                SampleJoin.with_bairros SampleTie.vias_pair SampleTie.with_pair)
      as (pts & lines & Hpts & Hlines & _ & _ & _ & Hmore).
    + cells_aligned.
    + cells_aligned.
    + labels_apart.
    + vm_compute; reflexivity.
    + vm_compute in Hpts; injection Hpts as <-.
      vm_compute in Hlines; injection Hlines as <-.
      eapply Hmore; [left; reflexivity |].
      vm_compute; repeat constructor.
Defined.

(** ** The pipeline of [main] *)

Section Pipeline.

Context `{GeoBackend}.

Variables bairros_file vias_file osm_file nds_data : DataFrame.
Variables bairros vias osm_vias c1 c2 sp j1 j2 j3 : DataFrame.

Hypothesis Hbairros : load_bairros bairros_file = Ok bairros.
Hypothesis Hvias : load_vias_cwb vias_file = Ok vias.
Hypothesis Hosm : import_osm osm_file = Ok osm_vias.
Hypothesis Hc1 : clean_cols nds_data = Ok c1.
Hypothesis Hc2 : create_datetime "date" "time" c1 = Ok c2.
Hypothesis Hsp : create_spatial_data c2 = Ok sp.
Hypothesis Hj1 : join_bairros_data sp bairros = Ok j1.
Hypothesis Hj2 : join_vias_data j1 vias = Ok j2.
Hypothesis Hj3 : join_vias_data j2 osm_vias = Ok j3.

Lemma pipeline_names :
  names bairros = [ "bairro"; "geometry" ]
  /\ names vias = [ "nome_via"; "tipo_via_cwb"; "tipo_via_ctb"; "geometry" ]
  /\ names osm_vias = [ "spd_limit"; "geometry" ]
  /\ names sp = CLEAN_COLS ++ [ "datetime"; "geometry" ]
  /\ names j1 = "bairro" :: names sp
  /\ names j2 = names j1 ++ [ "nome_via"; "tipo_via_cwb"; "tipo_via_ctb" ]
  /\ names j3 = names j2 ++ [ "spd_limit" ].
Proof.
  assert (Hnb : names bairros = [ "bairro"; "geometry" ]).
  { pose proof Hbairros as Hb; unfold load_bairros in Hb.
    apply bind_ok in Hb as (b0 & Hb0 & Hb); apply getitem_list_names in Hb0.
    injection Hb as <-; rewrite names_rename, Hb0; reflexivity. }
  assert (Hnv : names vias
                = [ "nome_via"; "tipo_via_cwb"; "tipo_via_ctb"; "geometry" ]).
  { pose proof Hvias as Hv; unfold load_vias_cwb in Hv.
    apply bind_ok in Hv as (v0 & Hv0 & Hv); apply getitem_list_names in Hv0.
    injection Hv as <-; rewrite names_rename, Hv0; reflexivity. }
  assert (Hno : names osm_vias = [ "spd_limit"; "geometry" ]).
  { pose proof Hosm as Ho; unfold import_osm in Ho.
    apply bind_ok in Ho as (o0 & Ho0 & Ho); apply getitem_list_names in Ho0.
    injection Ho as <-; rewrite names_rename, Ho0; reflexivity. }
  assert (Hnsp : names sp = CLEAN_COLS ++ [ "datetime"; "geometry" ]).
  { destruct (names_create_spatial_data _ _ Hsp) as (-> & _).
    rewrite names_setitem.
    destruct (create_datetime_inv _ _ Hc2) as (? & ? & ? & ? & _ & _ & _ & _ & ->).
    rewrite !names_setitem, (clean_cols_names _ _ Hc1); reflexivity. }
  assert (Hnj1 : names j1 = "bairro" :: names sp).
  { rewrite (names_join_bairros_data _ _ _ Hj1), Hnb, Hnsp; reflexivity. }
  assert (Hnj2 : names j2
                 = names j1 ++ [ "nome_via"; "tipo_via_cwb"; "tipo_via_ctb" ]).
  { rewrite (names_join_vias_data _ _ _ Hj2), Hnv, Hnj1, Hnsp; reflexivity. }
  assert (Hnj3 : names j3 = names j2 ++ [ "spd_limit" ]).
  { rewrite (names_join_vias_data _ _ _ Hj3), Hno, Hnj2, Hnj1, Hnsp; reflexivity. }
  auto 10.
Qed.

Lemma pipeline_disjoint :
  disjoint_labels (names bairros) (names sp)
  /\ disjoint_labels (names vias) (names j1)
  /\ disjoint_labels (names osm_vias) (names j2).
Proof.
  destruct pipeline_names as (Hnb & Hnv & Hno & Hnsp & Hnj1 & Hnj2 & _).
  rewrite Hnj2, Hnj1, Hnsp, Hnb, Hnv, Hno; unfold CLEAN_COLS.
  split; [| split]; labels_apart.
Qed.

End Pipeline.

Section PipelineRows.

Context `{GeoBackend}.

(** X11: in [main] no join ever renames a column.  Whatever the four
    tables read from disk, at each of the three joins the attribute labels of
    the table joined in are not labels of the points, so no [_left] or
    [_right] suffix is added: the neighbourhood join puts [bairro] in front
    of the points' labels, the street join appends the three street labels,
    the OSM join appends [spd_limit]. *)
Theorem main_joins_rename_nothing
  (bairros_file vias_file osm_file nds_data : DataFrame)
  (bairros vias osm_vias c1 c2 sp j1 j2 j3 : DataFrame) :
  load_bairros bairros_file = Ok bairros ->
  load_vias_cwb vias_file = Ok vias ->
  import_osm osm_file = Ok osm_vias ->
  clean_cols nds_data = Ok c1 ->
  create_datetime "date" "time" c1 = Ok c2 ->
  create_spatial_data c2 = Ok sp ->
  join_bairros_data sp bairros = Ok j1 ->
  join_vias_data j1 vias = Ok j2 ->
  join_vias_data j2 osm_vias = Ok j3 ->
  disjoint_labels (names bairros) (names sp)
  /\ disjoint_labels (names vias) (names j1)
  /\ disjoint_labels (names osm_vias) (names j2)
  /\ names sp = CLEAN_COLS ++ [ "datetime"; "geometry" ]
  /\ names j1 = "bairro" :: names sp
  /\ names j2 = names j1 ++ [ "nome_via"; "tipo_via_cwb"; "tipo_via_ctb" ]
  /\ names j3 = names j2 ++ [ "spd_limit" ].
Proof.
  intros Hb Hv Ho Hc1 Hc2 Hsp Hj1 Hj2 Hj3.
  destruct (pipeline_disjoint _ _ _ _ _ _ _ _ _ _ _ _ _
              Hb Hv Ho Hc1 Hc2 Hsp Hj1 Hj2 Hj3) as (Hd1 & Hd2 & Hd3).
  destruct (pipeline_names _ _ _ _ _ _ _ _ _ _ _ _ _
              Hb Hv Ho Hc1 Hc2 Hsp Hj1 Hj2 Hj3)
    as (_ & _ & _ & Hnsp & Hnj1 & Hnj2 & Hnj3).
  auto 10.
Qed.

Lemma join_vias_data_no_fewer_rows (ndsbr_data vias_data out : DataFrame) :
  aligned ndsbr_data -> aligned vias_data ->
  disjoint_labels (names vias_data) (names ndsbr_data) ->
  join_vias_data ndsbr_data vias_data = Ok out ->
  (nrows ndsbr_data <= nrows out)%nat.
Proof.
  intros Haln Halv Hdis Hj.
  destruct (join_vias_data_rows_of _ _ _ Haln Halv Hdis Hj)
    as (pts & lines & _ & _ & Hlen & Hrows & _).
  rewrite Hrows, <- Hlen; apply left_pairs_length.
Qed.

(** X12: [main] loses no fix and invents none on the way to
    [fix_col_order].  On aligned tables, the spatial table has one row per
    row of the raw table, every row of the table that reaches
    [fix_col_order] carries the cleaned telemetry and the timestamp of one
    row of the spatial table, unchanged, and every row of the spatial table
    is found there. *)
Theorem main_keeps_fixes
  (bairros_file vias_file osm_file nds_data : DataFrame)
  (bairros vias osm_vias c1 c2 sp j1 j2 j3 filled : DataFrame) :
  aligned nds_data -> aligned vias_file -> aligned osm_file ->
  load_bairros bairros_file = Ok bairros ->
  load_vias_cwb vias_file = Ok vias ->
  import_osm osm_file = Ok osm_vias ->
  clean_cols nds_data = Ok c1 ->
  create_datetime "date" "time" c1 = Ok c2 ->
  create_spatial_data c2 = Ok sp ->
  join_bairros_data sp bairros = Ok j1 ->
  join_vias_data j1 vias = Ok j2 ->
  join_vias_data j2 osm_vias = Ok j3 ->
  fill_missing_speed j3 = Ok filled ->
  nrows sp = nrows nds_data
  /\ (nrows nds_data <= nrows filled)%nat
  /\ rows_of (CLEAN_COLS ++ [ "datetime" ]) filled sp.
Proof.
  intros Hraw Hvias_file Hosm_file Hb Hv Ho Hc1 Hc2 Hsp Hj1 Hj2 Hj3 Hfilled.
  destruct (pipeline_disjoint _ _ _ _ _ _ _ _ _ _ _ _ _
              Hb Hv Ho Hc1 Hc2 Hsp Hj1 Hj2 Hj3) as (Hd1 & Hd2 & Hd3).
  destruct (pipeline_names _ _ _ _ _ _ _ _ _ _ _ _ _
              Hb Hv Ho Hc1 Hc2 Hsp Hj1 Hj2 Hj3)
    as (_ & _ & _ & Hnsp & Hnj1 & Hnj2 & Hnj3).
  destruct (clean_cols_aligned _ _ Hc1) as (Hi1 & _ & Ha1).
  destruct (create_datetime_aligned _ _ Hc2) as (Hi2 & _ & Ha2).
  destruct (create_spatial_data_aligned _ _ Hsp) as (Hi3 & Ha3).
  assert (Hasp : aligned sp) by auto.
  destruct (join_bairros_data_aligned _ _ _ Hj1) as (Haj1 & _).
  destruct (join_vias_data_aligned _ _ _ Hj2) as (Haj2 & _).
  assert (Hav : aligned vias).
  { apply (loaders_aligned vias_file vias); auto. }
  assert (Hao : aligned osm_vias).
  { apply (loaders_aligned osm_file osm_vias); auto. }
  assert (Hrows : nrows sp = nrows nds_data).
  { unfold nrows; now rewrite Hi3, Hi2, Hi1. }
  split; [exact Hrows |]; split.
  - rewrite <- Hrows.
    destruct (fill_missing_speed_aligned _ _ Hfilled) as (Hif & _).
    pose proof (join_vias_data_no_fewer_rows _ _ _ Haj2 Hao Hd3 Hj3) as Hle3.
    pose proof (join_vias_data_no_fewer_rows _ _ _ Haj1 Hav Hd2 Hj2) as Hle2.
    assert (Hle1 : (nrows sp <= nrows j1)%nat).
    { destruct (join_bairros_data_inv _ _ _ Hd1 Hj1)
        as (b' & polys & pts & _ & _ & _ & Hpts & _ & _ & ->).
      unfold nrows at 2, take_labels; cbn [index].
      rewrite !length_map, <- (aligned_column _ _ _ Hasp Hpts).
      apply right_pairs_length. }
    unfold nrows at 2; rewrite Hif; fold (nrows j3); lia.
  - pose proof (join_bairros_data_rows _ _ _ Hasp Hd1 Hj1) as R1.
    destruct (join_vias_data_rows_of _ _ _ Haj1 Hav Hd2 Hj2)
      as (? & ? & _ & _ & _ & _ & R2).
    destruct (join_vias_data_rows_of _ _ _ Haj2 Hao Hd3 Hj3)
      as (? & ? & _ & _ & _ & _ & R3).
    pose proof (fill_missing_speed_rows (CLEAN_COLS ++ [ "datetime" ]) _ _
                  ltac:(unfold CLEAN_COLS; simpl; intuition discriminate)
                  Hfilled) as R4.
    eapply rows_of_trans; [| exact R4].
    eapply rows_of_trans;
      [| eapply rows_of_incl; [| exact R3]].
    eapply rows_of_trans;
      [| eapply rows_of_incl; [| exact R2]].
    eapply rows_of_incl; [| exact R1].
    + rewrite Hnsp; intros c Hin; apply in_app_iff.
      apply in_app_iff in Hin as [Hin | Hin]; [now left | right].
      simpl in *; tauto.
    + rewrite Hnj1, Hnsp; unfold CLEAN_COLS.
      intros c Hin; simpl in Hin; simpl.
      repeat (destruct Hin as [<- | Hin]; [tauto |]); destruct Hin.
    + rewrite Hnj2, Hnj1, Hnsp; unfold CLEAN_COLS.
      intros c Hin; simpl in Hin; simpl.
      repeat (destruct Hin as [<- | Hin]; [tauto |]); destruct Hin.
Qed.

End PipelineRows.

Lemma main_joins_rename_nothing_witness :
  names SampleJoin.with_osm
  = names SampleJoin.with_vias ++ [ "spd_limit" ]
  /\ disjoint_labels (names SampleJoin.osm_vias) (names SampleJoin.with_vias).
Proof.
  destruct (@main_joins_rename_nothing Planar.backend
              SampleJoin.bairros_file SampleJoin.vias_file SampleJoin.osm_file
              Sample.raw SampleJoin.bairros SampleJoin.vias SampleJoin.osm_vias
              Sample.cleaned
              (Sample.or_else (create_datetime "date" "time" Sample.cleaned)
                              Sample.cleaned)
              SampleJoin.spatial SampleJoin.with_bairros SampleJoin.with_vias
              SampleJoin.with_osm)
    as (_ & _ & Hd & _ & _ & _ & Hn); try (vm_compute; reflexivity).
  split; assumption.
Defined.

Lemma main_keeps_fixes_witness :
  nrows SampleJoin.spatial = nrows Sample.raw
  /\ rows_of (CLEAN_COLS ++ [ "datetime" ]) SampleJoin.filled SampleJoin.spatial.
Proof.
  destruct (@main_keeps_fixes Planar.backend
              SampleJoin.bairros_file SampleJoin.vias_file SampleJoin.osm_file
              Sample.raw SampleJoin.bairros SampleJoin.vias SampleJoin.osm_vias
              Sample.cleaned
              (Sample.or_else (create_datetime "date" "time" Sample.cleaned)
                              Sample.cleaned)
              SampleJoin.spatial SampleJoin.with_bairros SampleJoin.with_vias
              SampleJoin.with_osm SampleJoin.filled)
    as (Hrows & _ & Hof);
    try (vm_compute; reflexivity); try cells_aligned.
  split; assumption.
Defined.

(** ** When the joins raise *)

Section JoinsReturn.

Context `{GeoBackend}.

Lemma to_crs_returns (d : Z) (df : DataFrame) :
  (exists df', to_crs (Some d) df = Ok df')
  <-> crs df <> None /\ In "geometry" (names df).
Proof.
  split.
  - intros (df' & Ht).
    apply to_crs_inv in Ht as (d' & c & g & _ & Hc & Hg & _).
    split; [congruence |].
    destruct (in_dec string_dec "geometry" (names df)) as [| Hn]; [assumption |].
    apply lookup_None in Hn; unfold column in Hg; congruence.
  - intros (Hc & Hg); unfold to_crs.
    destruct (crs df) as [c |]; [| congruence].
    destruct (column_In_names _ _ Hg) as (g & Hcol).
    apply getitem_Ok in Hcol; rewrite Hcol; cbn [bind]; eauto.
Qed.

Lemma geometry_keeps_its_label (suffix : string) (l : list (string * Series)) :
  suffixed suffix (map fst (without_geometry l)) "geometry" = "geometry".
Proof.
  unfold suffixed.
  destruct (existsb _ _) eqn:He; [| reflexivity].
  apply existsb_eqb_In, In_without_geometry in He as [_ Hne]; congruence.
Qed.

Lemma sjoin_nearest_left_returns (left right : DataFrame) (d : Q) :
  (exists out, sjoin_nearest_left left right d = Ok out)
  <-> In "geometry" (names left) /\ In "geometry" (names right)
      /\ existsb reserved (names left) = false
      /\ existsb reserved (names right) = false.
Proof.
  unfold sjoin_nearest_left; split.
  - intros (out & Hj).
    destruct (existsb reserved (names left)); [discriminate |].
    destruct (existsb reserved (names right)); [discriminate |].
    cbn [orb] in Hj.
    apply bind_ok in Hj as (lg & Hlg & Hj).
    apply bind_ok in Hj as (rg & Hrg & _).
    apply getitem_Ok in Hlg, Hrg; unfold column in Hlg, Hrg.
    repeat split;
      match goal with
      | |- In "geometry" (names ?t) =>
          destruct (in_dec string_dec "geometry" (names t)) as [| Hn];
          [assumption | apply lookup_None in Hn; congruence]
      end.
  - intros (Hgl & Hgr & -> & ->); cbn [orb].
    destruct (column_In_names _ _ Hgl) as (lg & Hlg).
    destruct (column_In_names _ _ Hgr) as (rg & Hrg).
    apply getitem_Ok in Hlg, Hrg; rewrite Hlg, Hrg; cbn [bind]; eauto.
Qed.

Lemma sjoin_nearest_left_geometry (left right out : DataFrame) (d : Q) :
  sjoin_nearest_left left right d = Ok out ->
  crs out = crs left /\ In "geometry" (names out)
  /\ In "index_right" (names out).
Proof.
  intros Hj.
  assert (Hret : exists o, sjoin_nearest_left left right d = Ok o) by eauto.
  apply sjoin_nearest_left_returns in Hret as (Hgl & _).
  rewrite (names_sjoin_nearest _ _ _ _ Hj).
  unfold sjoin_nearest_left in Hj.
  destruct (existsb reserved (names left) || existsb reserved (names right));
    [discriminate |].
  apply bind_ok in Hj as (lg & _ & Hj).
  apply bind_ok in Hj as (rg & _ & Hj); injection Hj as <-.
  split; [reflexivity |]; unfold sjoin_left_names; split.
  - apply in_app_iff; left; apply in_map_iff.
    exists "geometry"; split; [| assumption].
    unfold names; rewrite <- names_without_geometry.
    apply geometry_keeps_its_label.
  - apply in_app_iff; right; now left.
Qed.

Lemma to_metric_returns (df : DataFrame) :
  (exists df', (if negb (crs_eqb (crs df) (Some 31982))
                then to_crs (Some 31982) df else Ok df) = Ok df')
  <-> crs df <> None /\ (crs df = Some 31982 \/ In "geometry" (names df)).
Proof.
  destruct (crs_eqb (crs df) (Some 31982)) eqn:Hc; cbn [negb].
  - assert (Heq : crs df = Some 31982).
    { destruct (crs df) as [c |]; [| discriminate].
      simpl in Hc; apply Z.eqb_eq in Hc; now subst. }
    split; [intros _; split; [congruence | now left] | eauto].
  - rewrite to_crs_returns; split; [tauto |].
    intros (Hn & [Heq | Hg]); [| tauto].
    rewrite Heq in Hc; discriminate.
Qed.

Lemma join_vias_data_returns_only_if (ndsbr_data vias_data out : DataFrame) :
  join_vias_data ndsbr_data vias_data = Ok out ->
  crs ndsbr_data <> None /\ crs vias_data <> None
  /\ In "geometry" (names ndsbr_data) /\ In "geometry" (names vias_data)
  /\ existsb reserved (names ndsbr_data) = false
  /\ existsb reserved (names vias_data) = false.
Proof.
  unfold join_vias_data; intros Hj.
  apply bind_ok in Hj as (n & Hn & Hj).
  apply bind_ok in Hj as (v & Hv & Hj).
  apply bind_ok in Hj as (gdf & Hgdf & _).
  assert (Hrn : exists n', (if negb (crs_eqb (crs ndsbr_data) (Some 31982))
                            then to_crs (Some 31982) ndsbr_data
                            else Ok ndsbr_data) = Ok n') by eauto.
  assert (Hrv : exists v', (if negb (crs_eqb (crs vias_data) (Some 31982))
                            then to_crs (Some 31982) vias_data
                            else Ok vias_data) = Ok v') by eauto.
  apply to_metric_returns in Hrn as (Hcn & _).
  apply to_metric_returns in Hrv as (Hcv & _).
  apply to_metric_inv in Hn as (_ & Hnn & _).
  apply to_metric_inv in Hv as (_ & Hvn & _).
  assert (Hret : exists o, sjoin_nearest_left n v 20 = Ok o) by eauto.
  apply sjoin_nearest_left_returns in Hret.
  rewrite Hnn, Hvn in Hret; tauto.
Qed.

Lemma join_vias_data_returns_if (ndsbr_data vias_data : DataFrame) :
  crs ndsbr_data <> None -> crs vias_data <> None ->
  In "geometry" (names ndsbr_data) -> In "geometry" (names vias_data) ->
  existsb reserved (names ndsbr_data) = false ->
  existsb reserved (names vias_data) = false ->
  exists out, join_vias_data ndsbr_data vias_data = Ok out.
Proof.
  intros Hcn Hcv Hgn Hgv Hrn Hrv; unfold join_vias_data.
  destruct (proj2 (to_metric_returns ndsbr_data)) as (n & Hn); [tauto |].
  destruct (proj2 (to_metric_returns vias_data)) as (v & Hv); [tauto |].
  rewrite Hn, Hv; cbn [bind].
  apply to_metric_inv in Hn as (_ & Hnn & _ & _ & Hncrs).
  apply to_metric_inv in Hv as (_ & Hvn & _).
  destruct (proj2 (sjoin_nearest_left_returns n v 20)) as (gdf & Hgdf);
    [rewrite Hnn, Hvn; tauto |].
  rewrite Hgdf; cbn [bind].
  apply sjoin_nearest_left_geometry in Hgdf as (Hcrs & Hgeo & Hidx).
  destruct (proj2 (to_crs_returns 4674 gdf)) as (gdf' & Hgdf');
    [split; [congruence | assumption] |].
  rewrite Hgdf'; cbn [bind].
  apply names_to_crs in Hgdf'.
  unfold drop, has_column; rewrite Hgdf'.
  rewrite (proj2 (existsb_eqb_In _ _) Hidx); eauto.
Qed.

(** X13: [join_vias_data] returns exactly when both tables have a
    reference system and a geometry column and neither has a column labelled
    [index_left] or [index_right]; in every other case it raises.  No
    coordinate, no distance and no clash of attribute labels can make it
    raise. *)
Theorem join_vias_data_returns_iff (ndsbr_data vias_data : DataFrame) :
  (exists out, join_vias_data ndsbr_data vias_data = Ok out)
  <-> crs ndsbr_data <> None /\ crs vias_data <> None
      /\ In "geometry" (names ndsbr_data) /\ In "geometry" (names vias_data)
      /\ existsb reserved (names ndsbr_data) = false
      /\ existsb reserved (names vias_data) = false.
Proof.
  split.
  - intros (out & Hj); eapply join_vias_data_returns_only_if; eauto.
  - intros (Hcn & Hcv & Hgn & Hgv & Hrn & Hrv).
    now apply join_vias_data_returns_if.
Qed.

(** X14: [join_bairros_data] returns exactly when both tables have a
    geometry column, neither has a column labelled [index_left] or
    [index_right], and their reference systems are equal or both set: a
    layer without reference system can only be joined to points without
    one. *)
Theorem join_bairros_data_returns_iff (ndsbr_data bairros_data : DataFrame) :
  (exists out, join_bairros_data ndsbr_data bairros_data = Ok out)
  <-> In "geometry" (names ndsbr_data) /\ In "geometry" (names bairros_data)
      /\ existsb reserved (names ndsbr_data) = false
      /\ existsb reserved (names bairros_data) = false
      /\ (crs ndsbr_data = crs bairros_data
          \/ (crs ndsbr_data <> None /\ crs bairros_data <> None)).
Proof.
  assert (Heqb : forall a b, crs_eqb a b = true <-> a = b).
  { intros [a |] [b |]; simpl; rewrite ?Z.eqb_eq;
      split; intros Heq; congruence. }
  unfold join_bairros_data; split.
  - intros (out & Hj).
    apply bind_ok in Hj as (b & Hb & Hj).
    apply bind_ok in Hj as (gdf & Hgdf & _).
    assert (Hnb : names b = names bairros_data
                  /\ (crs ndsbr_data = crs bairros_data
                      \/ (crs ndsbr_data <> None /\ crs bairros_data <> None))).
    { destruct (crs_eqb (crs ndsbr_data) (crs bairros_data)) eqn:Hc;
        cbn [negb] in Hb.
      - injection Hb as <-; split; [reflexivity | left; now apply Heqb].
      - split; [eapply names_to_crs; eauto |].
        apply to_crs_inv in Hb as (d & c & g & Hd & Hcb & _).
        right; split; congruence. }
    destruct Hnb as (Hnb & Hcrs).
    unfold sjoin_right_contains in Hgdf; rewrite Hnb in Hgdf.
    destruct (existsb reserved (names bairros_data)); [discriminate |].
    destruct (existsb reserved (names ndsbr_data)); [discriminate |].
    cbn [orb] in Hgdf.
    apply bind_ok in Hgdf as (lg & Hlg & Hgdf).
    apply bind_ok in Hgdf as (rg & Hrg & _).
    apply getitem_Ok in Hlg, Hrg; unfold column in Hlg, Hrg.
    rewrite <- Hnb.
    repeat split; try assumption;
      match goal with
      | |- In "geometry" (names ?t) =>
          destruct (in_dec string_dec "geometry" (names t)) as [| Hn];
          [assumption | apply lookup_None in Hn; congruence]
      end.
  - intros (Hgn & Hgb & Hrn & Hrb & Hcrs).
    assert (Hb : exists b, (if negb (crs_eqb (crs ndsbr_data) (crs bairros_data))
                            then to_crs (crs ndsbr_data) bairros_data
                            else Ok bairros_data) = Ok b
                           /\ names b = names bairros_data).
    { destruct (crs_eqb (crs ndsbr_data) (crs bairros_data)) eqn:Hc;
        cbn [negb]; [eauto |].
      destruct Hcrs as [Heq | (Hn & Hb)];
        [apply Heqb in Heq; congruence |].
      destruct (crs ndsbr_data) as [d |]; [| congruence].
      destruct (proj2 (to_crs_returns d bairros_data)) as (b & Hb');
        [tauto |].
      exists b; split; [assumption | eapply names_to_crs; eauto]. }
    destruct Hb as (b & -> & Hnb); cbn [bind].
    assert (Hgb' : In "geometry" (names b)) by now rewrite Hnb.
    destruct (column_In_names _ _ Hgn) as (pts & Hpts).
    destruct (column_In_names _ _ Hgb') as (polys & Hpolys).
    unfold sjoin_right_contains, getitem.
    rewrite Hnb, Hrb, Hrn; cbn [orb].
    unfold column in Hpolys, Hpts; rewrite Hpolys, Hpts; cbn [bind].
    unfold drop, has_column, names; cbn [columns map fst existsb].
    rewrite String.eqb_refl; cbn [orb]; eauto.
Qed.

(** X15: a table [join_vias_data] returned can be joined again, as
    [main] does with the OSM streets: on tables whose labels do not clash,
    the second call returns as soon as the second street table has a
    reference system and a geometry column and no column labelled
    [index_left] or [index_right]. *)
Theorem join_vias_data_twice (ndsbr_data vias_data more_vias out : DataFrame) :
  disjoint_labels (names vias_data) (names ndsbr_data) ->
  join_vias_data ndsbr_data vias_data = Ok out ->
  crs more_vias <> None -> In "geometry" (names more_vias) ->
  existsb reserved (names more_vias) = false ->
  exists out', join_vias_data out more_vias = Ok out'.
Proof.
  intros Hdis Hj Hc Hg Hr.
  destruct (join_vias_data_returns_only_if _ _ _ Hj)
    as (_ & _ & Hgn & _ & Hrn & Hrv).
  pose proof (names_join_vias_data _ _ _ Hj) as Hn.
  destruct (join_vias_data_inv _ _ _ Hdis Hj)
    as (n' & v' & pts & lines & Hnn & _ & Hvn & _ & _ & _ & Hgeo & Hout).
  assert (Hnames : forall c, In c (names out) ->
            In c (names ndsbr_data) \/ In c (names vias_data)).
  { intros c Hin; rewrite Hout in Hin; unfold names in Hin; cbn [columns] in Hin.
    rewrite map_app in Hin; apply in_app_iff in Hin as [Hin | Hin].
    - left; rewrite names_set_column_In in Hin.
      + rewrite map_map in Hin; cbn [fst] in Hin; now rewrite <- Hnn.
      + rewrite map_map; cbn [fst].
        destruct (in_dec string_dec "geometry" (map fst (columns n')))
          as [| Hno]; [assumption |].
        apply lookup_None in Hno; unfold column in Hgeo; congruence.
    - right; rewrite map_map in Hin; cbn [fst] in Hin.
      apply In_without_geometry in Hin as [Hin _]; now rewrite <- Hvn. }
  apply join_vias_data_returns_if; try assumption.
  - rewrite Hout; discriminate.
  - rewrite Hout; unfold names; cbn [columns]; rewrite map_app.
    apply in_app_iff; left.
    assert (HgL : In "geometry"
                    (map fst (map (fun c => (fst c,
                                take (map fst (left_pairs 20 pts lines 0)) (snd c)))
                                  (columns n')))).
    { rewrite map_map; cbn [fst].
      change (In "geometry" (names n')); now rewrite Hnn. }
    now rewrite names_set_column_In.
  - destruct (existsb reserved (names out)) eqn:He; [| reflexivity].
    apply existsb_exists in He as (c & Hin & Hres).
    apply Hnames in Hin as [Hin | Hin].
    + destruct (not_reserved _ _ Hrn Hin) as (Hl & Hrr).
      unfold reserved in Hres; apply orb_true_iff in Hres as [He | He];
        apply String.eqb_eq in He; contradiction.
    + destruct (not_reserved _ _ Hrv Hin) as (Hl & Hrr).
      unfold reserved in Hres; apply orb_true_iff in Hres as [He | He];
        apply String.eqb_eq in He; contradiction.
Qed.

End JoinsReturn.

Lemma join_vias_data_twice_witness :
  exists out', @join_vias_data Planar.backend SampleJoin.with_vias
                 SampleJoin.osm_vias = Ok out'.
Proof.
  apply (@join_vias_data_twice Planar.backend SampleJoin.with_bairros
           SampleJoin.vias SampleJoin.osm_vias SampleJoin.with_vias).
  - labels_apart.
  - vm_compute; reflexivity.
  - discriminate.
  - simpl; tauto.
  - reflexivity.
Defined.

Lemma join_vias_data_returns_iff_witness :
  (exists out, @join_vias_data Planar.backend SampleJoin.with_bairros
                 SampleJoin.vias = Ok out)
  /\ ~ (exists out, @join_vias_data Planar.backend SampleDates.strict
                      SampleJoin.vias = Ok out).
Proof.
  split.
  - apply (proj2 (@join_vias_data_returns_iff Planar.backend _ _)).
    repeat split; try discriminate; simpl; tauto.
  - intros Hex.
    apply (proj1 (@join_vias_data_returns_iff Planar.backend _ _)) in Hex
      as (Hcrs & _).
    now apply Hcrs.
Defined.

Lemma join_bairros_data_returns_iff_witness :
  (exists out, @join_bairros_data Planar.backend SampleJoin.spatial
                 SampleJoin.bairros = Ok out)
  /\ ~ (exists out, @join_bairros_data Planar.backend SampleJoin.spatial
                      SampleDates.strict = Ok out).
Proof.
  split.
  - apply (proj2 (@join_bairros_data_returns_iff Planar.backend _ _)).
    repeat split; try (simpl; tauto).
    right; split; discriminate.
  - intros Hex.
    apply (proj1 (@join_bairros_data_returns_iff Planar.backend _ _)) in Hex
      as (_ & Hgeo & _).
    simpl in Hgeo; repeat destruct Hgeo as [Hgeo | Hgeo]; try discriminate;
      exact Hgeo.
Defined.

(** ** Well-formed dates through [create_datetime] *)

Lemma digit_char_spec (q : Z) :
  0 <= q <= 9 ->
  is_digit (digit_char q) = true /\ digit_val (digit_char q) = q
  /\ is_space (digit_char q) = false.
Proof.
  intros Hq.
  replace q with (Z.of_nat (Z.to_nat q)) by lia.
  assert (Hk : (Z.to_nat q < 10)%nat) by lia.
  revert Hk; generalize (Z.to_nat q); intros k Hk.
  do 10 (destruct k as [| k]; [repeat split |]); lia.
Qed.

Lemma alternatives_two (d : directive) (n : Z) (r : list ascii) :
  d <> DY -> field_range d n ->
  alternatives d (two_digit n ++ r)
  = (n, r) :: tl (alternatives d (two_digit n ++ r)).
Proof.
  intros Hd Hn.
  assert (Hk : (Z.to_nat n < 60)%nat)
    by (destruct d; try (exfalso; now apply Hd); simpl in Hn; lia).
  assert (Hz : n = Z.of_nat (Z.to_nat n))
    by (destruct d; try (exfalso; now apply Hd); simpl in Hn; lia).
  rewrite Hz in Hn |- *.
  revert Hk Hn; generalize (Z.to_nat n); clear Hz; intros k Hk Hn.
  destruct d; try (exfalso; now apply Hd); simpl in Hn;
    do 60 (destruct k as [| k]; [first [lia | vm_compute; reflexivity] |]);
    lia.
Qed.

Lemma alternatives_four (n : Z) (r : list ascii) :
  0 <= n <= 9999 -> alternatives DY (four_digit n ++ r) = [ (n, r) ].
Proof.
  intros Hn; unfold four_digit; cbn [app alternatives].
  destruct (digit_char_spec (n / 1000)) as (-> & V1 & _);
    [Z.div_mod_to_equations; lia |].
  destruct (digit_char_spec (n / 100 mod 10)) as (-> & V2 & _);
    [Z.div_mod_to_equations; lia |].
  destruct (digit_char_spec (n / 10 mod 10)) as (-> & V3 & _);
    [Z.div_mod_to_equations; lia |].
  destruct (digit_char_spec (n mod 10)) as (-> & V4 & _);
    [Z.div_mod_to_equations; lia |].
  cbn [andb]; unfold nat_of_digits; cbn [fold_left].
  rewrite V1, V2, V3, V4; do 2 f_equal.
  Z.div_mod_to_equations; lia.
Qed.

Lemma first_match_nil (acc : civil) :
  first_match (acc, []) (regex_match [] [] acc).
Proof. now exists []. Qed.

Lemma first_match_lit (x : civil * list ascii) (a : ascii)
  (items : list fmt_item) (r : list ascii) (acc : civil) :
  first_match x (regex_match items r acc) ->
  first_match x (regex_match (Lit a :: items) (a :: r) acc).
Proof.
  intros Hm; cbn [regex_match]; unfold ascii_eqb; now rewrite Ascii.eqb_refl.
Qed.

Lemma first_match_field (x : civil * list ascii) (d : directive) (n : Z)
  (items : list fmt_item) (r : list ascii) (acc : civil) :
  field_range d n ->
  first_match x (regex_match items r (set_field d n acc)) ->
  first_match x (regex_match (Field d :: items) (field_text d n ++ r) acc).
Proof.
  intros Hn (more & Hm); cbn [regex_match].
  assert (Ha : exists alts, alternatives d (field_text d n ++ r) = (n, r) :: alts).
  { destruct d; cbn [field_text];
      try (rewrite alternatives_two; [eauto | discriminate | assumption]).
    rewrite alternatives_four by assumption; eauto. }
  destruct Ha as (alts & ->); cbn [flat_map fst snd].
  rewrite Hm; cbn [app]; now eexists.
Qed.

Lemma first_match_spaces (x : civil * list ascii) (q : Z)
  (items : list fmt_item) (r : list ascii) (acc : civil) :
  0 <= q <= 9 ->
  first_match x (regex_match items (digit_char q :: r) acc) ->
  first_match x (regex_match (Spaces :: items) (" "%char :: digit_char q :: r) acc).
Proof.
  intros Hq (more & Hm); cbn [regex_match space_tails].
  change (is_space " ") with true; cbv iota.
  destruct (digit_char_spec q Hq) as (_ & _ & ->).
  cbn [app flat_map]; rewrite Hm; cbn [app]; now eexists.
Qed.

Lemma nanoseconds_in_bounds (c : civil) :
  representable c = true -> in_bounds (nanoseconds c) = true.
Proof.
  unfold representable, valid_date, valid_clock, in_bounds, nanoseconds.
  destruct c as [y m d h mi s]; cbn [year month day hour minute second].
  intros Hr.
  repeat (apply andb_true_iff in Hr as [Hr ?]).
  assert (Hd31 : days_in_month y m <= 31).
  { unfold days_in_month.
    repeat match goal with |- context [if ?b then _ else _] => destruct b end;
      lia. }
  assert (Hdays : -106700 <= days_from_civil y m d <= 106700).
  { unfold days_from_civil.
    destruct (m <=? 2) eqn:Hm; Z.div_mod_to_equations; lia. }
  apply andb_true_iff; split; apply Z.ltb_lt;
    change (2 ^ 63) with 9223372036854775808; lia.
Qed.

Lemma representable_fields (c : civil) :
  representable c = true ->
  field_range Dd (day c) /\ field_range Dm (month c) /\ field_range DY (year c)
  /\ field_range DH (hour c) /\ field_range DM (minute c)
  /\ field_range DS (second c).
Proof.
  unfold representable, valid_date, valid_clock, field_range.
  intros Hr; repeat (apply andb_true_iff in Hr as [Hr ?]).
  assert (Hd31 : days_in_month (year c) (month c) <= 31).
  { unfold days_in_month.
    repeat match goal with |- context [if ?b then _ else _] => destruct b end;
      lia. }
  lia.
Qed.

Lemma representable_midnight (c : civil) :
  representable c = true -> representable (midnight c) = true.
Proof.
  unfold representable, valid_date, valid_clock, midnight.
  cbn [year month day hour minute second].
  intros Hr; repeat (apply andb_true_iff in Hr as [Hr ?]).
  repeat (apply andb_true_iff; split); try assumption; reflexivity.
Qed.

Lemma strptime_stamp (c : civil) :
  representable c = true ->
  strptime "%d/%m/%Y %H:%M:%S" ((date_text c ++ " ") ++ time_text c)
  = Ok (nanoseconds c).
Proof.
  intros Hr.
  destruct (representable_fields c Hr) as (Fd & Fm & Fy & Fh & Fmi & Fs).
  unfold strptime.
  change (compile_format (list_ascii_of_string "%d/%m/%Y %H:%M:%S"))
    with (Some [Field Dd; Lit "/"; Field Dm; Lit "/"; Field DY; Spaces;
                Field DH; Lit ":"; Field DM; Lit ":"; Field DS]).
  assert (Htext : list_ascii_of_string ((date_text c ++ " ") ++ time_text c)
                  = field_text Dd (day c) ++ "/"%char
                    :: field_text Dm (month c) ++ "/"%char
                    :: field_text DY (year c) ++ " "%char
                    :: digit_char (hour c / 10) :: digit_char (hour c mod 10)
                    :: ":"%char :: field_text DM (minute c) ++ ":"%char
                    :: field_text DS (second c) ++ []).
  { rewrite !list_ascii_of_string_app; unfold date_text, time_text.
    rewrite !list_ascii_of_string_of_list_ascii; reflexivity. }
  rewrite Htext.
  assert (Hm : first_match (c, [])
                 (regex_match
                    [Field Dd; Lit "/"; Field Dm; Lit "/"; Field DY; Spaces;
                     Field DH; Lit ":"; Field DM; Lit ":"; Field DS]
                    (field_text Dd (day c) ++ "/"%char
                     :: field_text Dm (month c) ++ "/"%char
                     :: field_text DY (year c) ++ " "%char
                     :: digit_char (hour c / 10) :: digit_char (hour c mod 10)
                     :: ":"%char :: field_text DM (minute c) ++ ":"%char
                     :: field_text DS (second c) ++ [])
                    civil_default)).
  { apply first_match_field; [assumption |].
    apply first_match_lit, first_match_field; [assumption |].
    apply first_match_lit, first_match_field; [assumption |].
    apply first_match_spaces;
      [unfold field_range in Fh; Z.div_mod_to_equations; lia |].
    apply (first_match_field _ DH (hour c)); [assumption |].
    apply first_match_lit, first_match_field; [assumption |].
    apply first_match_lit, first_match_field; [assumption |].
    destruct c; apply first_match_nil. }
  destruct Hm as (more & ->).
  assert (Hv : valid_date c = true).
  { unfold representable in Hr.
    do 3 (apply andb_true_iff in Hr as [Hr _]); exact Hr. }
  now rewrite Hv, nanoseconds_in_bounds.
Qed.

Lemma strptime_date (c : civil) :
  representable c = true ->
  strptime "%d/%m/%Y" (date_text c) = Ok (nanoseconds (midnight c)).
Proof.
  intros Hr.
  destruct (representable_fields c Hr) as (Fd & Fm & Fy & _).
  unfold strptime.
  change (compile_format (list_ascii_of_string "%d/%m/%Y"))
    with (Some [Field Dd; Lit "/"; Field Dm; Lit "/"; Field DY]).
  assert (Htext : list_ascii_of_string (date_text c)
                  = field_text Dd (day c) ++ "/"%char
                    :: field_text Dm (month c) ++ "/"%char
                    :: field_text DY (year c) ++ []).
  { unfold date_text; rewrite list_ascii_of_string_of_list_ascii; reflexivity. }
  rewrite Htext.
  assert (Hm : first_match (midnight c, [])
                 (regex_match [Field Dd; Lit "/"; Field Dm; Lit "/"; Field DY]
                    (field_text Dd (day c) ++ "/"%char
                     :: field_text Dm (month c) ++ "/"%char
                     :: field_text DY (year c) ++ [])
                    civil_default)).
  { apply first_match_field; [assumption |].
    apply first_match_lit, first_match_field; [assumption |].
    apply first_match_lit, first_match_field; [assumption |].
    apply first_match_nil. }
  destruct Hm as (more & ->).
  pose proof (representable_midnight c Hr) as Hr'.
  assert (Hv : valid_date (midnight c) = true).
  { unfold representable in Hr'.
    do 3 (apply andb_true_iff in Hr' as [Hr' _]); exact Hr'. }
  now rewrite Hv, nanoseconds_in_bounds.
Qed.

Lemma eqb_by_length (a b : string) :
  String.length a <> String.length b -> String.eqb a b = false.
Proof. intros Hl; apply String.eqb_neq; intros ->; now apply Hl. Qed.

Lemma long_text_is_no_nat (t : string) :
  (3 < String.length t)%nat ->
  String.eqb t "" || existsb (String.eqb t) nat_strings = false.
Proof.
  intros Hl; unfold nat_strings; cbn [existsb].
  rewrite !eqb_by_length; [reflexivity | ..]; cbn [String.length]; lia.
Qed.

Lemma to_datetime_stamps (cs : list civil) :
  forallb representable cs = true ->
  to_datetime "%d/%m/%Y %H:%M:%S"
    (map (fun c => VStr ((date_text c ++ " ") ++ time_text c)) cs)
  = Ok (map (fun c => VTime (nanoseconds c)) cs).
Proof.
  unfold to_datetime.
  induction cs as [| c cs IH]; intros Hr; [reflexivity |].
  cbn [forallb] in Hr; apply andb_true_iff in Hr as [Hc Hr].
  cbn [map mapM]; rewrite (IH Hr).
  rewrite long_text_is_no_nat by (unfold date_text, time_text; cbn; lia).
  now rewrite (strptime_stamp c Hc).
Qed.

Lemma to_datetime_dates (cs : list civil) :
  forallb representable cs = true ->
  to_datetime "%d/%m/%Y" (map (fun c => VStr (date_text c)) cs)
  = Ok (map (fun c => VTime (nanoseconds (midnight c))) cs).
Proof.
  unfold to_datetime.
  induction cs as [| c cs IH]; intros Hr; [reflexivity |].
  cbn [forallb] in Hr; apply andb_true_iff in Hr as [Hc Hr].
  cbn [map mapM]; rewrite (IH Hr).
  rewrite long_text_is_no_nat by (unfold date_text; cbn; lia).
  now rewrite (strptime_date c Hc).
Qed.

Lemma add_scalar_texts {A : Type} (f : A -> string) (s : string) (l : list A) :
  add_scalar (map (fun a => VStr (f a)) l) s
  = Ok (map (fun a => VStr (f a ++ s)) l).
Proof.
  unfold add_scalar; induction l as [| a l IH]; [reflexivity |].
  cbn [map mapM]; now rewrite IH.
Qed.

Lemma add_series_texts {A : Type} (f g : A -> string) (l : list A) :
  add_series (map (fun a => VStr (f a)) l) (map (fun a => VStr (g a)) l)
  = Ok (map (fun a => VStr (f a ++ g a)) l).
Proof.
  induction l as [| a l IH]; [reflexivity |].
  cbn [map add_series]; now rewrite IH.
Qed.

(** X16: on a table whose dates read [DD/MM/YYYY] and whose times read
    [HH:MM:SS], every field zero-padded, for valid civil times of the years
    1678 to 2261, [create_datetime] returns.  The [datetime] column then
    holds, row by row, the exact count of nanoseconds from 1970-01-01 to that
    time, and the [date] column is overwritten by the stamp of that day at
    midnight. *)
Theorem create_datetime_well_formed (df : DataFrame) (cs : list civil) :
  column "date" df = Some (map (fun c => VStr (date_text c)) cs) ->
  column "time" df = Some (map (fun c => VStr (time_text c)) cs) ->
  forallb representable cs = true ->
  create_datetime "date" "time" df
  = Ok (setitem "date" (map (fun c => VTime (nanoseconds (midnight c))) cs)
          (setitem "datetime" (map (fun c => VTime (nanoseconds c)) cs) df)).
Proof.
  intros Hd Ht Hr; unfold create_datetime.
  apply getitem_Ok in Hd, Ht; rewrite Hd; cbn [bind].
  rewrite (add_scalar_texts date_text " "); cbn [bind].
  rewrite Ht; cbn [bind].
  rewrite (add_series_texts (fun c => (date_text c ++ " ")%string) time_text).
  cbn [bind].
  unfold getitem at 1, setitem at 1; cbn [columns].
  rewrite lookup_set_column_eq; cbn [bind].
  rewrite (to_datetime_stamps cs Hr); cbn [bind].
  unfold getitem at 1, setitem at 1 2; cbn [columns].
  rewrite !lookup_set_column_ne by discriminate.
  apply getitem_Ok in Hd; unfold column in Hd; rewrite Hd; cbn [bind].
  rewrite (to_datetime_dates cs Hr); cbn [bind].
  unfold setitem; cbn [columns index crs].
  now rewrite set_column_twice.
Qed.

Lemma create_datetime_well_formed_witness :
  create_datetime "date" "time" SampleDates.strict
  = Ok (setitem "date" [ VTime (nanoseconds (mkCivil 2020 12 31 0 0 0)) ]
          (setitem "datetime" [ VTime (nanoseconds (mkCivil 2020 12 31 23 59 59)) ]
             SampleDates.strict)).
Proof.
  apply (create_datetime_well_formed SampleDates.strict
           [ mkCivil 2020 12 31 23 59 59 ]); reflexivity.
Defined.

Lemma strptime_in_bounds (fmt s : string) (ns : Z) :
  strptime fmt s = Ok ns -> in_bounds ns = true.
Proof.
  unfold strptime.
  destruct (compile_format _) as [items |]; [| discriminate].
  destruct (regex_match _ _ _) as [| [c [| a rest]] more]; try discriminate.
  destruct (valid_date c); [| discriminate].
  destruct (in_bounds (nanoseconds c)) eqn:Hb; [| discriminate].
  intros Heq; injection Heq as <-; exact Hb.
Qed.

Lemma to_datetime_cells (fmt : string) (s out : Series) :
  to_datetime fmt s = Ok out ->
  length out = length s
  /\ forall v, In v out ->
       v = VNull \/ exists ns, v = VTime ns /\ in_bounds ns = true.
Proof.
  unfold to_datetime; intros Hm; split; [eapply mapM_length; eauto |].
  apply mapM_Forall2 in Hm.
  induction Hm as [| a b l l' Hab _ IH]; intros v Hin; [destruct Hin |].
  destruct Hin as [<- | Hin]; [| now apply IH].
  destruct a as [| t | z | [| neg | q] | ns | g]; try discriminate;
    try (injection Hab as <-; now left).
  destruct (String.eqb t "" || existsb (String.eqb t) nat_strings);
    [injection Hab as <-; now left |].
  apply bind_ok in Hab as (ns & Hns & Hab); injection Hab as <-.
  right; exists ns; split; [reflexivity | eapply strptime_in_bounds; eauto].
Qed.

(** X17: [create_datetime] raises [KeyError] on a table without the
    date column, and raises on a table without the time column.  When it
    returns, the rows and every column other than [date] and [datetime] are
    as they were, [datetime] is added after the other columns unless the
    table had one, and no text is left in either column: each of their cells
    is NaT or a time stamp within the range of a signed 64-bit count of
    nanoseconds. *)
Theorem create_datetime_frame (df : DataFrame) :
  (~ In "date" (names df) ->
   create_datetime "date" "time" df = Raise (KeyError "date"))
  /\ (~ In "time" (names df) ->
      exists e, create_datetime "date" "time" df = Raise e)
  /\ forall df', create_datetime "date" "time" df = Ok df' ->
       index df' = index df /\ crs df' = crs df
       /\ names df' = (if existsb (String.eqb "datetime") (names df)
                       then names df else names df ++ [ "datetime" ])
       /\ (forall c, c <> "date" -> c <> "datetime" ->
           column c df' = column c df)
       /\ exists dates stamps,
            column "date" df' = Some dates
            /\ column "datetime" df' = Some stamps
            /\ forall v, In v dates \/ In v stamps ->
                 v = VNull \/ exists ns, v = VTime ns /\ in_bounds ns = true.
Proof.
  split; [| split].
  - intros Hn; unfold create_datetime.
    now rewrite (getitem_missing _ _ Hn).
  - intros Hn; unfold create_datetime.
    destruct (getitem "date" df) as [d | e]; cbn [bind]; [| eauto].
    destruct (add_scalar d " ") as [ds | e]; cbn [bind]; [| eauto].
    rewrite (getitem_missing _ _ Hn); cbn [bind]; eauto.
  - intros df' Hc.
    assert (Hi := create_datetime_aligned _ _ Hc).
    destruct Hi as (Hi & Hcrs & _).
    split; [exact Hi |]; split; [exact Hcrs |].
    unfold create_datetime in Hc.
    apply bind_ok in Hc as (dates & Hdates & Hc).
    apply bind_ok in Hc as (ds & Hds & Hc).
    apply bind_ok in Hc as (times & Htimes & Hc).
    apply bind_ok in Hc as (dt & Hdt & Hc).
    apply bind_ok in Hc as (dt0 & Hdt0 & Hc).
    apply bind_ok in Hc as (stamps & Hstamps & Hc).
    apply bind_ok in Hc as (dates0 & Hdates0 & Hc).
    apply bind_ok in Hc as (dates' & Hdates' & Hc).
    injection Hc as <-.
    apply getitem_Ok in Hdates.
    assert (Hdate_in : In "date" (names df)).
    { destruct (in_dec string_dec "date" (names df)) as [| Hn]; [assumption |].
      apply lookup_None in Hn; unfold column in Hdates; congruence. }
    split; [| split].
    + rewrite !names_setitem.
      destruct (existsb (String.eqb "datetime") (names df)) eqn:He.
      * rewrite He, (proj2 (existsb_eqb_In "date" (names df))); auto.
      * assert (He' : existsb (String.eqb "datetime") (names df ++ [ "datetime" ])
                      = true).
        { apply existsb_eqb_In, in_app_iff; right; now left. }
        rewrite He'.
        rewrite (proj2 (existsb_eqb_In "date" (names df ++ [ "datetime" ])));
          [reflexivity | apply in_app_iff; now left].
    + intros c Hne1 Hne2; unfold column, setitem; cbn [columns].
      now rewrite !lookup_set_column_ne.
    + exists dates', stamps.
      unfold column, setitem; cbn [columns].
      rewrite lookup_set_column_eq.
      rewrite lookup_set_column_ne, lookup_set_column_eq by discriminate.
      split; [reflexivity |]; split; [reflexivity |].
      apply to_datetime_cells in Hstamps as (_ & Hs).
      apply to_datetime_cells in Hdates' as (_ & Hd).
      intros v [Hin | Hin]; auto.
Qed.

Lemma create_datetime_frame_witness :
  create_datetime "date" "time" (mkDF [0] [ ("time", [ VStr "23:59:59" ]) ] None)
  = Raise (KeyError "date")
  /\ names SampleDates.loose_out = [ "date"; "time"; "datetime" ].
Proof.
  split.
  - apply (proj1 (create_datetime_frame _)).
    simpl; intros [Heq | []]; discriminate.
  - destruct (proj2 (proj2 (create_datetime_frame SampleDates.loose))
                SampleDates.loose_out) as (_ & _ & Hn & _);
      [vm_compute; reflexivity | exact Hn].
Defined.

(** ** Decimal commas through [clean_cols] *)
















(** ** What the neighbourhood join writes *)

Section JoinBairrosAttributes.

Context `{GeoBackend}.

Lemma bairros_geometry_length (ndsbr_data bairros_data : DataFrame)
  (polys : Series) :
  aligned bairros_data ->
  bairros_geometry ndsbr_data bairros_data = Some polys ->
  length polys = nrows bairros_data.
Proof.
  intros Hal; unfold bairros_geometry, reprojected.
  destruct (crs_eqb _ _); [now apply aligned_column |].
  destruct (crs ndsbr_data) as [d |]; [| discriminate].
  destruct (crs bairros_data) as [c |]; [| discriminate].
  destruct (column "geometry" bairros_data) as [g |] eqn:Hg; [| discriminate].
  intros Heq; injection Heq as <-.
  rewrite length_map; now apply (aligned_column bairros_data "geometry").
Qed.

(** X19: the neighbourhood a row is given is one whose polygon contains
    the row's point, the polygons taken in the points' reference system.  On
    aligned tables whose labels do not clash, every row of what
    [join_bairros_data] returns has the point of an input row and either the
    attributes of a polygon that contains that point, or missing values in
    every neighbourhood field when no polygon contains it. *)
Theorem join_bairros_data_contains (ndsbr_data bairros_data out : DataFrame) :
  aligned ndsbr_data -> aligned bairros_data ->
  disjoint_labels (names bairros_data) (names ndsbr_data) ->
  join_bairros_data ndsbr_data bairros_data = Ok out ->
  exists polys pts,
    bairros_geometry ndsbr_data bairros_data = Some polys
    /\ column "geometry" ndsbr_data = Some pts
    /\ forall k, (k < nrows out)%nat ->
         exists p, In p pts /\ cell out "geometry" k = Some p
           /\ ((forall v, In v polys ->
                  match v, p with
                  | VGeom poly, VGeom pt => contains poly pt = false
                  | _, _ => True
                  end)
               /\ (forall c, In c (names bairros_data) -> c <> "geometry" ->
                   cell out c k = Some VNull)
               \/ exists i poly pt,
                    nth_error polys i = Some (VGeom poly) /\ p = VGeom pt
                    /\ contains poly pt = true
                    /\ forall c, In c (names bairros_data) -> c <> "geometry" ->
                                 cell out c k = cell bairros_data c i).
Proof.
  intros Haln Halb Hdis Hj.
  destruct (join_bairros_data_inv _ _ _ Hdis Hj)
    as (b' & polys & pts & Hnames & Hcols & Hgeo & Hpts & Hrl & Hrr & ->).
  exists polys, pts; split; [assumption |]; split; [assumption |].
  pose proof (bairros_geometry_length _ _ _ Halb Hgeo) as Hlp.
  set (pairs := right_pairs polys pts 0) in *.
  intros k Hk.
  assert (Hrows : (k < length pairs)%nat).
  { unfold nrows, take_labels in Hk; cbn [index] in Hk.
    now rewrite !length_map in Hk. }
  destruct (nth_error pairs k) as [[o j] |] eqn:Hp;
    [| apply nth_error_None in Hp; lia].
  pose proof (nth_error_In _ _ Hp) as Hin.
  apply right_pairs_spec in Hin as (_ & p & Hpj & Ho).
  rewrite Nat.sub_0_r in Hpj.
  exists p; split; [eapply nth_error_In; eauto |].
  assert (Hleft : forall c, In c (names bairros_data) -> c <> "geometry" ->
            cell (mkDF (take_labels (map snd pairs) (index ndsbr_data))
                    (map (fun c => (fst c, take_opt (map fst pairs) (snd c)))
                         (without_geometry (columns b'))
                     ++ map (fun c => (fst c, take (map snd pairs) (snd c)))
                            (columns ndsbr_data))
                    (crs ndsbr_data)) c k
            = match o with
              | Some i => cell bairros_data c i
              | None => Some VNull
              end).
  { intros c Hc Hne.
    destruct (column_In_names _ _ Hc) as (s & Hs).
    unfold cell at 1, column; cbn [columns].
    rewrite lookup_app, (lookup_map_snd (take_opt (map fst pairs))).
    rewrite lookup_without_geometry by assumption.
    fold (column c b'); rewrite (Hcols c Hne), Hs; cbn [option_map].
    rewrite nth_error_take_opt, nth_error_map, Hp; cbn [option_map fst].
    destruct o as [i |]; [| reflexivity].
    unfold cell; rewrite Hs; symmetry; apply nth_nth_error.
    rewrite (aligned_column _ _ _ Halb Hs), <- Hlp.
    unfold containing in Ho; destruct p as [| | | | | pt]; try destruct Ho.
    apply find_all_spec in Ho as (_ & a & Ha & _).
    rewrite Nat.sub_0_r in Ha; apply nth_error_Some; congruence. }
  split.
  - unfold cell, column; cbn [columns].
    rewrite lookup_app.
    replace (lookup "geometry"
               (map (fun c => (fst c, take_opt (map fst pairs) (snd c)))
                    (without_geometry (columns b')))) with (@None Series).
    + rewrite (lookup_map_snd (take (map snd pairs))).
      unfold column in Hpts; rewrite Hpts; cbn [option_map].
      rewrite nth_error_take, nth_error_map, Hp; cbn [option_map snd].
      now rewrite (nth_error_nth _ _ VNull Hpj).
    + symmetry; apply lookup_None; rewrite map_map; cbn [fst].
      intros Hin'; apply In_without_geometry in Hin' as [_ Hne]; congruence.
  - destruct o as [i |].
    + right; unfold containing in Ho.
      destruct p as [| | | | | pt]; try destruct Ho.
      apply find_all_spec in Ho as (_ & a & Ha & Hc).
      rewrite Nat.sub_0_r in Ha.
      destruct a as [| | | | | poly]; try discriminate.
      exists i, poly, pt; auto.
    + left; split; [| exact Hleft].
      intros v Hv; destruct v as [| | | | | poly]; try exact I.
      destruct p as [| | | | | pt]; try exact I.
      destruct (contains poly pt) eqn:Hc; [| reflexivity].
      exfalso; apply In_nth_error in Hv as (i & Hi).
      assert (Hin' : In i (containing polys (VGeom pt))).
      { unfold containing; apply find_all_spec; split; [lia |].
        exists (VGeom poly); rewrite Nat.sub_0_r; auto. }
      rewrite Ho in Hin'; destruct Hin'.
Qed.

(** X20: when every step before it returns, [main] stops in
    [fix_col_order] with [KeyError] on the label [nome_bairro], whatever the
    tables read from disk: the error of a run that gets that far is always
    this one. *)
Theorem main_raises_at_fix_col_order
  (bairros_file vias_file osm_file nds_data : DataFrame)
  (bairros vias osm_vias c1 c2 sp j1 j2 j3 filled : DataFrame) :
  load_bairros bairros_file = Ok bairros ->
  load_vias_cwb vias_file = Ok vias ->
  import_osm osm_file = Ok osm_vias ->
  clean_cols nds_data = Ok c1 ->
  create_datetime "date" "time" c1 = Ok c2 ->
  create_spatial_data c2 = Ok sp ->
  join_bairros_data sp bairros = Ok j1 ->
  join_vias_data j1 vias = Ok j2 ->
  join_vias_data j2 osm_vias = Ok j3 ->
  fill_missing_speed j3 = Ok filled ->
  fix_col_order filled = Raise (KeyError "nome_bairro")
  /\ main bairros_file vias_file osm_file nds_data
     = Raise (KeyError "nome_bairro").
Proof.
  intros Hb Hv Ho Hc1 Hc2 Hsp Hj1 Hj2 Hj3 Hf.
  pose proof (names_before_fix_col_order _ _ _ _ _ _ _ _ _ _ _ _ _ _
                Hb Hv Ho Hc1 Hc2 Hsp Hj1 Hj2 Hj3 Hf) as Hnames.
  assert (Hfix : fix_col_order filled = Raise (KeyError "nome_bairro")).
  { destruct (getitem_list_missing FINAL_COLS filled) as (c & Hin & Hnot & Hr).
    - exists "nome_bairro"; split; [simpl; tauto |].
      rewrite Hnames; simpl; intros Hin.
      repeat destruct Hin as [Hin | Hin]; try discriminate; exact Hin.
    - unfold fix_col_order; rewrite Hr; do 2 f_equal.
      rewrite Hnames in Hnot; unfold FINAL_COLS in Hin; simpl in Hin.
      repeat (destruct Hin as [<- | Hin];
              [first [reflexivity | exfalso; apply Hnot; simpl; tauto] |]).
      destruct Hin. }
  split; [exact Hfix |].
  unfold main.
  rewrite Hb; cbn [bind]; rewrite Hv; cbn [bind]; rewrite Ho; cbn [bind].
  rewrite Hc1; cbn [bind]; rewrite Hc2; cbn [bind]; rewrite Hsp; cbn [bind].
  rewrite Hj1; cbn [bind]; rewrite Hj2; cbn [bind]; rewrite Hj3; cbn [bind].
  rewrite Hf; cbn [bind]; exact Hfix.
Qed.

End JoinBairrosAttributes.

Lemma join_bairros_data_contains_witness :
  exists p, cell SampleJoin.with_bairros "geometry" 0 = Some p
            /\ In p [ VGeom (Point (FNum (19 # 100000)) (FNum 0));
                      VGeom (Point (FNum (21 # 100000)) (FNum 0));
                      VGeom (Point (FNum (1 # 100)) FNaN) ].
Proof.
  destruct (@join_bairros_data_contains Planar.backend
              SampleJoin.spatial SampleJoin.bairros SampleJoin.with_bairros)
    as (polys & pts & Hpolys & Hpts & Hrow).
  - cells_aligned.
  - cells_aligned.
  - labels_apart.
  - vm_compute; reflexivity.
  - destruct (Hrow 0%nat) as (p & Hin & Hcell & _);
      [unfold nrows; simpl; lia |].
    vm_compute in Hpts; injection Hpts as <-.
    exists p; split; [exact Hcell | exact Hin].
Defined.

Lemma main_raises_at_fix_col_order_witness :
  @main Planar.backend SampleJoin.bairros_file SampleJoin.vias_file
        SampleJoin.osm_file Sample.raw
  = Raise (KeyError "nome_bairro").
Proof.
  apply (@main_raises_at_fix_col_order Planar.backend
           SampleJoin.bairros_file SampleJoin.vias_file SampleJoin.osm_file
           Sample.raw SampleJoin.bairros SampleJoin.vias SampleJoin.osm_vias
           Sample.cleaned
           (Sample.or_else (create_datetime "date" "time" Sample.cleaned)
                           Sample.cleaned)
           SampleJoin.spatial SampleJoin.with_bairros SampleJoin.with_vias
           SampleJoin.with_osm SampleJoin.filled);
    vm_compute; reflexivity.
Defined.
